(** * CellMind: the prompt-chain engine of the Google Sheets add-on

    A shallow embedding of the chain logic of [CellMindAI-Client.js] (the
    spreadsheet client, with its fallback executor) and [CellMindAILib.js]
    (the library): column discovery, data-reference resolution, chain
    building and the two chain executors.

    Conventions of the model.
    - A JavaScript string is a Rocq [string] holding the bytes of its
      UTF-8 encoding.  [trim] removes the white space and the line
      terminators of ECMAScript: tab, line feed, vertical tab, form feed,
      carriage return, space, U+00A0, U+1680, U+2000 to U+200A, U+2028,
      U+2029, U+202F, U+205F, U+3000 and U+FEFF.  [toLowerCase] acts on
      the ASCII letters and carries the other bytes through unchanged.
    - A spreadsheet cell is a [Value]: a string, a number (integer valued),
      a boolean, or [VUndefined] for an index outside the row.
    - A thrown [Error] is modelled by its message.
    - The services of the platform (spreadsheet, dialogs, stored
      properties, HTTP fetch, JSON) are parameters of the sections that
      use them. *)

From Stdlib Require Import String Ascii List ZArith Lia Bool DecimalString DecimalZ DecimalPos QArith.
Import ListNotations.
Open Scope string_scope.
Open Scope Z_scope.

(* ================================================================== *)
(** * JavaScript strings and values *)
(* ================================================================== *)

Module JS.

Definition LF : string := String "010"%char EmptyString.
Definition TAB : string := String "009"%char EmptyString.
Definition DQUOTE : string := String "034"%char EmptyString.
Definition BANG : ascii := "!"%char.

(** White space removed by [String.prototype.trim]: the characters of
    one byte (tab, line feed, vertical tab, form feed, carriage return,
    space). *)
Definition isWhiteSpace (c : ascii) : bool :=
  let n := nat_of_ascii c in
  ((9 <=? n)%nat && (n <=? 13)%nat) || (n =? 32)%nat.

(** The character of two bytes: U+00A0, encoded C2 A0. *)
Definition isWhiteSpace2 (c d : ascii) : bool :=
  ((nat_of_ascii c =? 194) && (nat_of_ascii d =? 160))%nat.

(** The characters of three bytes: U+1680 (E1 9A 80), U+2000 to U+200A
    (E2 80 80 to E2 80 8A), U+2028 and U+2029 (E2 80 A8, E2 80 A9),
    U+202F (E2 80 AF), U+205F (E2 81 9F), U+3000 (E3 80 80) and U+FEFF
    (EF BB BF). *)
Definition isWhiteSpace3 (c d e : ascii) : bool :=
  let c := nat_of_ascii c in
  let d := nat_of_ascii d in
  let e := nat_of_ascii e in
  (((c =? 225) && (d =? 154) && (e =? 128))
   || ((c =? 226) && (d =? 128)
       && (((128 <=? e) && (e <=? 138)) || (e =? 168) || (e =? 169)
           || (e =? 175)))
   || ((c =? 226) && (d =? 129) && (e =? 159))
   || ((c =? 227) && (d =? 128) && (e =? 128))
   || ((c =? 239) && (d =? 187) && (e =? 191)))%nat.

(** The text behind the white space character [s] begins with, if any. *)
Definition skipWhiteSpace (s : string) : option string :=
  match s with
  | String c s1 =>
      if isWhiteSpace c then Some s1
      else match s1 with
           | String d s2 =>
               if isWhiteSpace2 c d then Some s2
               else match s2 with
                    | String e s3 =>
                        if isWhiteSpace3 c d e then Some s3 else None
                    | EmptyString => None
                    end
           | EmptyString => None
           end
  | EmptyString => None
  end.


Fixpoint trimStart (s : string) : string :=
  match s with
  | String c s1 =>
      if isWhiteSpace c then trimStart s1
      else match s1 with
           | String d s2 =>
               if isWhiteSpace2 c d then trimStart s2
               else match s2 with
                    | String e s3 =>
                        if isWhiteSpace3 c d e then trimStart s3 else s
                    | EmptyString => s
                    end
           | EmptyString => s
           end
  | EmptyString => EmptyString
  end.

(** The text is cut where nothing but white space follows. *)
Fixpoint trimEnd (s : string) : string :=
  match s with
  | EmptyString => EmptyString
  | String c s' =>
      if String.eqb (trimStart s) "" then EmptyString
      else String c (trimEnd s')
  end.

Definition trim (s : string) : string := trimEnd (trimStart s).

Definition toLowerChar (c : ascii) : ascii :=
  let n := nat_of_ascii c in
  if ((65 <=? n)%nat && (n <=? 90)%nat) then ascii_of_nat (n + 32) else c.

Definition toUpperChar (c : ascii) : ascii :=
  let n := nat_of_ascii c in
  if ((97 <=? n)%nat && (n <=? 122)%nat) then ascii_of_nat (n - 32) else c.

Fixpoint mapChars (f : ascii -> ascii) (s : string) : string :=
  match s with
  | EmptyString => EmptyString
  | String c s' => String (f c) (mapChars f s')
  end.

Definition toLowerCase : string -> string := mapChars toLowerChar.
Definition toUpperCase : string -> string := mapChars toUpperChar.

(** [s.startsWith(k)] *)
Fixpoint startsWith (s k : string) {struct k} : bool :=
  match k with
  | EmptyString => true
  | String b k' =>
      match s with
      | EmptyString => false
      | String a s' => Ascii.eqb a b && startsWith s' k'
      end
  end.

(** [s.includes(k)]: [k] occurs in [s] at some position. *)
Fixpoint includes (s k : string) : bool :=
  startsWith s k ||
  match s with
  | EmptyString => false
  | String _ s' => includes s' k
  end.

(** [s.includes(c)] for a one-character needle. *)
Fixpoint includesChar (s : string) (c : ascii) : bool :=
  match s with
  | EmptyString => false
  | String a s' => Ascii.eqb a c || includesChar s' c
  end.

(** [s.split(c)] for a one-character separator. *)
Fixpoint split (s : string) (sep : ascii) : list string :=
  match s with
  | EmptyString => [EmptyString]
  | String c s' =>
      if Ascii.eqb c sep then EmptyString :: split s' sep
      else match split s' sep with
           | [] => [String c EmptyString]
           | p :: ps => String c p :: ps
           end
  end.

(** Cell values as [getValues()] hands them out; [VUndefined] is what an
    index outside the array reads. *)
Inductive Value : Type :=
  | VUndefined
  | VString (s : string)
  | VNumber (n : Z)
  | VBoolean (b : bool).

(** [String(n)] for an integer valued number. *)
Definition numberToString (n : Z) : string := NilZero.string_of_int (Z.to_int n).

(** [String(v)], also [v.toString()] where [v] is not undefined. *)
Definition ToString (v : Value) : string :=
  match v with
  | VUndefined => "undefined"
  | VString s => s
  | VNumber n => numberToString n
  | VBoolean true => "true"
  | VBoolean false => "false"
  end.

(** Truthiness, as tested by [if (v)], [!v], [v && ...]. *)
Definition truthy (v : Value) : bool :=
  match v with
  | VUndefined => false
  | VString s => negb (String.eqb s "")
  | VNumber n => negb (n =? 0)
  | VBoolean b => b
  end.

(** Truthiness of a string-or-null variable. *)
Definition truthyText (o : option string) : bool :=
  match o with
  | Some s => negb (String.eqb s "")
  | None => false
  end.

(** [row[i]] *)
Definition index (row : list Value) (i : Z) : Value :=
  if i <? 0 then VUndefined else nth (Z.to_nat i) row VUndefined.

(** [strs.join(sep)] on strings. *)
Fixpoint joinStrings (sep : string) (l : list string) : string :=
  match l with
  | [] => EmptyString
  | [x] => x
  | x :: rest => x ++ sep ++ joinStrings sep rest
  end.

(** An element of an array contributes its string form to [join], and
    nothing when it is undefined. *)
Definition joinItem (v : Value) : string :=
  match v with
  | VUndefined => EmptyString
  | _ => ToString v
  end.

(** [row.join(sep)] *)
Definition join (row : list Value) (sep : string) : string :=
  joinStrings sep (map joinItem row).

(** A completion of a JavaScript call: a value, or a thrown [Error]
    (its message). *)
Inductive Outcome (A : Type) : Type :=
  | Normal (a : A)
  | Throw (message : string).
Arguments Normal {A} a.
Arguments Throw {A} message.

End JS.
Import JS.

(** [k] occurs in [h] as a contiguous substring. *)
Definition is_substring (k h : string) : Prop :=
  exists a b, h = a ++ k ++ b.

(** Some keyword of the set occurs in the header text. *)
Definition matches (keywords : list string) (h : string) : Prop :=
  exists k, In k keywords /\ is_substring k h.

(** Every character of [s] is white space. *)
Definition all_white (s : string) : bool := String.eqb (trimStart s) "".

(** Two texts that differ by the case of their ASCII letters only. *)
Definition same_ignoring_case (a b : string) : Prop :=
  toLowerCase a = toLowerCase b.


(* ================================================================== *)
(** * Column discovery (client, [findColumnIndex]) *)
(* ================================================================== *)

(** The loop of [findColumnIndex], at header position [i]. *)
Fixpoint findColumnIndex_from (i : Z) (headers keywords : list string) : Z :=
  match headers with
  | [] => -1
  | h :: rest =>
      if existsb (fun k => includes h k) keywords then i
      else findColumnIndex_from (i + 1) rest keywords
  end.

Definition findColumnIndex (headers keywords : list string) : Z :=
  findColumnIndex_from 0 headers keywords.

(** [data[0].map(h => String(h).toLowerCase().trim())] *)
Definition normalizeHeader (h : Value) : string := trim (toLowerCase (ToString h)).
Definition normalizeHeaders (row : list Value) : list string := map normalizeHeader row.

Definition promptKeywords : list string := ["prompt"; "query"; "question"; "instruction"].
Definition rangeKeywords : list string := ["range"; "data"; "area"; "selection"].
Definition includeKeywords : list string := ["previous"; "include"; "prior"; "last"].

(** Column discovery as the chain builder performs it on a header row. *)
Definition discoverColumn (row : list Value) (keywords : list string) : Z :=
  findColumnIndex (normalizeHeaders row) keywords.

(* ================================================================== *)
(** * Chain steps and the completion service *)
(* ================================================================== *)

Definition TabularData : Type := list (list Value).

(** The generation options of a step; a field that is not set is [None]. *)
Record Options : Type := {
  opt_model : option string;
  opt_max_tokens : option Z;
  opt_temperature : option Q
}.

(** The object literal [{}]. *)
Definition noOptions : Options :=
  {| opt_model := None; opt_max_tokens := None; opt_temperature := None |}.

(** One element of [promptChain]. *)
Record Step : Type := {
  prompt : string;
  data : TabularData;
  includeLastResult : bool;
  options : Options
}.

(** The JSON payload of a completion request, [content] being the text of
    its single user message. *)
Record Payload : Type := {
  model : string;
  max_tokens : Z;
  temperature : Q;
  content : string
}.

(** What one call of [UrlFetchApp.fetch] carries to the completion API:
    the key header and the payload. *)
Record Request : Type := {
  x_api_key : option string;
  payload : Payload
}.

(** With [muteHttpExceptions], [fetch] returns every HTTP response and
    throws on a transport failure only. *)
Inductive FetchResult : Type :=
  | FetchFails (message : string)
  | HttpResponse (code : Z) (body : string).

(** The platform around the executors.  [fetch] answers a request given
    the requests sent before it; [JSON_parse] is [JSON.parse];
    [content0_text r] is the expression [r.content[0].text], a text or the
    error of reading a field that is not there; [savedKey] is the user
    property [CELLMINDAI_API_KEY]. *)
Record Platform : Type := {
  Json : Type;
  fetch : list Request -> Request -> FetchResult;
  JSON_parse : string -> Outcome Json;
  content0_text : Json -> Outcome string;
  savedKey : option string
}.

(** The state an execution changes: the [apiKey] field of the library's
    instance and the requests sent so far. *)
Record World : Type := {
  apiKey : option string;
  sent : list Request
}.

(** Computations that read and change the world and may throw. *)
Definition M (A : Type) : Type := World -> Outcome A * World.

Definition ret {A} (a : A) : M A := fun w => (Normal a, w).
Definition throw {A} (message : string) : M A := fun w => (Throw message, w).
Definition lift {A} (o : Outcome A) : M A := fun w => (o, w).

Definition bind {A B} (c : M A) (k : A -> M B) : M B :=
  fun w =>
    match c w with
    | (Normal a, w') => k a w'
    | (Throw m, w') => (Throw m, w')
    end.

(** [try { c } catch (e) { h e.message }] *)
Definition try_catch {A} (c : M A) (h : string -> M A) : M A :=
  fun w =>
    match c w with
    | (Normal a, w') => (Normal a, w')
    | (Throw m, w') => h m w'
    end.

Notation "x <- c ;; k" := (bind c (fun x => k))
  (at level 61, c at next level, right associativity).

(** What a caller receives as the return value of a call. *)
Definition returned {A} (o : Outcome A) : option A :=
  match o with
  | Normal a => Some a
  | Throw _ => None
  end.

Definition CLAUDE_MODEL : string := "claude-3-5-sonnet-20240620".
Definition default_max_tokens : Z := 4000.
Definition default_temperature : Q := 7 # 10.

Definition dataHeading : string :=
  LF ++ LF ++ "Here is the data from the table:" ++ LF ++ LF.

(** The rows of a table, each row's cells joined by a tab and each row
    ended by a line feed: [tableStr += row.join('\t') + '\n'] over the rows. *)
Fixpoint renderRows (rows : TabularData) : string :=
  match rows with
  | [] => EmptyString
  | row :: rest => (join row TAB ++ LF) ++ renderRows rest
  end.

(** The payload both executors send when a step sets no option. *)
Definition defaultPayload (text : string) : Payload :=
  {| model := CLAUDE_MODEL; max_tokens := default_max_tokens;
     temperature := default_temperature; content := text |}.

Section Execution.

Variable P : Platform.

(** [UrlFetchApp.fetch(ANTHROPIC_API_URL, options)], giving the response
    code and the content text. *)
Definition UrlFetchApp_fetch (req : Request) : M (Z * string) :=
  fun w =>
    let w' := {| apiKey := apiKey w; sent := sent w ++ [req] |} in
    match fetch P (sent w) req with
    | FetchFails m => (Throw m, w')
    | HttpResponse code body => (Normal (code, body), w')
    end.

(** ** The client's fallback executor *)

(** [getApiKey()] of the client.  Both branches end in reading the stored
    property: the library exports no [getApiKey] function, so the call on
    it throws and the handler reads the property. *)
Definition client_getApiKey : M (option string) := ret (savedKey P).

(** [callClaudeAPI(prompt)] *)
Definition callClaudeAPI (prompt : string) : M string :=
  key <- client_getApiKey ;;
  if negb (truthyText key) then throw "API key not configured"
  else
    resp <- UrlFetchApp_fetch
              {| x_api_key := key;
                 payload := {| model := CLAUDE_MODEL;
                               max_tokens := default_max_tokens;
                               temperature := default_temperature;
                               content := prompt |} |} ;;
    if negb (fst resp =? 200)
    then throw ("API error (" ++ numberToString (fst resp) ++ "): " ++ snd resp)
    else
      jsonResponse <- lift (JSON_parse P (snd resp)) ;;
      lift (content0_text P jsonResponse).

(** The [dataTable] of a step in [executeChainDirectly]. *)
Definition directDataTable (step : Step) : string :=
  match data step with
  | [] => EmptyString
  | rows => renderRows rows
  end.

Definition previousSectionDirect (previousResult : string) : string :=
  LF ++ LF ++ "Result from previous step:" ++ LF ++ previousResult.

(** The [fullPrompt] of a step in [executeChainDirectly] before the data
    is added. *)
Definition promptWithPrevious (step : Step) (previousResult : option string) : string :=
  match previousResult with
  | Some r =>
      if truthyText previousResult && includeLastResult step
      then prompt step ++ previousSectionDirect r
      else prompt step
  | None => prompt step
  end.

(** The [fullPrompt] of a step in [executeChainDirectly]. *)
Definition fullPromptDirect (step : Step) (previousResult : option string) : string :=
  let dataTable := directDataTable step in
  let fullPrompt := promptWithPrevious step previousResult in
  if negb (String.eqb dataTable "")
  then fullPrompt ++ dataHeading ++ dataTable
  else fullPrompt.

(** The loop of [executeChainDirectly] over the steps that remain. *)
Fixpoint executeChainDirectly_loop (steps : list Step)
    (previousResult : option string) (results : list string) : M (list string) :=
  match steps with
  | [] => ret results
  | step :: rest =>
      result <- callClaudeAPI (fullPromptDirect step previousResult) ;;
      executeChainDirectly_loop rest (Some result) (results ++ [result])
  end.

Definition executeChainDirectly (promptChain : list Step) : M (list string) :=
  executeChainDirectly_loop promptChain None [].

(** ** The library's executor *)

(** The method [getApiKey()] of the library's instance. *)
Definition lib_getApiKey : M (option string) :=
  fun w =>
    if truthyText (apiKey w) then (Normal (apiKey w), w)
    else if truthyText (savedKey P)
         then (Normal (savedKey P), {| apiKey := savedKey P; sent := sent w |})
         else (Normal None, w).

Definition lib_hasApiKey : M bool :=
  key <- lib_getApiKey ;;
  ret (match key with Some _ => true | None => false end).

(** [_formatDataAsTable(data)] *)
Definition _formatDataAsTable (rows : TabularData) : string :=
  match rows with
  | [] => "No data available"
  | _ => renderRows rows
  end.

(** [_sendRequest(requestData)]: the key header is read first; whatever
    is thrown while fetching, checking the code or parsing is thrown
    again under a new message. *)
Definition _sendRequest (requestData : Payload) : M (Json P) :=
  key <- lib_getApiKey ;;
  try_catch
    (resp <- UrlFetchApp_fetch {| x_api_key := key; payload := requestData |} ;;
     if negb (fst resp =? 200)
     then throw ("API error (" ++ numberToString (fst resp) ++ "): " ++ snd resp)
     else lift (JSON_parse P (snd resp)))
    (fun message => throw ("Error during API request: " ++ message)).

(** The object [sendPrompt] returns. *)
Record Reply : Type := {
  response : string;
  rawResponse : Json P
}.

Definition orDefaultText (o : option string) (d : string) : string :=
  match o with
  | Some s => if String.eqb s "" then d else s
  | None => d
  end.

Definition orDefaultZ (o : option Z) (d : Z) : Z :=
  match o with
  | Some n => if n =? 0 then d else n
  | None => d
  end.

Definition orDefaultQ (o : option Q) (d : Q) : Q :=
  match o with
  | Some q => if Qeq_bool q 0 then d else q
  | None => d
  end.

(** The [fullPrompt] of [sendPrompt]. *)
Definition fullPromptLib (prompt : string) (rows : TabularData) : string :=
  prompt ++ dataHeading ++ _formatDataAsTable rows.

(** [sendPrompt(prompt, data, options)] *)
Definition sendPrompt (prompt : string) (rows : TabularData) (opts : Options) : M Reply :=
  has <- lib_hasApiKey ;;
  if negb has
  then throw "No API key found. Please set an API key first with setApiKey()"
  else
    r <- _sendRequest
           {| model := orDefaultText (opt_model opts) CLAUDE_MODEL;
              max_tokens := orDefaultZ (opt_max_tokens opts) default_max_tokens;
              temperature := orDefaultQ (opt_temperature opts) default_temperature;
              content := fullPromptLib prompt rows |} ;;
    text <- lift (content0_text P r) ;;
    ret {| response := text; rawResponse := r |}.

Definition previousSectionLib (previousResponse : string) : string :=
  LF ++ LF ++ "Result of the previous step:" ++ LF ++ previousResponse.

(** The [enhancedPrompt] of a step in [executePromptChain]. *)
Definition enhancedPrompt (step : Step) (previousResponse : option string) : string :=
  match previousResponse with
  | Some r =>
      if truthyText previousResponse && includeLastResult step
      then prompt step ++ previousSectionLib r
      else prompt step
  | None => prompt step
  end.

(** The loop of [executePromptChain] over the steps that remain. *)
Fixpoint executePromptChain_loop (steps : list Step)
    (previousResponse : option string) (results : list Reply) : M (list Reply) :=
  match steps with
  | [] => ret results
  | currentStep :: rest =>
      result <- sendPrompt (enhancedPrompt currentStep previousResponse)
                           (data currentStep) (options currentStep) ;;
      executePromptChain_loop rest (Some (response result)) (results ++ [result])
  end.

(** The argument of [executePromptChain]: any value, or an array of steps. *)
Inductive ChainArg : Type :=
  | NotAnArray (v : Value)
  | ChainArray (steps : list Step).

Definition isNonEmptyArray (arg : ChainArg) : bool :=
  match arg with
  | ChainArray (_ :: _) => true
  | _ => false
  end.

(** [executePromptChain(promptChain)] of the library. *)
Definition executePromptChain (arg : ChainArg) : M (list Reply) :=
  match arg with
  | ChainArray (step :: rest) => executePromptChain_loop (step :: rest) None []
  | _ => throw "Prompt chain must be a non-empty array"
  end.

(** ** The requests the two executors send *)

(** The request [callClaudeAPI] sends for a prompt text. *)
Definition directRequest (text : string) : Request :=
  {| x_api_key := savedKey P; payload := defaultPayload text |}.

(** The instance can find a key: its field holds one or one is stored. *)
Definition hasKey (w : World) : bool :=
  truthyText (apiKey w) || truthyText (savedKey P).

(** The key the library puts in the header. *)
Definition libKey (w : World) : option string :=
  if truthyText (apiKey w) then apiKey w else savedKey P.

(** The request [sendPrompt] sends for a prompt, a table and options. *)
Definition libRequest (w : World) (text : string) (rows : TabularData)
    (opts : Options) : Request :=
  {| x_api_key := libKey w;
     payload :=
       {| model := orDefaultText (opt_model opts) CLAUDE_MODEL;
          max_tokens := orDefaultZ (opt_max_tokens opts) default_max_tokens;
          temperature := orDefaultQ (opt_temperature opts) default_temperature;
          content := fullPromptLib text rows |} |}.

End Execution.

Arguments response {P} _.
Arguments rawResponse {P} _.

(* ================================================================== *)
(** * Data references and the chain builders *)
(* ================================================================== *)

(** The buttons of [ui.Button]. *)
Inductive Button : Type := YES | NO | OK | CANCEL | CLOSE.

(** The spreadsheet as the builders read it.  [namedRangeValues n] is
    [ss.getRangeByName(n)] followed, on a range, by [.getValues()] (no
    such name reads [null]); [rangeValues sh a] is
    [sh.getRange(a).getValues()]. *)
Record Spreadsheet (Sheet : Type) : Type := {
  activeSheet : Sheet;
  getSheetByName : string -> option Sheet;
  namedRangeValues : string -> Outcome (option TabularData);
  rangeValues : Sheet -> string -> Outcome TabularData
}.
Arguments activeSheet {Sheet} _.
Arguments getSheetByName {Sheet} _ _.
Arguments namedRangeValues {Sheet} _ _.
Arguments rangeValues {Sheet} _ _ _.

(** The lookups a resolution performs on the spreadsheet, in order. *)
Inductive Lookup (Sheet : Type) : Type :=
  | SheetLookup (name : string)
  | NamedLookup (name : string)
  | AddressLookup (sheet : Sheet) (address : string).
Arguments SheetLookup {Sheet} name.
Arguments NamedLookup {Sheet} name.
Arguments AddressLookup {Sheet} sheet address.

(** What building a chain ends in: one of the alerts that end the
    function, or the chain handed to the executor. *)
Inductive Build : Type :=
  | InsufficientData
  | PromptColumnMissing
  | DeclinedByUser
  | NoValidPrompts
  | Chain (promptChain : list Step).

Inductive LibBuild : Type :=
  | LibInsufficientData
  | LibInvalidRange (rangeStr : string) (row : Z)
  | LibNoValidPrompts
  | LibChain (promptChain : list Step).

Definition sheetNotFound (sheetName : string) : string :=
  "Sheet " ++ DQUOTE ++ sheetName ++ DQUOTE ++ " not found".

Definition rangeIssueMessage (rangeReference : string) (i : Z) (message : string) : string :=
  "There was a problem with the data range " ++ DQUOTE ++ rangeReference ++ DQUOTE
  ++ " in row " ++ numberToString (i + 1) ++ ": " ++ message ++ LF ++ LF
  ++ "Would you like to continue with an empty data set for this step?".

Definition trimIsNotAFunction (name : string) : string :=
  name ++ ".trim is not a function".

Section Builders.

Variable Sheet : Type.
Variable ss : Spreadsheet Sheet.

(** [ui.alert(title, message, buttons)]: the button the user presses. *)
Variable alert : string -> string -> Button.

(** The body of the [try] of the client's builder: the values a range
    reference denotes, with the lookups made.  A text that includes the
    separator splits in two parts at least, so the last branch of the
    destructuring is never taken. *)
Definition resolveReference (rangeReference : string)
    : Outcome TabularData * list (Lookup Sheet) :=
  if includesChar rangeReference BANG then
    match split rangeReference BANG with
    | sheetName :: rangeAddress :: _ =>
        match getSheetByName ss sheetName with
        | None => (Throw (sheetNotFound sheetName), [SheetLookup sheetName])
        | Some targetSheet =>
            (rangeValues ss targetSheet rangeAddress,
             [SheetLookup sheetName; AddressLookup targetSheet rangeAddress])
        end
    | _ => (Throw "range address is undefined", [])
    end
  else
    let here := AddressLookup (activeSheet ss) rangeReference in
    match namedRangeValues ss rangeReference with
    | Normal (Some values) => (Normal values, [NamedLookup rangeReference])
    | Normal None =>
        match rangeValues ss (activeSheet ss) rangeReference with
        | Normal values => (Normal values, [NamedLookup rangeReference; here])
        | Throw _ =>
            (rangeValues ss (activeSheet ss) rangeReference,
             [NamedLookup rangeReference; here; here])
        end
    | Throw _ =>
        (rangeValues ss (activeSheet ss) rangeReference,
         [NamedLookup rangeReference; here])
    end.

(** The [rangeData] of row [i]; [None] when the user answers NO to the
    data range alert and the function returns. *)
Definition rangeDataOfRow (rangeCol : Z) (row : list Value) (i : Z)
    : option TabularData :=
  if negb (rangeCol =? -1) && truthy (index row rangeCol) then
    let rangeReference := trim (ToString (index row rangeCol)) in
    if negb (String.eqb rangeReference "") then
      match fst (resolveReference rangeReference) with
      | Normal values => Some values
      | Throw message =>
          match alert "Data Range Issue" (rangeIssueMessage rangeReference i message) with
          | NO => None
          | _ => Some []
          end
      end
    else Some []
  else Some [].

(** The [includeLastResult] of a row in the client's builder. *)
Definition includeLastResultOfRow (includeCol : Z) (row : list Value) : bool :=
  if negb (includeCol =? -1) then
    let includeValue := trim (toLowerCase (ToString (index row includeCol))) in
    String.eqb includeValue "yes" || String.eqb includeValue "true"
    || String.eqb includeValue "1"
  else false.

(** The test [!promptText || promptText.trim() === ''] of both builders:
    [Normal true] skips the row; a prompt cell that is truthy and not a
    string has no [trim]. *)
Definition skipsRow (name : string) (promptText : Value) : Outcome bool :=
  if negb (truthy promptText) then Normal true
  else match promptText with
       | VString s => Normal (String.eqb (trim s) "")
       | _ => Throw (trimIsNotAFunction name)
       end.

(** The row loop of [executePromptChainFromCurrentSheet], at [data[i]]. *)
Fixpoint buildLoop (promptCol rangeCol includeCol : Z) (i : Z)
    (rows : list (list Value)) (promptChain : list Step)
    (hasValidPrompts : bool) : Outcome Build :=
  match rows with
  | [] => Normal (if hasValidPrompts then Chain promptChain else NoValidPrompts)
  | row :: rest =>
      let promptText := index row promptCol in
      match skipsRow "promptText" promptText with
      | Throw message => Throw message
      | Normal true =>
          buildLoop promptCol rangeCol includeCol (i + 1) rest promptChain hasValidPrompts
      | Normal false =>
          match rangeDataOfRow rangeCol row i with
          | None => Normal DeclinedByUser
          | Some rangeData =>
              buildLoop promptCol rangeCol includeCol (i + 1) rest
                (promptChain ++
                 [{| prompt := ToString promptText;
                     data := rangeData;
                     includeLastResult := includeLastResultOfRow includeCol row;
                     options := noOptions |}])
                true
          end
      end
  end.

(** The chain building part of [executePromptChainFromCurrentSheet]. *)
Definition buildPromptChain (sheetData : list (list Value)) : Outcome Build :=
  match sheetData with
  | headerRow :: row1 :: more =>
      let promptCol := discoverColumn headerRow promptKeywords in
      if promptCol =? -1 then Normal PromptColumnMissing
      else
        let rangeCol := discoverColumn headerRow rangeKeywords in
        let includeCol := discoverColumn headerRow includeKeywords in
        buildLoop promptCol rangeCol includeCol 1 (row1 :: more) [] false
  | _ => Normal InsufficientData
  end.

(** ** The library's builder ([showChainDialog]) *)

(** [data[i][2] === true || data[i][2] === 'true'] *)
Definition lib_includeLastResult (v : Value) : bool :=
  match v with
  | VBoolean b => b
  | VString s => String.eqb s "true"
  | _ => false
  end.

(** The [rangeData] of a row in [showChainDialog]; [Normal None] when the
    range is invalid and the dialog is left. *)
Definition lib_rangeData (rangeStr : Value) : Outcome (option TabularData) :=
  if truthy rangeStr then
    match rangeStr with
    | VString r =>
        if negb (String.eqb (trim r) "") then
          match rangeValues ss (activeSheet ss) r with
          | Normal values => Normal (Some values)
          | Throw _ => Normal None
          end
        else Normal (Some [])
    | _ => Throw (trimIsNotAFunction "rangeStr")
    end
  else Normal (Some []).

(** The row loop of [showChainDialog], at [data[i]]. *)
Fixpoint lib_buildLoop (i : Z) (rows : list (list Value))
    (promptChain : list Step) : Outcome LibBuild :=
  match rows with
  | [] => Normal (match promptChain with
                  | [] => LibNoValidPrompts
                  | _ => LibChain promptChain
                  end)
  | row :: rest =>
      let prompt := index row 0 in
      let rangeStr := index row 1 in
      let includeLastResult := lib_includeLastResult (index row 2) in
      match skipsRow "prompt" prompt with
      | Throw message => Throw message
      | Normal true => lib_buildLoop (i + 1) rest promptChain
      | Normal false =>
          match lib_rangeData rangeStr with
          | Throw message => Throw message
          | Normal None => Normal (LibInvalidRange (ToString rangeStr) (i + 1))
          | Normal (Some rangeData) =>
              lib_buildLoop (i + 1) rest
                (promptChain ++
                 [{| prompt := ToString prompt;
                     data := rangeData;
                     includeLastResult := includeLastResult;
                     options := noOptions |}])
          end
      end
  end.

Definition lib_buildPromptChain (sheetData : list (list Value)) : Outcome LibBuild :=
  match sheetData with
  | _ :: row1 :: more => lib_buildLoop 1 (row1 :: more) []
  | _ => Normal LibInsufficientData
  end.

End Builders.

Arguments resolveReference {Sheet} ss rangeReference.
Arguments rangeDataOfRow {Sheet} ss alert rangeCol row i.
Arguments buildLoop {Sheet} ss alert promptCol rangeCol includeCol i rows promptChain hasValidPrompts.
Arguments buildPromptChain {Sheet} ss alert sheetData.
Arguments lib_rangeData {Sheet} ss rangeStr.
Arguments lib_buildLoop {Sheet} ss i rows promptChain.
Arguments lib_buildPromptChain {Sheet} ss sheetData.

(* ================================================================== *)
(** * Sample platforms, sheets and chains *)
(* ================================================================== *)

(** The text of the last result pushed, the loops' [previousResult]. *)
Fixpoint lastText (results : list string) : option string :=
  match results with
  | [] => None
  | [r] => Some r
  | _ :: rest => lastText rest
  end.

(** The prompt texts of the requests sent, oldest first. *)
Definition promptsSent (w : World) : list string :=
  map (fun r => content (payload r)) (sent w).

(** A completion service that answers the n-th request with the n-th
    entry of a script; the body of a response is the generated text. *)
Definition scripted (answers : list FetchResult) : Platform :=
  {| Json := string;
     fetch := fun log _ => nth (length log) answers (FetchFails "connection lost");
     JSON_parse := fun body => Normal body;
     content0_text := fun text => Normal text;
     savedKey := Some "sk-test" |}.

(** A service whose second answer is an HTTP error. *)
Definition failingService : Platform :=
  scripted [HttpResponse 200 "first answer"; HttpResponse 500 "overloaded";
            HttpResponse 200 "third answer"].

(** A service that answers every request of a short chain. *)
Definition steadyService : Platform :=
  scripted [HttpResponse 200 "first answer"; HttpResponse 200 "second answer";
            HttpResponse 200 "third answer"].

(** A service whose first generated text is empty. *)
Definition silentService : Platform :=
  scripted [HttpResponse 200 ""; HttpResponse 200 "second answer"].

(** The world of a fresh library instance, before any request. *)
Definition freshWorld : World := {| apiKey := None; sent := [] |}.

Definition sampleTable : TabularData :=
  [[VString "x"; VNumber 1]; [VString "y"; VNumber 2]].

Definition stepSummarize : Step :=
  {| prompt := "Summarize"; data := sampleTable;
     includeLastResult := false; options := noOptions |}.

Definition stepElaborate : Step :=
  {| prompt := "Elaborate"; data := [];
     includeLastResult := true; options := noOptions |}.

Definition stepCompare : Step :=
  {| prompt := "Compare"; data := sampleTable;
     includeLastResult := true; options := noOptions |}.

Definition stepConclude : Step :=
  {| prompt := "Conclude"; data := sampleTable;
     includeLastResult := false; options := noOptions |}.

(** A spreadsheet with the sheets "Plan" (active) and "Data", one named
    range "Totals" and one valid address "A1:B2" in every sheet. *)
Definition sampleSheets : Spreadsheet string :=
  {| activeSheet := "Plan";
     getSheetByName := fun name =>
       if String.eqb name "Plan" || String.eqb name "Data" then Some name else None;
     namedRangeValues := fun name =>
       if String.eqb name "Totals" then Normal (Some [[VNumber 42]]) else Normal None;
     rangeValues := fun _ address =>
       if String.eqb address "A1:B2" then Normal sampleTable
       else Throw "Range not found" |}.

(** A sheet with a header row, two prompts, and a blank row between. *)
Definition planSheet : list (list Value) :=
  [[VString "Prompt"; VString "Range"; VString "Include"];
   [VString "Summarize"; VString "A1:B2"; VString "NO"];
   [VString ""; VString ""; VString ""];
   [VString "Elaborate"; VString ""; VString "YES"]].

(** A sheet whose second prompt names a sheet that does not exist. *)
Definition brokenSheet : list (list Value) :=
  [[VString "Prompt"; VString "Range"];
   [VString "Summarize"; VString "A1:B2"];
   [VString "Conclude"; VString "Sheet2!A1:A3"]].

(** A sheet in the layout of the library's dialog, the include cell
    spelled "yes". *)
Definition dialogSheet : list (list Value) :=
  [[VString "Prompt"; VString "Range"; VString "Include"];
   [VString "Summarize"; VString ""; VString "yes"]].

(** The no-break space U+00A0, in UTF-8. *)
Definition noBreakSpace : string :=
  String "194"%char (String "160"%char EmptyString).

(** A sheet whose first prompt cell holds a no-break space only, and whose
    second include cell is "yes" with a no-break space behind it. *)
Definition paddedSheet : list (list Value) :=
  [[VString "Prompt"; VString "Include"];
   [VString noBreakSpace; VString "yes"];
   [VString "Summarize"; VString ("yes" ++ noBreakSpace)]].

Definition alwaysNo : string -> string -> Button := fun _ _ => NO.
Definition alwaysYes : string -> string -> Button := fun _ _ => YES.

(** The prompt texts of the rows a builder does not skip, in row order. *)
Fixpoint validPrompts (promptCol : Z) (rows : list (list Value)) : list string :=
  match rows with
  | [] => []
  | row :: rest =>
      match index row promptCol with
      | VString s =>
          if String.eqb (trim s) "" then validPrompts promptCol rest
          else s :: validPrompts promptCol rest
      | _ => validPrompts promptCol rest
      end
  end.

(** The rows a builder does not skip, in row order. *)
Fixpoint validRows (promptCol : Z) (rows : list (list Value)) : list (list Value) :=
  match rows with
  | [] => []
  | row :: rest =>
      match index row promptCol with
      | VString s =>
          if String.eqb (trim s) "" then validRows promptCol rest
          else row :: validRows promptCol rest
      | _ => validRows promptCol rest
      end
  end.

(** The include cell's text, lower-cased and trimmed. *)
Definition includeText (includeCol : Z) (row : list Value) : string :=
  trim (toLowerCase (ToString (index row includeCol))).

(** A step built by the client from a row that is not skipped. *)
Definition builtFrom (pc ic : Z) (step : Step) (row : list Value) : Prop :=
  prompt step = ToString (index row pc)
  /\ includeLastResult step = includeLastResultOfRow ic row
  /\ options step = noOptions.

(** A step built by the library's dialog from a row that is not skipped. *)
Definition lib_builtFrom (step : Step) (row : list Value) : Prop :=
  prompt step = ToString (index row 0)
  /\ includeLastResult step = lib_includeLastResult (index row 2).

(** The options of a step leave the engine defaults in place. *)
Definition usesDefaults (o : Options) : Prop :=
  orDefaultText (opt_model o) CLAUDE_MODEL = CLAUDE_MODEL
  /\ orDefaultZ (opt_max_tokens o) default_max_tokens = default_max_tokens
  /\ orDefaultQ (opt_temperature o) default_temperature = default_temperature.

(** A step with a table of its own and the default options. *)
Definition plainStep (s : Step) : Prop :=
  data s <> [] /\ usesDefaults (options s).

(** The instance's key field is unset or holds the stored key, as it does
    from the construction of the instance on while no other key is set. *)
Definition keyInStep (P : Platform) (w : World) : Prop :=
  truthyText (apiKey w) = false \/ apiKey w = savedKey P.

(** The two executors end alike: both return, with the same response
    texts, or both throw. *)
Definition agree {P : Platform} (direct : Outcome (list string))
    (library : Outcome (list (Reply P))) : Prop :=
  match direct, library with
  | Normal texts, Normal replies => map response replies = texts
  | Throw _, Throw _ => True
  | _, _ => False
  end.

(* ================================================================== *)
(** * The API key: storing, reading, clearing *)
(* ================================================================== *)

(** Where a key lives: the [apiKey] field of the library's instance and
    the user property [CELLMINDAI_API_KEY]. *)
Record KeyStore : Type := {
  instanceKey : option string;
  userProperty : option string
}.

(** The method [setApiKey(apiKey)] of the library's instance; its test
    [!apiKey || apiKey.trim() === ''] is the one of [skipsRow]. *)
Definition CellMindAI_setApiKey (key : Value) (st : KeyStore)
    : Outcome string * KeyStore :=
  match skipsRow "apiKey" key with
  | Throw message => (Throw message, st)
  | Normal true => (Throw "API key cannot be empty", st)
  | Normal false =>
      (Normal "API key successfully saved",
       {| instanceKey := Some (ToString key); userProperty := Some (ToString key) |})
  end.

(** The method [getApiKey()] of the library's instance. *)
Definition CellMindAI_getApiKey (st : KeyStore) : option string * KeyStore :=
  if truthyText (instanceKey st) then (instanceKey st, st)
  else if truthyText (userProperty st)
       then (userProperty st,
             {| instanceKey := userProperty st; userProperty := userProperty st |})
       else (None, st).

(** The method [hasApiKey()]: [getApiKey() !== null]. *)
Definition CellMindAI_hasApiKey (st : KeyStore) : bool * KeyStore :=
  match CellMindAI_getApiKey st with
  | (Some _, st') => (true, st')
  | (None, st') => (false, st')
  end.

(** The method [clearApiKey()]. *)
Definition CellMindAI_clearApiKey (st : KeyStore) : string * KeyStore :=
  ("API key successfully deleted", {| instanceKey := None; userProperty := None |}).

(** What a key dialog ends in: the alert shown, or nothing when the
    prompt is dismissed. *)
Inductive KeyDialog : Type :=
  | KeySaved
  | KeyEmpty
  | KeyError (message : string)
  | KeyDismissed.

(** [configureApiKey()] of the client, given the button pressed and the
    text typed in the prompt. *)
Definition configureApiKey (libraryAvailable : bool) (button : Button)
    (responseText : string) (st : KeyStore) : KeyDialog * KeyStore :=
  match button with
  | OK =>
      let key := trim responseText in
      if negb (String.eqb key "") then
        if libraryAvailable then
          match CellMindAI_setApiKey (VString key) st with
          | (Normal _, st') => (KeySaved, st')
          | (Throw message, st') => (KeyError ("Error saving API key: " ++ message), st')
          end
        else (KeySaved, {| instanceKey := instanceKey st; userProperty := Some key |})
      else (KeyEmpty, st)
  | _ => (KeyDismissed, st)
  end.

(** [showApiKeyDialog()] of the library: it asks [hasApiKey()] first, and
    saves the text as it was typed. *)
Definition showApiKeyDialog (button : Button) (responseText : string)
    (st : KeyStore) : KeyDialog * KeyStore :=
  let st := snd (CellMindAI_hasApiKey st) in
  match button with
  | OK =>
      if negb (String.eqb responseText "") && negb (String.eqb (trim responseText) "")
      then
        match CellMindAI_setApiKey (VString responseText) st with
        | (Normal _, st') => (KeySaved, st')
        | (Throw message, st') => (KeyError message, st')
        end
      else (KeyEmpty, st)
  | _ => (KeyDismissed, st)
  end.

(** [getApiKey()] of the client: the stored property, in either mode. *)
Definition client_storedKey (st : KeyStore) : option string := userProperty st.

(* ================================================================== *)
(** * Runs of the executors, step by step *)
(* ================================================================== *)

(** A step with other options, and a step with the include flag off. *)
Definition withOptions (o : Options) (s : Step) : Step :=
  {| prompt := prompt s; data := data s;
     includeLastResult := includeLastResult s; options := o |}.

Definition withoutInclude (s : Step) : Step :=
  {| prompt := prompt s; data := data s;
     includeLastResult := false; options := options s |}.

(** The prompt texts the fallback executor composes for the steps of a
    chain whose responses are [results], the result before the first step
    being [previous]. *)
Fixpoint composedDirect (steps : list Step) (previous : option string)
    (results : list string) : list string :=
  match steps, results with
  | step :: rest, r :: rs =>
      fullPromptDirect step previous :: composedDirect rest (Some r) rs
  | _, _ => []
  end.

(** The same for the library. *)
Fixpoint composedLib (steps : list Step) (previous : option string)
    (results : list string) : list string :=
  match steps, results with
  | step :: rest, r :: rs =>
      fullPromptLib (enhancedPrompt step previous) (data step)
      :: composedLib rest (Some r) rs
  | _, _ => []
  end.

(* ================================================================== *)
(** * Single prompts: [processCurrentSheet], [processDirectly],
      [processWithCellMind] *)
(* ================================================================== *)

(** An alert shown to the user: its title and its message. *)
Inductive Alert : Type := AlertShown (title message : string).

Section SinglePrompt.

Variable P : Platform.
Variable Sheet : Type.
Variable ss : Spreadsheet Sheet.

(** [sheet.getDataRange().getValues()] of the active sheet. *)
Variable dataRangeValues : Outcome TabularData.

(** Writing a text to cell A1 of a new result sheet: by the library's
    [writeResult(text, {createNewSheet: true, ...})], and by the sheet
    calls at the end of [processDirectly]. *)
Variable lib_writeResult : string -> Outcome unit.
Variable direct_writeResult : string -> Outcome unit.

(** The values read for a range text, or for the whole sheet when the
    text is empty or absent. *)
Definition sheetValues (range : option string) : Outcome TabularData :=
  match range with
  | Some r => if negb (String.eqb r "") then rangeValues ss (activeSheet ss) r
              else dataRangeValues
  | None => dataRangeValues
  end.

(** [processCurrentSheet(prompt, options)] of the library, the fields
    [range] and [includeHeaders] of its options given apart. *)
Definition processCurrentSheet (text : string) (range : option string)
    (includeHeaders : option bool) (opts : Options) : M (Reply P) :=
  values <- lift (sheetValues range) ;;
  let processedData :=
    match includeHeaders with
    | Some false => tl values
    | _ => values
    end in
  sendPrompt P text processedData opts.

(** The [fullPrompt] of [processDirectly]. *)
Definition fullPromptSingle (text : string) (processedData : TabularData) : string :=
  text ++ dataHeading ++ renderRows processedData.

(** [processDirectly(prompt, rangeStr, includeHeaders)]: the alert it
    ends in. *)
Definition processDirectly (text rangeStr : string) (includeHeaders : bool)
    : World -> list Alert * World :=
  fun w =>
    match
      (values <- lift (sheetValues (Some rangeStr)) ;;
       let processedData := if includeHeaders then values else tl values in
       result <- callClaudeAPI P (fullPromptSingle text processedData) ;;
       lift (direct_writeResult result)) w
    with
    | (Normal _, w') =>
        ([AlertShown "Success" "Processing complete (fallback mode)"], w')
    | (Throw message, w') =>
        ([AlertShown "Error" ("Error processing data: " ++ message)], w')
    end.

(** [processWithCellMind()], given the answers to its three dialogs: the
    button and text of the prompt dialog and of the range dialog, and the
    button of the headers question. *)
Definition processWithCellMind (libraryAvailable : bool)
    (promptDialog rangeDialog : Button * string) (headersButton : Button)
    : World -> list Alert * World :=
  fun w =>
    if negb (truthyText (savedKey P))
    then ([AlertShown "Error" "Please configure your API key first"], w)
    else
      match fst promptDialog with
      | OK =>
          let text := trim (snd promptDialog) in
          if String.eqb text "" then ([AlertShown "Error" "Prompt cannot be empty"], w)
          else
            match fst rangeDialog with
            | OK =>
                let rangeStr := trim (snd rangeDialog) in
                let includeHeaders :=
                  match headersButton with YES => true | _ => false end in
                if libraryAvailable then
                  match
                    (result <- processCurrentSheet text
                                 (if String.eqb rangeStr "" then None else Some rangeStr)
                                 (Some includeHeaders) noOptions ;;
                     lift (lib_writeResult (response result))) w
                  with
                  | (Normal _, w') =>
                      ([AlertShown "Success" "Processing complete (library mode)"], w')
                  | (Throw message, w') =>
                      let (alerts, w'') :=
                        processDirectly text rangeStr includeHeaders w' in
                      (AlertShown "Library Error"
                         ("Error using library: " ++ message ++ LF
                          ++ "Switching to fallback mode...")
                       :: alerts, w'')
                  end
                else processDirectly text rangeStr includeHeaders w
            | _ => ([], w)
            end
      | _ => ([], w)
      end.

End SinglePrompt.

Arguments sheetValues {Sheet} ss dataRangeValues range.
Arguments processCurrentSheet P {Sheet} ss dataRangeValues text range includeHeaders opts.
Arguments processDirectly P {Sheet} ss dataRangeValues direct_writeResult text rangeStr includeHeaders.
Arguments processWithCellMind P {Sheet} ss dataRangeValues lib_writeResult direct_writeResult libraryAvailable promptDialog rangeDialog headersButton.

(* ================================================================== *)
(** * The prompt chain template *)
(* ================================================================== *)

(** The texts written to a sheet, latest first, each with the row and the
    column of its cell, both counted from 1. *)
Definition Cells : Type := list (Z * Z * string).

(** [getRange(cell).setValue(text)] *)
Definition setValue (row col : Z) (text : string) (c : Cells) : Cells :=
  (row, col, text) :: c.

Fixpoint setRowValues (row col : Z) (texts : list string) (c : Cells) : Cells :=
  match texts with
  | [] => c
  | t :: rest => setRowValues row (col + 1) rest (setValue row col t c)
  end.

(** [getRange(block).setValues(values)], the block's first cell being at
    [row] and [col]. *)
Fixpoint setValues (row col : Z) (values : list (list string)) (c : Cells) : Cells :=
  match values with
  | [] => c
  | texts :: rest => setValues (row + 1) col rest (setRowValues row col texts c)
  end.

(** The text of a cell: the latest one written, the empty text when none
    was. *)
Fixpoint cellText (c : Cells) (row col : Z) : string :=
  match c with
  | [] => EmptyString
  | (r, k, t) :: rest =>
      if (r =? row) && (k =? col) then t else cellText rest row col
  end.

(** The last row and the last column that hold a text. *)
Fixpoint lastRow (c : Cells) : Z :=
  match c with
  | [] => 0
  | (r, _, t) :: rest =>
      if String.eqb t "" then lastRow rest else Z.max r (lastRow rest)
  end.

Fixpoint lastColumn (c : Cells) : Z :=
  match c with
  | [] => 0
  | (_, k, t) :: rest =>
      if String.eqb t "" then lastColumn rest else Z.max k (lastColumn rest)
  end.

Definition upTo (n : Z) : list Z := map Z.of_nat (seq 1 (Z.to_nat n)).

(** [sheet.getDataRange().getValues()] of a sheet of texts: the block from
    A1 to the last row and the last column that hold a text. *)
Definition getDataRangeValues (c : Cells) : list (list Value) :=
  map (fun r => map (fun k => VString (cellText c r k)) (upTo (lastColumn c)))
      (upTo (lastRow c)).

Definition templateHelp : string :=
  "DATA RANGE REFERENCES:" ++ LF ++
  "- Single sheet: Sheet1!A1:F20" ++ LF ++
  "- Named range: NamedRange" ++ LF ++
  "- Current sheet: A1:D10" ++ LF ++
  "- Leave empty for no additional data" ++ LF ++ LF ++
  "INCLUDE PREVIOUS RESULT:" ++ LF ++
  "- YES: Result from previous step will be included in this prompt" ++ LF ++
  "- NO: Prompt will be executed without previous result" ++ LF ++ LF ++
  "After filling in, execute the chain via: CellMindAI > Execute Prompt Chain > NO (Execute existing)".

(** The cells [createPromptChainTemplate] writes to the new or cleared
    template sheet, in the order of the source. *)
Definition templateCells : Cells :=
  let c := setValues 1 1
             [["Prompt"; "Data Range"; "Include Previous Result"; "Notes"]] [] in
  let c := setValues 2 1
             [["Analyze this data and identify the top 3 trends"; "Sheet1!A1:F20";
               "NO"; "Initial analysis of raw data"];
              ["Based on the above analysis, explain possible causes for these trends";
               ""; "YES"; "Cause analysis based on step 1"];
              ["Create recommendations based on the identified trends and causes";
               ""; "YES"; "Derive recommendations from steps 1+2"];
              ["Summarize all findings and recommendations in a concise executive summary";
               ""; "YES"; "Final conclusion for management"]] c in
  let c := setValue 7 1 "HELP: How to use this template" c in
  let c := setValue 8 1 templateHelp c in
  let c := setValue 18 1 "EXAMPLES OF DATA RANGE REFERENCES:" c in
  setValues 19 1
    [["Type"; "Example"; "Description"; "Usage"];
     ["Simple Range"; "A1:D10"; "Range in current sheet"; "For data in current sheet"];
     ["Sheet Reference"; "Sheet1!A1:F20"; "Range in another sheet";
      "For data in other sheets"];
     ["Named Range"; "MyRange"; "Named range in spreadsheet";
      "For predefined data ranges"]] c.

(** The prompts of the four sample rows of the template. *)
Definition templateSamplePrompts : list string :=
  ["Analyze this data and identify the top 3 trends";
   "Based on the above analysis, explain possible causes for these trends";
   "Create recommendations based on the identified trends and causes";
   "Summarize all findings and recommendations in a concise executive summary"].

(* ================================================================== *)
(** * The result sheets *)
(* ================================================================== *)

Section ResultSheets.

Variable P : Platform.

(** An element of the [results] of a run: a text (fallback executor) or
    the object of [sendPrompt] (library). *)
Inductive ChainResult : Type :=
  | TextResult (text : string)
  | ReplyResult (reply : Reply P).

(** What is written to a cell of a result sheet. *)
Inductive Written : Type :=
  | WrittenText (text : string)
  | WrittenReply (reply : Reply P).

(** [results[i].response || results[i]] *)
Definition responseOrSelf (r : ChainResult) : Written :=
  match r with
  | TextResult text => WrittenText text
  | ReplyResult reply =>
      if String.eqb (response reply) "" then WrittenReply reply
      else WrittenText (response reply)
  end.

(** A result sheet: the cells written, latest first, each under its
    address in A1 notation. *)
Definition ResultSheet : Type := list (string * Written).

Definition writeCell (address : string) (v : Written) (sheet : ResultSheet)
    : ResultSheet :=
  (address, v) :: sheet.

(** What a cell holds: the latest value written to its address. *)
Fixpoint readCell (sheet : ResultSheet) (address : string) : option Written :=
  match sheet with
  | [] => None
  | (a, v) :: rest => if String.eqb a address then Some v else readCell rest address
  end.

(** The writing loop of [executePromptChainFromCurrentSheet], at
    [results[i]], [n] being [results.length]. *)
Fixpoint writeResults_from (i n : Z) (promptChain : list Step)
    (results : list ChainResult) (sheet : ResultSheet) : Outcome ResultSheet :=
  match results with
  | [] => Normal sheet
  | r :: rest =>
      let sheet :=
        writeCell ("A" ++ numberToString (i * 5 + 3))
          (WrittenText ("Step " ++ numberToString (i + 1) ++ ":")) sheet in
      match nth_error promptChain (Z.to_nat i) with
      | None => Throw "Cannot read properties of undefined (reading 'prompt')"
      | Some step =>
          let sheet :=
            writeCell ("B" ++ numberToString (i * 5 + 3))
              (WrittenText (prompt step)) sheet in
          let sheet :=
            writeCell ("A" ++ numberToString (i * 5 + 4)) (responseOrSelf r) sheet in
          let sheet :=
            if i <? n - 1
            then writeCell ("A" ++ numberToString (i * 5 + 6)) (WrittenText "") sheet
            else sheet in
          writeResults_from (i + 1) n promptChain rest sheet
      end
  end.

(** The cells of the result sheet the client writes after a run. *)
Definition writeResults (promptChain : list Step) (results : list ChainResult)
    : Outcome ResultSheet :=
  writeResults_from 0 (Z.of_nat (length results)) promptChain results
    (writeCell "A1" (WrittenText "Prompt Chain Results") []).

(** The writing loop of the library's [showChainDialog]. *)
Fixpoint lib_writeResults_from (i n : Z) (results : list (Reply P))
    (sheet : ResultSheet) : ResultSheet :=
  match results with
  | [] => sheet
  | r :: rest =>
      let sheet :=
        writeCell ("A" ++ numberToString (i * 4 + 3))
          (WrittenText ("Step " ++ numberToString (i + 1) ++ ":")) sheet in
      let sheet :=
        writeCell ("A" ++ numberToString (i * 4 + 4)) (WrittenText (response r)) sheet in
      let sheet :=
        if i <? n - 1
        then writeCell ("A" ++ numberToString (i * 4 + 6)) (WrittenText "") sheet
        else sheet in
      lib_writeResults_from (i + 1) n rest sheet
  end.

Definition lib_writeResults (results : list (Reply P)) : ResultSheet :=
  lib_writeResults_from 0 (Z.of_nat (length results)) results
    (writeCell "A1" (WrittenText "Prompt Chain Results") []).

End ResultSheets.

Arguments TextResult {P} text.
Arguments ReplyResult {P} reply.
Arguments WrittenText {P} text.
Arguments WrittenReply {P} reply.
Arguments responseOrSelf {P} r.
Arguments writeCell {P} address v sheet.
Arguments readCell {P} sheet address.
Arguments writeResults_from {P} i n promptChain results sheet.
Arguments writeResults {P} promptChain results.
Arguments lib_writeResults_from {P} i n results sheet.
Arguments lib_writeResults {P} results.

(* ================================================================== *)
(** * Facts about strings *)
(* ================================================================== *)

Lemma append_empty_r (s : string) : s ++ "" = s.
Proof. induction s as [|c s IH]; simpl; [reflexivity | now rewrite IH]. Qed.

Lemma append_assoc (a b c : string) : (a ++ b) ++ c = a ++ (b ++ c).
Proof. induction a as [|x a IH]; simpl; [reflexivity | now rewrite IH]. Qed.

Lemma startsWith_spec (s k : string) :
  startsWith s k = true <-> exists b, s = k ++ b.
Proof.
  revert s; induction k as [|c k IH]; intros s; simpl.
  - split; [intros _; now exists s | reflexivity].
  - destruct s as [|a s]; simpl.
    + split; [discriminate | intros [b Hb]; discriminate].
    + rewrite andb_true_iff, Ascii.eqb_eq, IH. split.
      * intros [-> [b ->]]. now exists b.
      * intros [b Hb]. injection Hb as -> ->. split; [reflexivity | now exists b].
Qed.

Lemma includes_spec (s k : string) :
  includes s k = true <-> is_substring k s.
Proof.
  unfold is_substring. induction s as [|c s IH].
  - simpl. rewrite orb_false_r, startsWith_spec. split.
    + intros [b Hb]. now exists "", b.
    + intros [a [b Hab]]. destruct a; [now exists b | discriminate].
  - cbn [includes]. rewrite orb_true_iff, startsWith_spec, IH. split.
    + intros [[b Hb] | [a [b Hab]]].
      * now exists "", b.
      * exists (String c a), b. simpl. now rewrite Hab.
    + intros [a [b Hab]]. destruct a as [|x a].
      * left. now exists b.
      * right. simpl in Hab. injection Hab as _ ->. now exists a, b.
Qed.


(** Bytes: comparisons of character codes, decided by arithmetic. *)
Ltac byte_facts :=
  unfold isWhiteSpace, isWhiteSpace2, isWhiteSpace3, toLowerChar in *;
  cbv zeta in *;
  repeat match goal with
         | H : _ |- _ =>
             progress rewrite ?andb_true_iff, ?orb_true_iff, ?Nat.eqb_eq,
               ?Nat.leb_le in H
         end;
  repeat (progress rewrite ?andb_true_iff, ?orb_true_iff, ?Nat.eqb_eq,
            ?Nat.leb_le).

Ltac byte_lia := byte_facts; first [lia | exfalso; lia].



Lemma isWhiteSpace2_bytes (c d : ascii) :
  isWhiteSpace2 c d = true ->
  (128 <= nat_of_ascii c /\ 128 <= nat_of_ascii d)%nat.
Proof. intros H. byte_lia. Qed.

Lemma isWhiteSpace3_bytes (c d e : ascii) :
  isWhiteSpace3 c d e = true ->
  (128 <= nat_of_ascii c /\ 128 <= nat_of_ascii d /\ 128 <= nat_of_ascii e)%nat.
Proof. intros H. byte_lia. Qed.

Lemma isWhiteSpace_byte (c : ascii) :
  isWhiteSpace c = true -> (nat_of_ascii c < 128)%nat.
Proof. intros H. byte_lia. Qed.

Lemma isWhiteSpace2_first (c d : ascii) :
  isWhiteSpace2 c d = true -> isWhiteSpace c = false.
Proof.
  intros H. apply isWhiteSpace2_bytes in H.
  destruct (isWhiteSpace c) eqn:E; [| reflexivity].
  apply isWhiteSpace_byte in E. lia.
Qed.

Lemma isWhiteSpace3_first (c d e : ascii) :
  isWhiteSpace3 c d e = true ->
  isWhiteSpace c = false /\ isWhiteSpace2 c d = false.
Proof.
  intros H. split.
  - apply isWhiteSpace3_bytes in H.
    destruct (isWhiteSpace c) eqn:E; [| reflexivity].
    apply isWhiteSpace_byte in E. lia.
  - destruct (isWhiteSpace2 c d) eqn:E; [| reflexivity]. byte_lia.
Qed.




Lemma trimStart_skip (s : string) :
  trimStart s
  = match skipWhiteSpace s with Some r => trimStart r | None => s end.
Proof.
  destruct s as [|c [|d [|e s]]]; simpl; try reflexivity.
  - destruct (isWhiteSpace c); reflexivity.
  - destruct (isWhiteSpace c); [reflexivity |].
    destruct (isWhiteSpace2 c d); reflexivity.
  - destruct (isWhiteSpace c); [reflexivity |].
    destruct (isWhiteSpace2 c d); [reflexivity |].
    destruct (isWhiteSpace3 c d e); reflexivity.
Qed.

Lemma skipWhiteSpace_inv (s r : string) :
  skipWhiteSpace s = Some r ->
  (exists c, s = String c r /\ isWhiteSpace c = true)
  \/ (exists c d, s = String c (String d r) /\ isWhiteSpace2 c d = true)
  \/ (exists c d e, s = String c (String d (String e r))
                    /\ isWhiteSpace3 c d e = true).
Proof.
  destruct s as [|c s1]; simpl; [discriminate |].
  destruct (isWhiteSpace c) eqn:E1.
  { intros [= <-]. left. now exists c. }
  destruct s1 as [|d s2]; [discriminate |].
  destruct (isWhiteSpace2 c d) eqn:E2.
  { intros [= <-]. right. left. now exists c, d. }
  destruct s2 as [|e s3]; [discriminate |].
  destruct (isWhiteSpace3 c d e) eqn:E3; [| discriminate].
  intros [= <-]. right. right. now exists c, d, e.
Qed.

Lemma skipWhiteSpace_shorter (s r : string) :
  skipWhiteSpace s = Some r -> (String.length r < String.length s)%nat.
Proof.
  intros H. apply skipWhiteSpace_inv in H
    as [(c & -> & _) | [(c & d & -> & _) | (c & d & e & -> & _)]]; simpl; lia.
Qed.


(** A white space character is found whatever follows it. *)
Lemma skipWhiteSpace_app (s r t : string) :
  skipWhiteSpace s = Some r -> skipWhiteSpace (s ++ t) = Some (r ++ t).
Proof.
  intros H. apply skipWhiteSpace_inv in H
    as [(c & -> & Hc) | [(c & d & -> & Hc) | (c & d & e & -> & Hc)]]; simpl.
  - now rewrite Hc.
  - now rewrite (isWhiteSpace2_first _ _ Hc), Hc.
  - destruct (isWhiteSpace3_first _ _ _ Hc) as [H1 H2].
    now rewrite H1, H2, Hc.
Qed.


(** Induction on a text along the white space in front of it. *)
Lemma white_prefix_ind (P : string -> Prop) :
  (forall s, skipWhiteSpace s = None -> P s) ->
  (forall s r, skipWhiteSpace s = Some r -> P r -> P s) ->
  forall s, P s.
Proof.
  intros Hnone Hsome s.
  remember (String.length s) as n eqn:Hn.
  revert s Hn. induction n as [n IH] using lt_wf_ind. intros s ->.
  destruct (skipWhiteSpace s) as [r |] eqn:E; [| now apply Hnone].
  apply (Hsome s r E). apply (IH (String.length r)); [| reflexivity].
  now apply skipWhiteSpace_shorter.
Qed.

Lemma trimStart_some (s r : string) :
  skipWhiteSpace s = Some r -> trimStart s = trimStart r.
Proof. intros H. now rewrite trimStart_skip, H. Qed.

Lemma trimStart_none (s : string) :
  skipWhiteSpace s = None -> trimStart s = s.
Proof. intros H. now rewrite trimStart_skip, H. Qed.




Lemma trimStart_white_app (ws s : string) :
  all_white ws = true -> trimStart (ws ++ s) = trimStart s.
Proof.
  unfold all_white. intros H. apply String.eqb_eq in H. revert H.
  induction ws as [ws E | ws r E IH] using white_prefix_ind.
  - rewrite (trimStart_none _ E). now intros ->.
  - rewrite (trimStart_some _ _ E). intros H.
    rewrite (trimStart_some _ _ (skipWhiteSpace_app _ _ s E)). now apply IH.
Qed.





Lemma toLowerChar_toUpperChar (c : ascii) :
  toLowerChar (toUpperChar c) = toLowerChar c.
Proof.
  unfold toUpperChar.
  destruct ((97 <=? nat_of_ascii c)%nat && (nat_of_ascii c <=? 122)%nat) eqn:E;
    [| reflexivity].
  apply andb_true_iff in E as [E1 E2].
  apply Nat.leb_le in E1. apply Nat.leb_le in E2.
  unfold toLowerChar. rewrite nat_ascii_embedding by lia.
  replace ((65 <=? nat_of_ascii c - 32)%nat && (nat_of_ascii c - 32 <=? 90)%nat)
    with true
    by (symmetry; apply andb_true_iff; split; apply Nat.leb_le; lia).
  replace ((65 <=? nat_of_ascii c)%nat && (nat_of_ascii c <=? 90)%nat)
    with false
    by (symmetry; apply andb_false_iff; right; apply Nat.leb_gt; lia).
  replace (nat_of_ascii c - 32 + 32)%nat with (nat_of_ascii c) by lia.
  apply ascii_nat_embedding.
Qed.

Lemma upper_case_same (s : string) : same_ignoring_case s (toUpperCase s).
Proof.
  unfold same_ignoring_case, toLowerCase, toUpperCase.
  induction s as [|c s IH]; simpl; [reflexivity |].
  now rewrite toLowerChar_toUpperChar, <- IH.
Qed.


(* ================================================================== *)
(** * Column discovery *)
(* ================================================================== *)

Lemma existsb_includes (keywords : list string) (h : string) :
  existsb (fun k => includes h k) keywords = true <-> matches keywords h.
Proof.
  unfold matches. rewrite existsb_exists.
  split; intros [k [Hin Hk]]; exists k; split; auto; now apply includes_spec.
Qed.

Lemma findColumnIndex_from_spec (keywords headers : list string) (i : Z) :
  0 <= i ->
  (findColumnIndex_from i headers keywords = -1
   /\ forall h, In h headers -> ~ matches keywords h)
  \/ (exists n : nat,
        findColumnIndex_from i headers keywords = i + Z.of_nat n
        /\ (n < length headers)%nat
        /\ matches keywords (nth n headers "")
        /\ forall m, (m < n)%nat -> ~ matches keywords (nth m headers "")).
Proof.
  revert i. induction headers as [|h rest IH]; intros i Hi; simpl.
  - left. split; [reflexivity | intros h []].
  - destruct (existsb (fun k => includes h k) keywords) eqn:E.
    + right. exists 0%nat. repeat split.
      * lia.
      * lia.
      * now apply existsb_includes.
      * intros m Hm. lia.
    + assert (Hh : ~ matches keywords h)
        by (intros Hm; apply existsb_includes in Hm; congruence).
      destruct (IH (i + 1)) as [[Hr Hnone] | [n [Hr [Hlt [Hn Hbefore]]]]]; [lia | |].
      * left. split; [exact Hr |]. intros h' [<- | Hin]; auto.
      * right. exists (S n). repeat split.
        -- rewrite Hr. lia.
        -- lia.
        -- exact Hn.
        -- intros [|m] Hm; [exact Hh | apply Hbefore; lia].
Qed.




(* ================================================================== *)
(** * The executors: how the loops run *)
(* ================================================================== *)

Lemma lastText_snoc (acc : list string) (x : string) :
  lastText (acc ++ [x]) = Some x.
Proof.
  induction acc as [|a acc IH]; simpl; [reflexivity |].
  rewrite IH. now destruct acc.
Qed.

Lemma renderRows_empty (rows : TabularData) :
  String.eqb (renderRows rows) "" = true -> rows = [].
Proof.
  destruct rows as [|row rest]; [reflexivity |].
  simpl. intros H. apply String.eqb_eq in H.
  destruct (join row TAB); discriminate.
Qed.

Section ExecutionFacts.

Variable P : Platform.

(** The world after a call of [callClaudeAPI]: one request more when a key
    is configured, and no change otherwise. *)
Lemma callClaudeAPI_world (text : string) (w : World) :
  snd (callClaudeAPI P text w)
  = if truthyText (savedKey P)
    then {| apiKey := apiKey w; sent := sent w ++ [directRequest P text] |}
    else w.
Proof.
  unfold callClaudeAPI, client_getApiKey, bind, ret, throw, lift, UrlFetchApp_fetch.
  destruct (truthyText (savedKey P)); simpl; [| reflexivity].
  fold (defaultPayload text). fold (directRequest P text).
  destruct (fetch P (sent w) (directRequest P text)) as [m | code body]; simpl;
    [reflexivity |].
  destruct (code =? 200); simpl; [| reflexivity].
  destruct (JSON_parse P body); reflexivity.
Qed.

Lemma callClaudeAPI_sent_length (text : string) (w : World) :
  (length (sent (snd (callClaudeAPI P text w))) <= length (sent w) + 1)%nat.
Proof.
  rewrite callClaudeAPI_world. destruct (truthyText (savedKey P)); simpl.
  - rewrite length_app. simpl. lia.
  - lia.
Qed.

Lemma callClaudeAPI_needs_key (text : string) (w w' : World) (r : string) :
  callClaudeAPI P text w = (Normal r, w') -> truthyText (savedKey P) = true.
Proof.
  unfold callClaudeAPI, client_getApiKey, bind, ret, throw.
  destruct (truthyText (savedKey P)); simpl; [reflexivity | discriminate].
Qed.

(** Running the fallback loop on [pre ++ rest] is running it on [pre] and,
    when that returns, going on with [rest]. *)
Lemma direct_loop_app (pre rest : list Step) (acc : list string) (w : World) :
  executeChainDirectly_loop P (pre ++ rest) (lastText acc) acc w
  = match executeChainDirectly_loop P pre (lastText acc) acc w with
    | (Normal results, w1) =>
        executeChainDirectly_loop P rest (lastText results) results w1
    | (Throw m, w1) => (Throw m, w1)
    end.
Proof.
  revert acc w. induction pre as [|s pre IH]; intros acc w.
  - reflexivity.
  - cbn [app executeChainDirectly_loop]. unfold bind.
    destruct (callClaudeAPI P (fullPromptDirect s (lastText acc)) w)
      as [[result | m] w']; [| reflexivity].
    rewrite <- (lastText_snoc acc result). apply IH.
Qed.

Lemma direct_loop_length (pre : list Step) (prev : option string)
    (acc results : list string) (w w1 : World) :
  executeChainDirectly_loop P pre prev acc w = (Normal results, w1) ->
  length results = (length acc + length pre)%nat.
Proof.
  revert prev acc w. induction pre as [|s pre IH]; intros prev acc w.
  - simpl. unfold ret. intros H. injection H as <- _. lia.
  - cbn [executeChainDirectly_loop]. unfold bind.
    destruct (callClaudeAPI P (fullPromptDirect s prev) w) as [[result | m] w'];
      [| discriminate].
    intros H. apply IH in H. rewrite H, length_app. simpl. lia.
Qed.

Lemma direct_loop_sent_length (pre : list Step) (prev : option string)
    (acc : list string) (w : World) :
  (length (sent (snd (executeChainDirectly_loop P pre prev acc w)))
   <= length (sent w) + length pre)%nat.
Proof.
  revert prev acc w. induction pre as [|s pre IH]; intros prev acc w.
  - simpl. lia.
  - cbn [executeChainDirectly_loop]. unfold bind.
    pose proof (callClaudeAPI_sent_length (fullPromptDirect s prev) w) as Hc.
    destruct (callClaudeAPI P (fullPromptDirect s prev) w) as [[result | m] w'];
      simpl in *.
    + specialize (IH (Some result) (acc ++ [result])%list w'). lia.
    + lia.
Qed.

(** ** The library *)

(** The world after a call of [sendPrompt]: the key is kept in the
    instance and one request more is sent when a key is found, and nothing
    changes otherwise. *)
Lemma lib_getApiKey_run (w : World) :
  lib_getApiKey P w
  = if hasKey P w
    then (Normal (libKey P w), {| apiKey := libKey P w; sent := sent w |})
    else (Normal None, w).
Proof.
  unfold lib_getApiKey, hasKey, libKey. destruct w as [k log]. simpl.
  destruct (truthyText k); simpl; [reflexivity |].
  destruct (truthyText (savedKey P)); reflexivity.
Qed.

Lemma libKey_truthy (w : World) :
  hasKey P w = true -> truthyText (libKey P w) = true.
Proof.
  unfold hasKey, libKey. destruct (truthyText (apiKey w)) eqn:E; simpl; auto.
Qed.

Lemma sendPrompt_world (text : string) (rows : TabularData) (opts : Options)
    (w : World) :
  snd (sendPrompt P text rows opts w)
  = if hasKey P w
    then {| apiKey := libKey P w;
            sent := sent w ++ [libRequest P w text rows opts] |}
    else w.
Proof.
  unfold sendPrompt, lib_hasApiKey, _sendRequest, bind at 1 2.
  rewrite lib_getApiKey_run.
  destruct (hasKey P w) eqn:Hk; [| reflexivity].
  pose proof (libKey_truthy w Hk) as Ht.
  destruct (libKey P w) as [k |] eqn:Ek; [| discriminate].
  unfold ret at 1. cbn [negb]. unfold bind at 1 2.
  rewrite lib_getApiKey_run.
  unfold hasKey at 1, libKey at 1 2. cbn [apiKey sent]. rewrite Ht. cbn [orb].
  unfold try_catch, bind, ret, throw, lift, UrlFetchApp_fetch, libRequest.
  cbn [apiKey sent]. rewrite Ek.
  match goal with
  | |- context [fetch P (sent w) ?r] =>
      destruct (fetch P (sent w) r) as [m | code body]
  end; [reflexivity |].
  cbn [fst snd]. destruct (code =? 200); cbn [negb]; [| reflexivity].
  destruct (JSON_parse P body) as [j | m]; [| reflexivity].
  destruct (content0_text P j); reflexivity.
Qed.

Lemma sendPrompt_sent_length (text : string) (rows : TabularData)
    (opts : Options) (w : World) :
  (length (sent (snd (sendPrompt P text rows opts w))) <= length (sent w) + 1)%nat.
Proof.
  rewrite sendPrompt_world. destruct (hasKey P w); simpl.
  - rewrite length_app. simpl. lia.
  - lia.
Qed.

(** Running the library loop on [pre ++ rest] is running it on [pre] and,
    when that returns, going on with [rest]. *)
Lemma lib_loop_app (pre rest : list Step) (acc : list (Reply P)) (w : World) :
  executePromptChain_loop P (pre ++ rest) (lastText (map response acc)) acc w
  = match executePromptChain_loop P pre (lastText (map response acc)) acc w with
    | (Normal replies, w1) =>
        executePromptChain_loop P rest (lastText (map response replies)) replies w1
    | (Throw m, w1) => (Throw m, w1)
    end.
Proof.
  revert acc w. induction pre as [|s pre IH]; intros acc w.
  - reflexivity.
  - cbn [app executePromptChain_loop]. unfold bind.
    destruct (sendPrompt P (enhancedPrompt s (lastText (map response acc)))
                (data s) (options s) w) as [[result | m] w']; [| reflexivity].
    replace (Some (response result))
      with (lastText (map response (acc ++ [result])))
      by (rewrite map_app; apply lastText_snoc).
    apply IH.
Qed.

Lemma lib_loop_length (pre : list Step) (prev : option string)
    (acc replies : list (Reply P)) (w w1 : World) :
  executePromptChain_loop P pre prev acc w = (Normal replies, w1) ->
  length replies = (length acc + length pre)%nat.
Proof.
  revert prev acc w. induction pre as [|s pre IH]; intros prev acc w.
  - simpl. unfold ret. intros H. injection H as <- _. lia.
  - cbn [executePromptChain_loop]. unfold bind.
    destruct (sendPrompt P (enhancedPrompt s prev) (data s) (options s) w)
      as [[result | m] w']; [| discriminate].
    intros H. apply IH in H. rewrite H, length_app. simpl. lia.
Qed.

Lemma lib_loop_sent_length (pre : list Step) (prev : option string)
    (acc : list (Reply P)) (w : World) :
  (length (sent (snd (executePromptChain_loop P pre prev acc w)))
   <= length (sent w) + length pre)%nat.
Proof.
  revert prev acc w. induction pre as [|s pre IH]; intros prev acc w.
  - simpl. lia.
  - cbn [executePromptChain_loop]. unfold bind.
    pose proof (sendPrompt_sent_length (enhancedPrompt s prev) (data s) (options s) w)
      as Hc.
    destruct (sendPrompt P (enhancedPrompt s prev) (data s) (options s) w)
      as [[result | m] w']; simpl in *.
    + specialize (IH (Some (response result)) (acc ++ [result])%list w'). lia.
    + lia.
Qed.

Lemma executePromptChain_nonempty (pre : list Step) (step : Step)
    (post : list Step) (w : World) :
  executePromptChain P (ChainArray (pre ++ step :: post)) w
  = executePromptChain_loop P (pre ++ step :: post) None [] w.
Proof. destruct pre; reflexivity. Qed.

End ExecutionFacts.

(* ================================================================== *)
(** * Failure of a step *)
(* ================================================================== *)

(** C1, as the code has it.  When the first [length pre] steps complete
    and the completion call of the next step throws, either executor ends
    in that very throw, in the world the failing call left: no later step
    is run and at most [length pre + 1] requests were sent.  The caller
    receives the error alone; the results of the completed steps (there is
    one per completed step) are not returned. *)
Theorem chain_aborts_at_failing_step :
  forall (P : Platform) (pre : list Step) (step : Step) (post : list Step)
         (w : World),
    (forall results w1 message w2,
        executeChainDirectly P pre w = (Normal results, w1) ->
        callClaudeAPI P (fullPromptDirect step (lastText results)) w1
          = (Throw message, w2) ->
        executeChainDirectly P (pre ++ step :: post) w = (Throw message, w2)
        /\ returned (fst (executeChainDirectly P (pre ++ step :: post) w)) = None
        /\ length results = length pre
        /\ (length (sent w2) <= length (sent w) + length pre + 1)%nat)
    /\ (forall replies w1 message w2,
        executePromptChain_loop P pre None [] w = (Normal replies, w1) ->
        sendPrompt P (enhancedPrompt step (lastText (map response replies)))
                   (data step) (options step) w1
          = (Throw message, w2) ->
        executePromptChain P (ChainArray (pre ++ step :: post)) w
          = (Throw message, w2)
        /\ returned (fst (executePromptChain P (ChainArray (pre ++ step :: post)) w))
           = None
        /\ length replies = length pre
        /\ (length (sent w2) <= length (sent w) + length pre + 1)%nat).
Proof.
  intros P pre step post w. split.
  - intros results w1 message w2 Hpre Hcall.
    assert (Hrun : executeChainDirectly P (pre ++ step :: post) w = (Throw message, w2)).
    { unfold executeChainDirectly in *.
      change (@None string) with (lastText []).
      rewrite direct_loop_app. simpl lastText. rewrite Hpre.
      cbn [executeChainDirectly_loop]. unfold bind. now rewrite Hcall. }
    split; [exact Hrun |]. split; [now rewrite Hrun |]. split.
    + now apply direct_loop_length in Hpre.
    + pose proof (direct_loop_sent_length P pre None [] w) as H1.
      pose proof (callClaudeAPI_sent_length P
                    (fullPromptDirect step (lastText results)) w1) as H2.
      unfold executeChainDirectly in Hpre. rewrite Hpre in H1. rewrite Hcall in H2.
      simpl in H1, H2. lia.
  - intros replies w1 message w2 Hpre Hcall.
    assert (Hrun : executePromptChain P (ChainArray (pre ++ step :: post)) w
                   = (Throw message, w2)).
    { rewrite executePromptChain_nonempty.
      change (@None string) with (lastText (map (@response P) [])).
      rewrite lib_loop_app. simpl map. simpl lastText. rewrite Hpre.
      cbn [executePromptChain_loop]. unfold bind. now rewrite Hcall. }
    split; [exact Hrun |]. split; [now rewrite Hrun |]. split.
    + now apply lib_loop_length in Hpre.
    + pose proof (lib_loop_sent_length P pre None [] w) as H1.
      pose proof (sendPrompt_sent_length P
                    (enhancedPrompt step (lastText (map response replies)))
                    (data step) (options step) w1) as H2.
      rewrite Hpre in H1. rewrite Hcall in H2. simpl in H1, H2. lia.
Qed.

(** A chain of three steps on a service that fails the second call. *)
Lemma chain_aborts_at_failing_step_witness :
  (exists w2,
     executeChainDirectly failingService
       ([stepSummarize] ++ stepElaborate :: [stepConclude]) freshWorld
     = (Throw "API error (500): overloaded", w2))
  /\ (exists w2,
     executePromptChain failingService
       (ChainArray ([stepSummarize] ++ stepElaborate :: [stepConclude])) freshWorld
     = (Throw "Error during API request: API error (500): overloaded", w2)).
Proof.
  split.
  - eexists.
    eapply (proj1 (chain_aborts_at_failing_step failingService [stepSummarize]
                     stepElaborate [stepConclude] freshWorld)).
    + reflexivity.
    + reflexivity.
  - eexists.
    eapply (proj2 (chain_aborts_at_failing_step failingService [stepSummarize]
                     stepElaborate [stepConclude] freshWorld)).
    + reflexivity.
    + reflexivity.
Defined.

(** The first step of the chain completes, the call of the second fails,
    and the call of the executor returns no results list at all, of length
    one or any other. *)
Lemma failed_chain_returns_no_results :
  fst (executeChainDirectly failingService [stepSummarize] freshWorld)
    = Normal ["first answer"]
  /\ fst (executeChainDirectly failingService
            [stepSummarize; stepElaborate; stepConclude] freshWorld)
     = Throw "API error (500): overloaded"
  /\ ~ (exists results,
          returned (fst (executeChainDirectly failingService
                           [stepSummarize; stepElaborate; stepConclude] freshWorld))
            = Some results
          /\ length results = 1%nat).
Proof.
  split; [reflexivity |]. split; [reflexivity |].
  intros [results [H _]]. discriminate H.
Qed.

(* ================================================================== *)
(** * The argument of the library's executor *)
(* ================================================================== *)

(** C10.  When its argument is not an array with at least one step, the
    empty array included, [executePromptChain] of the library throws
    "Prompt chain must be a non-empty array": nothing is returned, and the
    world is unchanged, so no completion request has been sent. *)
Theorem executePromptChain_rejects :
  forall (P : Platform) (arg : ChainArg) (w : World),
    isNonEmptyArray arg = false ->
    executePromptChain P arg w
      = (Throw "Prompt chain must be a non-empty array", w)
    /\ returned (fst (executePromptChain P arg w)) = @None (list (Reply P))
    /\ sent (snd (executePromptChain P arg w)) = sent w.
Proof.
  intros P arg w H.
  assert (E : executePromptChain P arg w
              = (Throw "Prompt chain must be a non-empty array", w)).
  { destruct arg as [v | [|s rest]]; [reflexivity | reflexivity | discriminate]. }
  rewrite E. repeat split.
Qed.

Lemma executePromptChain_rejects_witness :
  executePromptChain steadyService (ChainArray []) freshWorld
    = (Throw "Prompt chain must be a non-empty array", freshWorld)
  /\ executePromptChain steadyService (NotAnArray (VString "Summarize")) freshWorld
    = (Throw "Prompt chain must be a non-empty array", freshWorld).
Proof.
  split.
  - apply (executePromptChain_rejects steadyService (ChainArray []) freshWorld).
    reflexivity.
  - apply (executePromptChain_rejects steadyService
             (NotAnArray (VString "Summarize")) freshWorld).
    reflexivity.
Defined.

(* ================================================================== *)
(** * The composed prompt *)
(* ================================================================== *)

Lemma renderRows_concat (rows : TabularData) :
  renderRows rows = String.concat "" (map (fun row => join row TAB ++ LF) rows).
Proof.
  induction rows as [|row rest IH]; [reflexivity |].
  cbn [renderRows map String.concat]. rewrite IH.
  destruct rest as [|row' rest]; [apply append_empty_r | reflexivity].
Qed.

Lemma fullPromptDirect_empty (step : Step) (previous : option string) :
  data step = [] ->
  fullPromptDirect step previous = promptWithPrevious step previous.
Proof.
  intros H. unfold fullPromptDirect, directDataTable. now rewrite H.
Qed.

Lemma fullPromptDirect_table (step : Step) (previous : option string) :
  data step <> [] ->
  fullPromptDirect step previous
  = promptWithPrevious step previous ++ dataHeading ++ renderRows (data step).
Proof.
  intros H. unfold fullPromptDirect, directDataTable.
  destruct (data step) as [|row rest] eqn:E; [congruence |].
  destruct (String.eqb (renderRows (row :: rest)) "") eqn:Eq.
  - apply renderRows_empty in Eq. discriminate.
  - reflexivity.
Qed.

Lemma callClaudeAPI_prompt (P : Platform) (text : string) (w : World) :
  truthyText (savedKey P) = true ->
  promptsSent (snd (callClaudeAPI P text w)) = (promptsSent w ++ [text])%list.
Proof.
  intros H. rewrite callClaudeAPI_world, H. unfold promptsSent. simpl.
  now rewrite map_app.
Qed.

Lemma sendPrompt_prompt (P : Platform) (text : string) (rows : TabularData)
    (opts : Options) (w : World) :
  hasKey P w = true ->
  promptsSent (snd (sendPrompt P text rows opts w))
  = (promptsSent w ++ [fullPromptLib text rows])%list.
Proof.
  intros H. rewrite sendPrompt_world, H. unfold promptsSent. simpl.
  now rewrite map_app.
Qed.

(** C5, as the code has it.  The fallback executor appends the data
    heading and the rendering of the step's table exactly when the table
    has a row, and appends nothing for an empty table.  The library
    appends the heading always, followed by the rendering of the table or,
    for an empty table, by the text "No data available".  The rendering is
    the rows one after the other, the cells of a row joined by one tab and
    every row ended by a line feed.  These texts are the ones sent. *)
Theorem data_section_of_prompt :
  forall (P : Platform) (step : Step) (previous : option string),
    (data step = [] ->
     fullPromptDirect step previous = promptWithPrevious step previous)
    /\ (data step <> [] ->
        fullPromptDirect step previous
        = promptWithPrevious step previous ++ dataHeading ++ renderRows (data step))
    /\ (data step = [] ->
        fullPromptLib (enhancedPrompt step previous) (data step)
        = enhancedPrompt step previous ++ dataHeading ++ "No data available")
    /\ (data step <> [] ->
        fullPromptLib (enhancedPrompt step previous) (data step)
        = enhancedPrompt step previous ++ dataHeading ++ renderRows (data step))
    /\ renderRows (data step)
       = String.concat "" (map (fun row => join row TAB ++ LF) (data step))
    /\ (forall w, truthyText (savedKey P) = true ->
          promptsSent (snd (callClaudeAPI P (fullPromptDirect step previous) w))
          = (promptsSent w ++ [fullPromptDirect step previous])%list)
    /\ (forall w, hasKey P w = true ->
          promptsSent (snd (sendPrompt P (enhancedPrompt step previous)
                              (data step) (options step) w))
          = (promptsSent w ++ [fullPromptLib (enhancedPrompt step previous) (data step)])%list).
Proof.
  intros P step previous. repeat split.
  - apply fullPromptDirect_empty.
  - apply fullPromptDirect_table.
  - intros H. unfold fullPromptLib. now rewrite H.
  - intros H. unfold fullPromptLib, _formatDataAsTable.
    destruct (data step); [congruence | reflexivity].
  - apply renderRows_concat.
  - intros w H. now apply callClaudeAPI_prompt.
  - intros w H. now apply sendPrompt_prompt.
Qed.

(** The step "Elaborate", without data, after a first answer: the fallback
    adds no data section; the step "Summarize" with its table of two rows
    does get one. *)
Lemma data_section_of_prompt_witness :
  fullPromptDirect stepElaborate (Some "first answer")
    = "Elaborate" ++ LF ++ LF ++ "Result from previous step:" ++ LF ++ "first answer"
  /\ fullPromptDirect stepSummarize None
    = "Summarize" ++ LF ++ LF ++ "Here is the data from the table:" ++ LF ++ LF
      ++ "x" ++ TAB ++ "1" ++ LF ++ "y" ++ TAB ++ "2" ++ LF.
Proof.
  split.
  - apply (proj1 (data_section_of_prompt steadyService stepElaborate
                    (Some "first answer"))).
    reflexivity.
  - apply (proj1 (proj2 (data_section_of_prompt steadyService stepSummarize None))).
    discriminate.
Defined.

(** The library run on the single step "Elaborate", whose data is empty:
    the prompt sent is not the step's prompt with nothing appended, it
    carries the placeholder text. *)
Lemma library_appends_placeholder :
  data stepElaborate = []
  /\ promptsSent (snd (executePromptChain steadyService
                         (ChainArray [stepElaborate]) freshWorld))
     = ["Elaborate" ++ LF ++ LF ++ "Here is the data from the table:" ++ LF ++ LF
        ++ "No data available"]
  /\ promptsSent (snd (executePromptChain steadyService
                         (ChainArray [stepElaborate]) freshWorld))
     <> [prompt stepElaborate].
Proof.
  split; [reflexivity |]. split; [reflexivity |]. discriminate.
Qed.

(* ================================================================== *)
(** * The previous result in the next prompt *)
(* ================================================================== *)

Lemma lastText_some_nonempty (results : list string) (r : string) :
  lastText results = Some r -> results <> [].
Proof. destruct results; [discriminate | discriminate]. Qed.

Lemma direct_loop_needs_key (P : Platform) (s : Step) (pre : list Step)
    (prev : option string) (acc results : list string) (w w1 : World) :
  executeChainDirectly_loop P (s :: pre) prev acc w = (Normal results, w1) ->
  truthyText (savedKey P) = true.
Proof.
  cbn [executeChainDirectly_loop]. unfold bind.
  destruct (callClaudeAPI P (fullPromptDirect s prev) w) as [[result | m] w'] eqn:E;
    [| discriminate].
  intros _. now apply callClaudeAPI_needs_key in E.
Qed.

Lemma sendPrompt_needs_key (P : Platform) (text : string) (rows : TabularData)
    (opts : Options) (w w' : World) (reply : Reply P) :
  sendPrompt P text rows opts w = (Normal reply, w') -> hasKey P w = true.
Proof.
  unfold sendPrompt, lib_hasApiKey, bind at 1 2. rewrite lib_getApiKey_run.
  destruct (hasKey P w); [reflexivity |].
  unfold ret, throw. simpl. discriminate.
Qed.

Lemma sendPrompt_keeps_key (P : Platform) (text : string) (rows : TabularData)
    (opts : Options) (w : World) :
  hasKey P w = true -> hasKey P (snd (sendPrompt P text rows opts w)) = true.
Proof.
  intros H. rewrite sendPrompt_world, H. unfold hasKey at 1. cbn [apiKey].
  now rewrite (libKey_truthy P w H).
Qed.

Lemma lib_loop_keeps_key (P : Platform) (steps : list Step)
    (prev : option string) (acc : list (Reply P)) (w : World) :
  hasKey P w = true ->
  hasKey P (snd (executePromptChain_loop P steps prev acc w)) = true.
Proof.
  revert prev acc w. induction steps as [|s steps IH]; intros prev acc w H.
  - exact H.
  - cbn [executePromptChain_loop]. unfold bind.
    pose proof (sendPrompt_keeps_key P (enhancedPrompt s prev) (data s) (options s) w H)
      as Hk.
    destruct (sendPrompt P (enhancedPrompt s prev) (data s) (options s) w)
      as [[result | m] w']; simpl in Hk.
    + now apply IH.
    + exact Hk.
Qed.

Lemma lib_loop_has_key (P : Platform) (s : Step) (pre : list Step)
    (prev : option string) (acc replies : list (Reply P)) (w w1 : World) :
  executePromptChain_loop P (s :: pre) prev acc w = (Normal replies, w1) ->
  hasKey P w1 = true.
Proof.
  intros H.
  assert (Hw : hasKey P w = true).
  { revert H. cbn [executePromptChain_loop]. unfold bind.
    destruct (sendPrompt P (enhancedPrompt s prev) (data s) (options s) w)
      as [[result | m] w'] eqn:E; [| discriminate].
    intros _. now apply sendPrompt_needs_key in E. }
  pose proof (lib_loop_keeps_key P (s :: pre) prev acc w Hw) as Hk.
  now rewrite H in Hk.
Qed.

Lemma is_substring_inside (a r b : string) : is_substring r (a ++ r ++ b).
Proof. now exists a, b. Qed.

(** C4, as the code has it.  When step [i] asks for the previous result
    and step [i-1] completed with a response text [r] that is not empty,
    the prompt sent for step [i] is the step's prompt followed by the
    heading of the previous result, by [r] itself and by the data section:
    in the fallback executor and in the library alike. *)
Theorem previous_result_in_next_prompt :
  forall (P : Platform) (pre : list Step) (step : Step) (post : list Step)
         (w : World) (r : string),
    includeLastResult step = true ->
    r <> "" ->
    (forall results w1,
        executeChainDirectly P pre w = (Normal results, w1) ->
        lastText results = Some r ->
        let text := fullPromptDirect step (Some r) in
        executeChainDirectly P (pre ++ step :: post) w
        = bind (callClaudeAPI P text)
               (fun result =>
                  executeChainDirectly_loop P post (Some result) (results ++ [result]))
               w1
        /\ promptsSent (snd (callClaudeAPI P text w1)) = (promptsSent w1 ++ [text])%list
        /\ (exists tail,
              text = prompt step ++ (LF ++ LF ++ "Result from previous step:" ++ LF)
                     ++ r ++ tail)
        /\ is_substring r text)
    /\ (forall replies w1,
        executePromptChain_loop P pre None [] w = (Normal replies, w1) ->
        lastText (map response replies) = Some r ->
        let text := enhancedPrompt step (Some r) in
        executePromptChain P (ChainArray (pre ++ step :: post)) w
        = bind (sendPrompt P text (data step) (options step))
               (fun result =>
                  executePromptChain_loop P post (Some (response result))
                    (replies ++ [result]))
               w1
        /\ promptsSent (snd (sendPrompt P text (data step) (options step) w1))
           = (promptsSent w1 ++ [fullPromptLib text (data step)])%list
        /\ (exists tail,
              fullPromptLib text (data step)
              = prompt step ++ (LF ++ LF ++ "Result of the previous step:" ++ LF)
                ++ r ++ tail)
        /\ is_substring r (fullPromptLib text (data step))).
Proof.
  intros P pre step post w r Hinc Hr.
  assert (Ht : truthyText (Some r) = true).
  { simpl. destruct (String.eqb_spec r ""); [contradiction | reflexivity]. }
  split.
  - intros results w1 Hpre Hlast text.
    assert (Htext : exists tail,
               text = prompt step ++ (LF ++ LF ++ "Result from previous step:" ++ LF)
                      ++ r ++ tail).
    { unfold text, fullPromptDirect, promptWithPrevious, previousSectionDirect.
      rewrite Ht, Hinc. cbn [andb].
      destruct (negb (String.eqb (directDataTable step) "")).
      - exists (dataHeading ++ directDataTable step).
        now rewrite !append_assoc.
      - exists "". now rewrite !append_assoc, append_empty_r. }
    repeat split.
    + unfold executeChainDirectly in *.
      change (@None string) with (lastText []).
      rewrite direct_loop_app. simpl lastText. rewrite Hpre, Hlast. reflexivity.
    + apply callClaudeAPI_prompt.
      destruct pre as [|s pre].
      * unfold executeChainDirectly in Hpre. simpl in Hpre. unfold ret in Hpre.
        injection Hpre as <- _. discriminate.
      * now apply direct_loop_needs_key in Hpre.
    + exact Htext.
    + destruct Htext as [tail ->]. rewrite <- append_assoc.
      apply is_substring_inside.
  - intros replies w1 Hpre Hlast text.
    assert (Htext : exists tail,
               fullPromptLib text (data step)
               = prompt step ++ (LF ++ LF ++ "Result of the previous step:" ++ LF)
                 ++ r ++ tail).
    { unfold text, fullPromptLib, enhancedPrompt, previousSectionLib.
      rewrite Ht, Hinc. cbn [andb].
      exists (dataHeading ++ _formatDataAsTable (data step)).
      now rewrite !append_assoc. }
    repeat split.
    + rewrite executePromptChain_nonempty.
      change (@None string) with (lastText (map (@response P) [])).
      rewrite lib_loop_app. simpl map. simpl lastText. rewrite Hpre, Hlast.
      reflexivity.
    + apply sendPrompt_prompt.
      destruct pre as [|s pre].
      * simpl in Hpre. unfold ret in Hpre. injection Hpre as <- _. discriminate.
      * now apply lib_loop_has_key in Hpre.
    + exact Htext.
    + destruct Htext as [tail ->]. rewrite <- append_assoc.
      apply is_substring_inside.
Qed.

(** The chain "Summarize", "Elaborate", "Conclude" on a service that
    answers: the second prompt carries the first answer. *)
Lemma previous_result_in_next_prompt_witness :
  is_substring "first answer" (fullPromptDirect stepElaborate (Some "first answer"))
  /\ is_substring "first answer"
       (fullPromptLib (enhancedPrompt stepElaborate (Some "first answer"))
          (data stepElaborate)).
Proof.
  split.
  - eapply (proj1 (previous_result_in_next_prompt steadyService [stepSummarize]
                     stepElaborate [stepConclude] freshWorld "first answer"
                     eq_refl ltac:(discriminate))).
    + reflexivity.
    + reflexivity.
  - eapply (proj2 (previous_result_in_next_prompt steadyService [stepSummarize]
                     stepElaborate [stepConclude] freshWorld "first answer"
                     eq_refl ltac:(discriminate))).
    + reflexivity.
    + reflexivity.
Defined.

(** The first step completes with the empty text and the second step asks
    for the previous result: the prompt sent for it has no section of the
    previous result, in the fallback executor and in the library. *)
Lemma empty_result_is_not_included :
  fst (executeChainDirectly silentService [stepSummarize] freshWorld) = Normal [""]
  /\ includeLastResult stepCompare = true
  /\ nth 1 (promptsSent (snd (executeChainDirectly silentService
                                [stepSummarize; stepCompare] freshWorld))) ""
     = "Compare" ++ dataHeading ++ renderRows sampleTable
  /\ ~ is_substring (previousSectionDirect "")
       (nth 1 (promptsSent (snd (executeChainDirectly silentService
                                   [stepSummarize; stepCompare] freshWorld))) "")
  /\ nth 1 (promptsSent (snd (executePromptChain silentService
                                (ChainArray [stepSummarize; stepCompare])
                                freshWorld))) ""
     = "Compare" ++ dataHeading ++ renderRows sampleTable
  /\ ~ is_substring (previousSectionLib "")
       (nth 1 (promptsSent (snd (executePromptChain silentService
                                   (ChainArray [stepSummarize; stepCompare])
                                   freshWorld))) "").
Proof.
  split; [reflexivity |]. split; [reflexivity |]. split; [reflexivity |].
  split; [| split; [reflexivity |]].
  - intros H. apply includes_spec in H. vm_compute in H. discriminate H.
  - intros H. apply includes_spec in H. vm_compute in H. discriminate H.
Qed.

(* ================================================================== *)
(** * The two executors side by side *)
(* ================================================================== *)

Section SideBySide.

Variable P : Platform.

(** [callClaudeAPI] in closed form. *)
Lemma callClaudeAPI_run (text : string) (w : World) :
  callClaudeAPI P text w
  = if truthyText (savedKey P) then
      let w' := {| apiKey := apiKey w; sent := sent w ++ [directRequest P text] |} in
      match fetch P (sent w) (directRequest P text) with
      | FetchFails m => (Throw m, w')
      | HttpResponse code body =>
          if code =? 200 then
            match JSON_parse P body with
            | Normal j => (content0_text P j, w')
            | Throw m => (Throw m, w')
            end
          else (Throw ("API error (" ++ numberToString code ++ "): " ++ body), w')
      end
    else (Throw "API key not configured", w).
Proof.
  unfold callClaudeAPI, client_getApiKey, bind, ret, throw, lift, UrlFetchApp_fetch.
  destruct (truthyText (savedKey P)); simpl; [| reflexivity].
  fold (defaultPayload text). fold (directRequest P text).
  destruct (fetch P (sent w) (directRequest P text)) as [m | code body]; simpl;
    [reflexivity |].
  destruct (code =? 200); simpl; [| reflexivity].
  destruct (JSON_parse P body); reflexivity.
Qed.

(** [sendPrompt] in closed form. *)
Lemma sendPrompt_run (text : string) (rows : TabularData) (opts : Options)
    (w : World) :
  sendPrompt P text rows opts w
  = if hasKey P w then
      let req := libRequest P w text rows opts in
      let w' := {| apiKey := libKey P w; sent := sent w ++ [req] |} in
      match fetch P (sent w) req with
      | FetchFails m => (Throw ("Error during API request: " ++ m), w')
      | HttpResponse code body =>
          if code =? 200 then
            match JSON_parse P body with
            | Normal j =>
                match content0_text P j with
                | Normal t => (Normal {| response := t; rawResponse := j |}, w')
                | Throw m => (Throw m, w')
                end
            | Throw m => (Throw ("Error during API request: " ++ m), w')
            end
          else (Throw ("Error during API request: "
                       ++ ("API error (" ++ numberToString code ++ "): " ++ body)), w')
      end
    else (Throw "No API key found. Please set an API key first with setApiKey()", w).
Proof.
  unfold sendPrompt, lib_hasApiKey, _sendRequest, bind at 1 2.
  rewrite lib_getApiKey_run.
  destruct (hasKey P w) eqn:Hk; [| reflexivity].
  pose proof (libKey_truthy P w Hk) as Ht.
  destruct (libKey P w) as [k |] eqn:Ek; [| discriminate].
  unfold ret at 1. cbn [negb]. unfold bind at 1 2.
  rewrite lib_getApiKey_run.
  unfold hasKey at 1, libKey at 1 2. cbn [apiKey sent]. rewrite Ht. cbn [orb].
  unfold try_catch, bind, ret, throw, lift, UrlFetchApp_fetch, libRequest.
  cbn [apiKey sent]. rewrite Ek. cbv zeta.
  match goal with
  | |- context [fetch P (sent w) ?r] =>
      destruct (fetch P (sent w) r) as [m | code body]
  end; [reflexivity |].
  cbn [fst snd]. destruct (code =? 200); cbn [negb]; [| reflexivity].
  destruct (JSON_parse P body) as [j | m]; [| reflexivity].
  destruct (content0_text P j); reflexivity.
Qed.

Lemma keyInStep_libKey (w : World) :
  keyInStep P w -> hasKey P w = truthyText (savedKey P) /\ libKey P w = savedKey P.
Proof.
  unfold keyInStep, hasKey, libKey. intros [H | H].
  - now rewrite H.
  - rewrite H. destruct (truthyText (savedKey P)); auto.
Qed.

Lemma keyInStep_after (w : World) (log : list Request) :
  keyInStep P w -> keyInStep P {| apiKey := libKey P w; sent := log |}.
Proof.
  intros H. right. simpl. now apply keyInStep_libKey.
Qed.

(** One completion call of each executor on the same text, from worlds
    with the same requests behind them. *)
Lemma calls_agree (textD textL : string) (rows : TabularData) (opts : Options)
    (w wl : World) :
  usesDefaults opts ->
  fullPromptLib textL rows = textD ->
  sent wl = sent w ->
  keyInStep P wl ->
  match callClaudeAPI P textD w, sendPrompt P textL rows opts wl with
  | (Normal r, w'), (Normal reply, wl') =>
      response reply = r /\ sent wl' = sent w' /\ keyInStep P wl'
  | (Throw _, w'), (Throw _, wl') => sent wl' = sent w' /\ keyInStep P wl'
  | _, _ => False
  end.
Proof.
  intros [Hm [Ht Hq]] Htext Hsent Hkey.
  rewrite callClaudeAPI_run, sendPrompt_run.
  destruct (keyInStep_libKey wl Hkey) as [Hhas Hlib].
  assert (Hreq : libRequest P wl textL rows opts = directRequest P textD).
  { unfold libRequest, directRequest, defaultPayload.
    now rewrite Hlib, Hm, Ht, Hq, Htext. }
  rewrite Hhas. destruct (truthyText (savedKey P)); [| now split].
  cbv zeta. rewrite Hreq, Hsent.
  pose proof (keyInStep_after wl (sent w ++ [directRequest P textD]) Hkey) as Hk'.
  destruct (fetch P (sent w) (directRequest P textD)) as [m | code body];
    [now split |].
  destruct (code =? 200); [| now split].
  destruct (JSON_parse P body) as [j | m]; [| now split].
  destruct (content0_text P j); simpl; auto.
Qed.

Lemma texts_agree (s : Step) (prev prevl : option string) :
  data s <> [] ->
  includeLastResult s = false \/ (prev = None /\ prevl = None) ->
  fullPromptLib (enhancedPrompt s prevl) (data s) = fullPromptDirect s prev.
Proof.
  intros Hd Hi. rewrite fullPromptDirect_table by exact Hd.
  unfold fullPromptLib, _formatDataAsTable.
  destruct (data s) as [|row rest] eqn:E; [congruence |].
  f_equal. unfold enhancedPrompt, promptWithPrevious.
  destruct Hi as [Hi | [-> ->]]; [| reflexivity].
  rewrite Hi, !andb_false_r. now destruct prev, prevl.
Qed.

Lemma loops_agree (steps : list Step) :
  forall (prev prevl : option string) (acc : list string)
         (accl : list (Reply P)) (w wl : World),
    Forall (fun s => plainStep s /\ includeLastResult s = false) steps ->
    sent wl = sent w ->
    keyInStep P wl ->
    map response accl = acc ->
    agree (fst (executeChainDirectly_loop P steps prev acc w))
          (fst (executePromptChain_loop P steps prevl accl wl))
    /\ sent (snd (executePromptChain_loop P steps prevl accl wl))
       = sent (snd (executeChainDirectly_loop P steps prev acc w)).
Proof.
  induction steps as [|s steps IH]; intros prev prevl acc accl w wl Hall Hsent Hkey Hacc.
  - simpl. auto.
  - inversion Hall as [|? ? [[Hd Ho] Hi] Hrest]; subst.
    cbn [executeChainDirectly_loop executePromptChain_loop]. unfold bind.
    pose proof (calls_agree (fullPromptDirect s prev) (enhancedPrompt s prevl)
                  (data s) (options s) w wl Ho
                  (texts_agree s prev prevl Hd (or_introl Hi)) Hsent Hkey) as Hc.
    destruct (callClaudeAPI P (fullPromptDirect s prev) w) as [[r | m] w'];
      destruct (sendPrompt P (enhancedPrompt s prevl) (data s) (options s) wl)
        as [[reply | ml] wl']; try contradiction.
    + destruct Hc as [Hr [Hs Hk]]. apply IH; auto.
      rewrite map_app. simpl. now rewrite Hr.
    + simpl. tauto.
Qed.

End SideBySide.

(** C6, as the code has it.  On a chain whose steps all carry a table and
    the default options, and where no step after the first asks for the
    previous result, the fallback executor and the library send the same
    requests and end alike: both return, with the same response texts,
    or both throw. *)
Theorem executors_agree_on_plain_chains :
  forall (P : Platform) (first : Step) (others : list Step) (w wl : World),
    plainStep first ->
    Forall (fun s => plainStep s /\ includeLastResult s = false) others ->
    sent wl = sent w ->
    keyInStep P wl ->
    agree (fst (executeChainDirectly P (first :: others) w))
          (fst (executePromptChain P (ChainArray (first :: others)) wl))
    /\ sent (snd (executePromptChain P (ChainArray (first :: others)) wl))
       = sent (snd (executeChainDirectly P (first :: others) w)).
Proof.
  intros P first others w wl [Hd Ho] Hall Hsent Hkey.
  unfold executeChainDirectly, executePromptChain.
  cbn [executeChainDirectly_loop executePromptChain_loop]. unfold bind.
  pose proof (calls_agree P (fullPromptDirect first None) (enhancedPrompt first None)
                (data first) (options first) w wl Ho
                (texts_agree first None None Hd (or_intror (conj eq_refl eq_refl)))
                Hsent Hkey) as Hc.
  destruct (callClaudeAPI P (fullPromptDirect first None) w) as [[r | m] w'];
    destruct (sendPrompt P (enhancedPrompt first None) (data first) (options first) wl)
      as [[reply | ml] wl']; try contradiction.
  - destruct Hc as [Hr [Hs Hk]]. apply loops_agree; auto.
    simpl. now rewrite Hr.
  - simpl. tauto.
Qed.

(** The chain "Summarize", "Conclude": both steps carry the sample table
    and neither asks for the previous result. *)
Lemma executors_agree_on_plain_chains_witness :
  promptsSent (snd (executePromptChain steadyService
                      (ChainArray [stepSummarize; stepConclude]) freshWorld))
  = promptsSent (snd (executeChainDirectly steadyService
                        [stepSummarize; stepConclude] freshWorld))
  /\ map response (match fst (executePromptChain steadyService
                      (ChainArray [stepSummarize; stepConclude]) freshWorld) with
                   | Normal replies => replies
                   | Throw _ => []
                   end)
     = ["first answer"; "second answer"].
Proof.
  split; [| reflexivity].
  unfold promptsSent.
  apply (f_equal (map (fun r => content (payload r)))).
  apply (executors_agree_on_plain_chains steadyService stepSummarize [stepConclude]
           freshWorld freshWorld).
  - split; [discriminate | repeat split].
  - repeat constructor; discriminate.
  - reflexivity.
  - left. reflexivity.
Defined.

(** The chain "Summarize", "Compare", the second step asking for the
    previous result, on the same service from the same world: the two
    executors send different prompt texts. *)
Lemma executors_word_previous_result_differently :
  promptsSent (snd (executePromptChain steadyService
                      (ChainArray [stepSummarize; stepCompare]) freshWorld))
  <> promptsSent (snd (executeChainDirectly steadyService
                         [stepSummarize; stepCompare] freshWorld)).
Proof.
  intros H. vm_compute in H. discriminate H.
Qed.

(* ================================================================== *)
(** * Data references *)
(* ================================================================== *)

Lemma includesChar_app (a b : string) (c : ascii) :
  includesChar (a ++ String c b) c = true.
Proof.
  induction a as [|x a IH]; simpl.
  - now rewrite Ascii.eqb_refl.
  - rewrite IH. apply orb_true_r.
Qed.

Lemma split_first (a b : string) (c : ascii) :
  includesChar a c = false ->
  split (a ++ String c b) c = a :: split b c.
Proof.
  induction a as [|x a IH]; simpl; intros H.
  - now rewrite Ascii.eqb_refl.
  - apply orb_false_iff in H as [Hx Ha]. rewrite Hx, (IH Ha). reflexivity.
Qed.

Lemma split_has_part (s : string) (c : ascii) :
  exists p ps, split s c = p :: ps.
Proof.
  induction s as [|x s [p [ps IH]]]; simpl.
  - now exists "", [].
  - destruct (Ascii.eqb x c); [now eexists; eexists |].
    rewrite IH. now eexists; eexists.
Qed.

(** A text that includes the separator splits in two parts at least. *)
Lemma split_two_parts (s : string) (c : ascii) :
  includesChar s c = true -> exists p q rest, split s c = p :: q :: rest.
Proof.
  induction s as [|x s IH]; simpl; [discriminate |].
  destruct (Ascii.eqb x c) eqn:E; simpl.
  - intros _. destruct (split_has_part s c) as [q [rest ->]].
    now exists "", q, rest.
  - intros H. destruct (IH H) as [p [q [rest ->]]].
    now exists (String x p), q, rest.
Qed.

(** C7.  A reference [sheetName!address] whose sheet name is not found is
    resolved by one sheet lookup and the error [Sheet "sheetName" not
    found], which carries the name; the builder puts this error in front
    of the user, in the alert on the data range of the row. *)
Theorem unknown_sheet_is_reported :
  forall (Sheet : Type) (ss : Spreadsheet Sheet) (sheetName address : string),
    includesChar sheetName BANG = false ->
    getSheetByName ss sheetName = None ->
    let reference := sheetName ++ String BANG address in
    resolveReference ss reference
      = (Throw (sheetNotFound sheetName), [SheetLookup sheetName])
    /\ sheetNotFound sheetName = "Sheet " ++ DQUOTE ++ sheetName ++ DQUOTE ++ " not found"
    /\ is_substring sheetName (sheetNotFound sheetName)
    /\ (forall (alert : string -> string -> Button) (rangeCol : Z)
               (row : list Value) (i : Z),
          rangeCol <> -1 ->
          truthy (index row rangeCol) = true ->
          trim (ToString (index row rangeCol)) = reference ->
          rangeDataOfRow ss alert rangeCol row i
          = match alert "Data Range Issue"
                    (rangeIssueMessage reference i (sheetNotFound sheetName)) with
            | NO => None
            | _ => Some []
            end).
Proof.
  intros Sheet ss sheetName address Hname Hnone reference.
  assert (Hres : resolveReference ss reference
                 = (Throw (sheetNotFound sheetName), [SheetLookup sheetName])).
  { unfold resolveReference, reference.
    rewrite includesChar_app, (split_first _ _ _ Hname).
    destruct (split_has_part address BANG) as [q [rest ->]].
    now rewrite Hnone. }
  split; [exact Hres |]. split; [reflexivity |]. split.
  - unfold sheetNotFound. exists ("Sheet " ++ DQUOTE), (DQUOTE ++ " not found").
    now rewrite !append_assoc.
  - intros alert rangeCol row i Hcol Htruthy Href.
    unfold rangeDataOfRow.
    destruct (Z.eqb_spec rangeCol (-1)) as [E | _]; [contradiction |].
    rewrite Htruthy. cbn [negb andb]. rewrite Href.
    assert (Hne : String.eqb reference "" = false).
    { unfold reference. destruct sheetName; reflexivity. }
    rewrite Hne. cbn [negb]. now rewrite Hres.
Qed.

(** The reference "Sheet2!A1:A3" on a spreadsheet without a sheet
    "Sheet2". *)
Lemma unknown_sheet_is_reported_witness :
  resolveReference sampleSheets "Sheet2!A1:A3"
  = (Throw ("Sheet " ++ DQUOTE ++ "Sheet2" ++ DQUOTE ++ " not found"),
     [SheetLookup "Sheet2"]).
Proof.
  apply (unknown_sheet_is_reported string sampleSheets "Sheet2" "A1:A3");
    reflexivity.
Defined.

(** C3.  A reference without the separator is looked up as a named range
    first.  When that gives values, they are the result and no address is
    looked up.  Otherwise the result is that of the address lookup in the
    active sheet, made after the named lookup; so when the address lookup
    fails too, its error is the one thrown. *)
Theorem named_range_before_address :
  forall (Sheet : Type) (ss : Spreadsheet Sheet) (reference : string),
    includesChar reference BANG = false ->
    (forall values,
        namedRangeValues ss reference = Normal (Some values) ->
        resolveReference ss reference = (Normal values, [NamedLookup reference]))
    /\ ((forall values, namedRangeValues ss reference <> Normal (Some values)) ->
        fst (resolveReference ss reference)
          = rangeValues ss (activeSheet ss) reference
        /\ exists again,
             snd (resolveReference ss reference)
             = NamedLookup reference
               :: AddressLookup (activeSheet ss) reference :: again)
    /\ (forall message,
          (forall values, namedRangeValues ss reference <> Normal (Some values)) ->
          rangeValues ss (activeSheet ss) reference = Throw message ->
          fst (resolveReference ss reference) = Throw message).
Proof.
  intros Sheet ss reference Hbang.
  assert (Hfall : (forall values, namedRangeValues ss reference <> Normal (Some values)) ->
                  fst (resolveReference ss reference)
                    = rangeValues ss (activeSheet ss) reference
                  /\ exists again,
                       snd (resolveReference ss reference)
                       = NamedLookup reference
                         :: AddressLookup (activeSheet ss) reference :: again).
  { intros Hno. unfold resolveReference. rewrite Hbang.
    destruct (namedRangeValues ss reference) as [[values |] | m] eqn:En.
    - now destruct (Hno values).
    - destruct (rangeValues ss (activeSheet ss) reference) eqn:Ea; simpl.
      + split; [reflexivity | now eexists].
      + split; [reflexivity | now eexists].
    - simpl. split; [reflexivity | now eexists]. }
  split; [| split].
  - intros values Hn. unfold resolveReference. now rewrite Hbang, Hn.
  - exact Hfall.
  - intros message Hno Ha. destruct (Hfall Hno) as [-> _]. exact Ha.
Qed.

(** On the sample spreadsheet: "Totals" is a named range, "A1:B2" is an
    address of the active sheet, "Bogus" is neither. *)
Lemma named_range_before_address_witness :
  resolveReference sampleSheets "Totals"
    = (Normal [[VNumber 42]], [NamedLookup "Totals"])
  /\ fst (resolveReference sampleSheets "A1:B2") = Normal sampleTable
  /\ fst (resolveReference sampleSheets "Bogus") = Throw "Range not found".
Proof.
  split; [| split].
  - apply (proj1 (named_range_before_address string sampleSheets "Totals" eq_refl)).
    reflexivity.
  - apply (proj1 (proj2 (named_range_before_address string sampleSheets "A1:B2"
                           eq_refl))).
    intros values; discriminate.
  - apply (proj2 (proj2 (named_range_before_address string sampleSheets "Bogus"
                           eq_refl))).
    + intros values; discriminate.
    + reflexivity.
Defined.

(* ================================================================== *)
(** * The chain builders *)
(* ================================================================== *)

Lemma skipsRow_inv (name : string) (v : Value) :
  match skipsRow name v with
  | Normal true =>
      match v with
      | VString s => String.eqb (trim s) "" = true
      | _ => True
      end
  | Normal false => exists s, v = VString s /\ String.eqb (trim s) "" = false
  | Throw _ =>
      match v with
      | VString _ => False
      | _ => True
      end
  end.
Proof.
  unfold skipsRow. destruct v as [| s | n | b]; simpl; auto.
  - destruct (String.eqb_spec s "") as [-> | _]; simpl; [reflexivity |].
    destruct (String.eqb (trim s) "") eqn:E; [reflexivity | now exists s].
  - now destruct (n =? 0).
  - now destruct b.
Qed.

Lemma skipsRow_blank (name s : string) :
  trim s = "" -> skipsRow name (VString s) = Normal true.
Proof.
  intros H. unfold skipsRow. simpl.
  destruct (String.eqb s ""); simpl; [reflexivity | now rewrite H].
Qed.

Lemma validPrompts_validRows (pc : Z) (rows : list (list Value)) :
  validPrompts pc rows = map (fun row => ToString (index row pc)) (validRows pc rows).
Proof.
  induction rows as [|row rest IH]; [reflexivity |].
  cbn [validPrompts validRows].
  destruct (index row pc) as [| s | n | b] eqn:E; auto.
  destruct (String.eqb (trim s) ""); [exact IH |].
  cbn [map]. now rewrite E, IH.
Qed.

Lemma Forall2_map_eq {A B C : Type} (f : A -> C) (g : B -> C)
    (l : list A) (l' : list B) :
  Forall2 (fun a b => f a = g b) l l' -> map f l = map g l'.
Proof. induction 1; simpl; congruence. Qed.

Section BuilderFacts.

Variable Sheet : Type.
Variable ss : Spreadsheet Sheet.
Variable alert : string -> string -> Button.

Lemma buildLoop_chain (pc rc ic : Z) (rows : list (list Value)) :
  forall (i : Z) (acc : list Step) (has : bool) (chain : list Step),
    buildLoop ss alert pc rc ic i rows acc has = Normal (Chain chain) ->
    exists new, chain = (acc ++ new)%list
                /\ Forall2 (builtFrom pc ic) new (validRows pc rows).
Proof.
  induction rows as [|row rest IH]; intros i acc has chain.
  - simpl. destruct has; [| discriminate]. intros H. injection H as <-.
    exists []. split; [now rewrite app_nil_r | constructor].
  - cbn [buildLoop validRows].
    pose proof (skipsRow_inv "promptText" (index row pc)) as Hs.
    destruct (skipsRow "promptText" (index row pc)) as [[|] | m]; [| | discriminate].
    + intros H. apply IH in H.
      destruct (index row pc) as [| s | n | b]; auto. now rewrite Hs.
    + destruct Hs as [s [Ev Hs]]. rewrite Ev, Hs.
      destruct (rangeDataOfRow ss alert rc row i) as [rangeData |]; [| discriminate].
      intros H. apply IH in H. destruct H as [new [-> Hnew]].
      eexists (_ :: new). rewrite <- app_assoc. split; [reflexivity |].
      constructor; [| exact Hnew]. unfold builtFrom. simpl. now rewrite Ev.
Qed.

Lemma rangeDataOfRow_some (rc : Z) (row : list Value) (i : Z) :
  (forall title message, alert title message <> NO) ->
  exists rangeData, rangeDataOfRow ss alert rc row i = Some rangeData.
Proof.
  intros Hno. unfold rangeDataOfRow.
  destruct (negb (rc =? -1) && truthy (index row rc)); [| now eexists].
  destruct (negb (String.eqb (trim (ToString (index row rc))) "")); [| now eexists].
  destruct (fst (resolveReference ss (trim (ToString (index row rc)))))
    as [values | message]; [now eexists |].
  destruct (alert "Data Range Issue"
              (rangeIssueMessage (trim (ToString (index row rc))) i message)) eqn:E;
    try (now eexists).
  now destruct (Hno _ _ E).
Qed.

Lemma buildLoop_total (pc rc ic : Z) (rows : list (list Value)) :
  Forall (fun row => exists s, index row pc = VString s) rows ->
  (forall title message, alert title message <> NO) ->
  forall (i : Z) (acc : list Step) (has : bool),
  exists new,
    buildLoop ss alert pc rc ic i rows acc has
    = Normal (if has || negb (length new =? 0)%nat
              then Chain (acc ++ new) else NoValidPrompts)
    /\ map prompt new = validPrompts pc rows.
Proof.
  intros Htext Hno. induction Htext as [|row rest [s Ev] _ IH]; intros i acc has.
  - exists []. simpl. rewrite orb_false_r, app_nil_r. now split.
  - cbn [buildLoop validPrompts].
    pose proof (skipsRow_inv "promptText" (index row pc)) as Hs.
    destruct (skipsRow "promptText" (index row pc)) as [[|] | m].
    + rewrite Ev in *. rewrite Hs. apply IH.
    + rewrite Ev in *. destruct Hs as [s' [Es Hs]]. injection Es as <-. rewrite Hs.
      destruct (rangeDataOfRow_some rc row i Hno) as [rangeData ->].
      destruct (IH (i + 1)
                  (acc ++ [{| prompt := ToString (VString s); data := rangeData;
                              includeLastResult := includeLastResultOfRow ic row;
                              options := noOptions |}])%list true)
        as [new [Hrun Hnew]].
      eexists (_ :: new). split.
      * rewrite Hrun. cbn [orb length Nat.eqb negb]. rewrite orb_true_r.
        now rewrite <- app_assoc.
      * simpl. now rewrite Hnew.
    + rewrite Ev in Hs. contradiction.
Qed.

Lemma lib_buildLoop_chain (rows : list (list Value)) :
  forall (i : Z) (acc chain : list Step),
    lib_buildLoop ss i rows acc = Normal (LibChain chain) ->
    exists new, chain = (acc ++ new)%list
                /\ Forall2 lib_builtFrom new (validRows 0 rows).
Proof.
  induction rows as [|row rest IH]; intros i acc chain.
  - simpl. destruct acc as [|a acc]; [discriminate |]. intros H. injection H as <-.
    exists []. split; [now rewrite app_nil_r | constructor].
  - cbn [lib_buildLoop validRows].
    pose proof (skipsRow_inv "prompt" (index row 0)) as Hs.
    destruct (skipsRow "prompt" (index row 0)) as [[|] | m]; [| | discriminate].
    + intros H. apply IH in H.
      destruct (index row 0) as [| s | n | b]; auto. now rewrite Hs.
    + destruct Hs as [s [Ev Hs]]. rewrite Ev, Hs.
      destruct (lib_rangeData ss (index row 1)) as [[rangeData |] | m];
        [| discriminate | discriminate].
      intros H. apply IH in H. destruct H as [new [-> Hnew]].
      eexists (_ :: new). rewrite <- app_assoc. split; [reflexivity |].
      constructor; [| exact Hnew]. unfold lib_builtFrom. simpl. now rewrite Ev.
Qed.

End BuilderFacts.

(** C8, as the code has it.  A row whose prompt cell is empty or holds
    white space only is skipped by the client's builder: the loop goes on
    with the chain and the count of valid prompts as they were, and
    nothing is thrown.  When the builder hands over a chain, its steps are
    the other rows' prompts in row order.  It does hand over such a chain
    (or reports that no prompt is valid) when the prompt cells are text
    and the user never answers NO to a data range issue; on a NO the
    building is given up as a whole. *)
Theorem blank_prompt_rows_are_skipped :
  forall (Sheet : Type) (ss : Spreadsheet Sheet) (alert : string -> string -> Button),
    (forall pc rc ic i row rest acc has s,
        index row pc = VString s ->
        trim s = "" ->
        buildLoop ss alert pc rc ic i (row :: rest) acc has
          = buildLoop ss alert pc rc ic (i + 1) rest acc has
        /\ validPrompts pc (row :: rest) = validPrompts pc rest)
    /\ (forall header rows chain,
          buildPromptChain ss alert (header :: rows) = Normal (Chain chain) ->
          map prompt chain = validPrompts (discoverColumn header promptKeywords) rows)
    /\ (forall header row1 more,
          discoverColumn header promptKeywords <> -1 ->
          Forall (fun row =>
                    exists s, index row (discoverColumn header promptKeywords) = VString s)
                 (row1 :: more) ->
          (forall title message, alert title message <> NO) ->
          exists outcome,
            buildPromptChain ss alert (header :: row1 :: more) = Normal outcome
            /\ match validPrompts (discoverColumn header promptKeywords) (row1 :: more) with
               | [] => outcome = NoValidPrompts
               | prompts => exists chain, outcome = Chain chain
                                          /\ map prompt chain = prompts
               end).
Proof.
  intros Sheet ss alert. split; [| split].
  - intros pc rc ic i row rest acc has s Ev Hblank. split.
    + cbn [buildLoop]. now rewrite Ev, (skipsRow_blank _ _ Hblank).
    + cbn [validPrompts]. now rewrite Ev, Hblank.
  - intros header rows chain. unfold buildPromptChain.
    destruct rows as [|row1 more]; [discriminate |].
    destruct (discoverColumn header promptKeywords =? -1); [discriminate |].
    intros H. apply buildLoop_chain in H. destruct H as [new [-> Hnew]].
    simpl app. rewrite validPrompts_validRows.
    apply Forall2_map_eq.
    eapply Forall2_impl; [| exact Hnew]. now intros step row [Hp _].
  - intros header row1 more Hcol Htext Hno. unfold buildPromptChain.
    destruct (Z.eqb_spec (discoverColumn header promptKeywords) (-1)) as [E | _];
      [contradiction |].
    destruct (buildLoop_total Sheet ss alert
                (discoverColumn header promptKeywords)
                (discoverColumn header rangeKeywords)
                (discoverColumn header includeKeywords)
                (row1 :: more) Htext Hno 1 [] false) as [new [Hrun Hnew]].
    rewrite Hrun. eexists. split; [reflexivity |].
    rewrite <- Hnew. destruct new as [|step new]; simpl; [reflexivity |].
    now eexists.
Qed.

(** The sheet with a blank row between two prompts: the chain has the two
    prompts, in the order of their rows. *)
Lemma blank_prompt_rows_are_skipped_witness :
  exists chain,
    buildPromptChain sampleSheets alwaysYes planSheet = Normal (Chain chain)
    /\ map prompt chain = ["Summarize"; "Elaborate"].
Proof.
  destruct (proj2 (proj2 (blank_prompt_rows_are_skipped string sampleSheets alwaysYes))
              (hd [] planSheet) (nth 1 planSheet []) (tl (tl planSheet)))
    as [outcome [Hrun Hout]].
  - discriminate.
  - repeat constructor; eexists; reflexivity.
  - intros title message; discriminate.
  - destruct Hout as [chain [-> Hchain]]. exists chain. split; [exact Hrun | exact Hchain].
Defined.

(** The second prompt of the sheet names a sheet that does not exist and
    the user answers NO: both rows have a prompt, neither row gets a step,
    the first one included. *)
Lemma declined_range_issue_drops_all_rows :
  validPrompts 0 (tl brokenSheet) = ["Summarize"; "Conclude"]
  /\ buildPromptChain sampleSheets alwaysNo brokenSheet = Normal DeclinedByUser
  /\ ~ (exists chain,
          buildPromptChain sampleSheets alwaysNo brokenSheet = Normal (Chain chain)
          /\ map prompt chain = ["Summarize"; "Conclude"]).
Proof.
  split; [reflexivity |]. split; [reflexivity |].
  intros [chain [H _]]. discriminate H.
Qed.

(** C9, as the code has it.  In the client's builder the flag of a built
    step is true exactly when an include column was found and the include
    cell's text, lower-cased and trimmed, is "yes", "true" or "1".  In the
    library's dialog the flag is true exactly when the third cell is the
    boolean true or the string "true" as it stands. *)
Theorem include_flag_of_built_step :
  forall (Sheet : Type) (ss : Spreadsheet Sheet) (alert : string -> string -> Button),
    (forall ic row,
        includeLastResultOfRow ic row = true
        <-> ic <> -1 /\ (includeText ic row = "yes" \/ includeText ic row = "true"
                         \/ includeText ic row = "1"))
    /\ (forall header rows chain,
          buildPromptChain ss alert (header :: rows) = Normal (Chain chain) ->
          map includeLastResult chain
          = map (includeLastResultOfRow (discoverColumn header includeKeywords))
                (validRows (discoverColumn header promptKeywords) rows))
    /\ (forall v,
          lib_includeLastResult v = true <-> v = VBoolean true \/ v = VString "true")
    /\ (forall header rows chain,
          lib_buildPromptChain ss (header :: rows) = Normal (LibChain chain) ->
          map includeLastResult chain
          = map (fun row => lib_includeLastResult (index row 2)) (validRows 0 rows)).
Proof.
  intros Sheet ss alert. split; [| split; [| split]].
  - intros ic row. unfold includeLastResultOfRow. fold (includeText ic row).
    destruct (Z.eqb_spec ic (-1)) as [E | E]; simpl.
    + split; [discriminate | intros [H _]; contradiction].
    + rewrite !orb_true_iff, !String.eqb_eq. tauto.
  - intros header rows chain. unfold buildPromptChain.
    destruct rows as [|row1 more]; [discriminate |].
    destruct (discoverColumn header promptKeywords =? -1); [discriminate |].
    intros H. apply buildLoop_chain in H. destruct H as [new [-> Hnew]].
    simpl app. apply Forall2_map_eq.
    eapply Forall2_impl; [| exact Hnew]. now intros step row [_ [Hi _]].
  - intros v. destruct v as [| s | n | b]; simpl.
    + split; [discriminate | intros [H | H]; discriminate].
    + rewrite String.eqb_eq. split.
      * intros ->. now right.
      * intros [H | H]; [discriminate | now injection H].
    + split; [discriminate | intros [H | H]; discriminate].
    + split.
      * intros ->. now left.
      * intros [H | H]; [now injection H | discriminate].
  - intros header rows chain. unfold lib_buildPromptChain.
    destruct rows as [|row1 more]; [discriminate |].
    intros H. apply lib_buildLoop_chain in H. destruct H as [new [-> Hnew]].
    simpl app. apply Forall2_map_eq.
    eapply Forall2_impl; [| exact Hnew]. now intros step row [_ Hi].
Qed.

(** The rows of the sheet with the include cells "NO" and "YES", the
    include column being the third: the flag is set for "YES". *)
Lemma include_flag_of_built_step_witness :
  includeLastResultOfRow 2 (nth 3 planSheet []) = true
  /\ includeLastResultOfRow 2 (nth 1 planSheet []) <> true.
Proof.
  split.
  - apply (proj1 (include_flag_of_built_step string sampleSheets alwaysYes)
             2 (nth 3 planSheet [])).
    split; [discriminate | left; reflexivity].
  - intros H.
    apply (proj1 (include_flag_of_built_step string sampleSheets alwaysYes)
             2 (nth 1 planSheet [])) in H.
    destruct H as [_ [H | [H | H]]]; discriminate H.
Defined.

(** The library's dialog on a row whose include cell is "yes": the step is
    built with the flag false. *)
Lemma dialog_does_not_read_yes :
  includeText 2 (nth 1 dialogSheet []) = "yes"
  /\ exists step,
       lib_buildPromptChain sampleSheets dialogSheet = Normal (LibChain [step])
       /\ prompt step = "Summarize"
       /\ includeLastResult step = false.
Proof.
  split; [reflexivity |]. eexists. split; [reflexivity |]. split; reflexivity.
Qed.

(* ================================================================== *)
(** * The API key *)
(* ================================================================== *)

Lemma trim_empty_of_empty (s : string) : trim s <> "" -> s <> "".
Proof. intros H ->. now apply H. Qed.

Lemma truthyText_some (s : string) : s <> "" -> truthyText (Some s) = true.
Proof.
  intros H. simpl. destruct (String.eqb_spec s ""); [contradiction | reflexivity].
Qed.

Lemma setApiKey_text (k : string) (st : KeyStore) :
  trim k <> "" ->
  CellMindAI_setApiKey (VString k) st
  = (Normal "API key successfully saved",
     {| instanceKey := Some k; userProperty := Some k |}).
Proof.
  intros H. unfold CellMindAI_setApiKey, skipsRow. simpl.
  destruct (String.eqb_spec k "") as [-> | _]; [now destruct H |]. simpl.
  destruct (String.eqb_spec (trim k) ""); [contradiction | reflexivity].
Qed.

(** [trimEnd] cuts white space off the end. *)
Lemma trimEnd_prefix (s : string) :
  exists ws, s = trimEnd s ++ ws /\ all_white ws = true.
Proof.
  induction s as [|c s (ws & IH & Hws)].
  - now exists "".
  - cbn [trimEnd].
    destruct (String.eqb (trimStart (String c s)) "") eqn:E.
    + now exists (String c s).
    + exists ws. split; [| exact Hws]. simpl. now rewrite <- IH.
Qed.

Lemma trimEnd_not_white (s : string) :
  all_white s = false -> all_white (trimEnd s) = false.
Proof.
  intros H. destruct (trimEnd_prefix s) as (ws & Hs & Hws).
  destruct (all_white (trimEnd s)) eqn:E; [| reflexivity].
  rewrite Hs in H at 1. unfold all_white in H.
  rewrite (trimStart_white_app _ _ E) in H.
  unfold all_white in Hws. congruence.
Qed.

Lemma trimEnd_trimEnd (s : string) : trimEnd (trimEnd s) = trimEnd s.
Proof.
  induction s as [|c s IH]; [reflexivity |]. cbn [trimEnd].
  destruct (String.eqb (trimStart (String c s)) "") eqn:E; [reflexivity |].
  pose proof (trimEnd_not_white (String c s) E) as H.
  cbn [trimEnd] in H. rewrite E in H. unfold all_white in H.
  cbn [trimEnd]. now rewrite H, IH.
Qed.

Lemma trimStart_head (s : string) : skipWhiteSpace (trimStart s) = None.
Proof.
  induction s as [s E | s r E IH] using white_prefix_ind.
  - now rewrite (trimStart_none _ E).
  - now rewrite (trimStart_some _ _ E).
Qed.

Lemma trim_idempotent (s : string) : trim (trim s) = trim s.
Proof.
  unfold trim. pose proof (trimStart_head s) as H.
  assert (Hs : trimStart (trimEnd (trimStart s)) = trimEnd (trimStart s)).
  { apply trimStart_none.
    destruct (trimEnd_prefix (trimStart s)) as (ws & Hp & _).
    destruct (skipWhiteSpace (trimEnd (trimStart s))) as [r |] eqn:E;
      [| reflexivity].
    apply (skipWhiteSpace_app _ _ ws) in E. rewrite <- Hp in E. congruence. }
  rewrite Hs. apply trimEnd_trimEnd.
Qed.

(** White space beyond ASCII is white space to [trim], at either end of a
    text and not inside it. *)
Lemma trim_removes_no_break_space :
  trim noBreakSpace = ""
  /\ trim (noBreakSpace ++ " yes" ++ TAB ++ noBreakSpace) = "yes"
  /\ trim ("a" ++ noBreakSpace ++ "b") = "a" ++ noBreakSpace ++ "b".
Proof. repeat split; reflexivity. Qed.

(** So it is to the code that calls [trim]: the builder skips a prompt
    cell of one no-break space and reads "yes" before a no-break space as
    yes; the key store and both key dialogs refuse a key of one no-break
    space, and the client's dialog stores a key without the no-break
    space typed behind it. *)
Lemma no_break_space_is_white_space :
  buildPromptChain sampleSheets alwaysYes paddedSheet
  = Normal (Chain [{| prompt := "Summarize"; data := [];
                      includeLastResult := true; options := noOptions |}])
  /\ (forall st, CellMindAI_setApiKey (VString noBreakSpace) st
                 = (Throw "API key cannot be empty", st))
  /\ (forall libraryAvailable st,
         configureApiKey libraryAvailable OK noBreakSpace st = (KeyEmpty, st))
  /\ (forall st, fst (showApiKeyDialog OK noBreakSpace st) = KeyEmpty)
  /\ (forall libraryAvailable st,
         client_storedKey
           (snd (configureApiKey libraryAvailable OK ("sk-ant-1" ++ noBreakSpace) st))
         = Some "sk-ant-1").
Proof.
  repeat split; try reflexivity.
  intros [|] st; reflexivity.
Qed.

Lemma getApiKey_keeps_property (st : KeyStore) :
  userProperty (snd (CellMindAI_getApiKey st)) = userProperty st.
Proof.
  unfold CellMindAI_getApiKey.
  destruct (truthyText (instanceKey st)); [reflexivity |].
  destruct (truthyText (userProperty st)); reflexivity.
Qed.

Lemma hasApiKey_keeps_property (st : KeyStore) :
  userProperty (snd (CellMindAI_hasApiKey st)) = userProperty st.
Proof.
  unfold CellMindAI_hasApiKey. pose proof (getApiKey_keeps_property st) as H.
  destruct (CellMindAI_getApiKey st) as [[k |] st']; exact H.
Qed.

(** X1.  A key that is not blank, once set, is the key read back, as it was
    given, by the instance that set it and by a fresh instance that finds
    it in the user property; clearing removes it for both. *)
Theorem api_key_set_get_clear :
  forall (k : string) (st : KeyStore),
    trim k <> "" ->
    let saved := snd (CellMindAI_setApiKey (VString k) st) in
    let fresh := {| instanceKey := None; userProperty := userProperty saved |} in
    let cleared := snd (CellMindAI_clearApiKey saved) in
    fst (CellMindAI_setApiKey (VString k) st) = Normal "API key successfully saved"
    /\ CellMindAI_getApiKey saved = (Some k, saved)
    /\ fst (CellMindAI_hasApiKey saved) = true
    /\ fst (CellMindAI_getApiKey fresh) = Some k
    /\ client_storedKey saved = Some k
    /\ CellMindAI_getApiKey cleared = (None, cleared)
    /\ fst (CellMindAI_hasApiKey cleared) = false
    /\ client_storedKey cleared = None.
Proof.
  intros k st Hk. cbv zeta. rewrite (setApiKey_text k st Hk). cbn [fst snd].
  pose proof (truthyText_some k (trim_empty_of_empty k Hk)) as Ht.
  unfold CellMindAI_hasApiKey, CellMindAI_getApiKey, client_storedKey.
  cbn [instanceKey userProperty CellMindAI_clearApiKey snd]. rewrite Ht.
  cbn [truthyText fst]. repeat split.
Qed.

Lemma api_key_set_get_clear_witness :
  CellMindAI_getApiKey
    (snd (CellMindAI_setApiKey (VString " sk-ant-1 ")
            {| instanceKey := None; userProperty := None |}))
  = (Some " sk-ant-1 ",
     {| instanceKey := Some " sk-ant-1 "; userProperty := Some " sk-ant-1 " |}).
Proof.
  apply (api_key_set_get_clear " sk-ant-1 "
           {| instanceKey := None; userProperty := None |}).
  discriminate.
Defined.

(** X2.  A key that is empty, blank or otherwise falsy is refused by
    [setApiKey] with the error "API key cannot be empty", and whatever
    key was stored before stays in place. *)
Theorem blank_api_key_is_refused :
  forall (key : Value) (st : KeyStore),
    truthy key = false \/ (exists s, key = VString s /\ trim s = "") ->
    CellMindAI_setApiKey key st = (Throw "API key cannot be empty", st)
    /\ CellMindAI_getApiKey (snd (CellMindAI_setApiKey key st))
       = CellMindAI_getApiKey st.
Proof.
  intros key st H.
  assert (E : CellMindAI_setApiKey key st = (Throw "API key cannot be empty", st)).
  { unfold CellMindAI_setApiKey. destruct H as [H | [s [-> H]]].
    - unfold skipsRow. now rewrite H.
    - now rewrite (skipsRow_blank _ _ H). }
  now rewrite E.
Qed.

Lemma blank_api_key_is_refused_witness :
  CellMindAI_setApiKey (VString "   ")
    {| instanceKey := Some "sk-old"; userProperty := Some "sk-old" |}
  = (Throw "API key cannot be empty",
     {| instanceKey := Some "sk-old"; userProperty := Some "sk-old" |}).
Proof.
  apply (blank_api_key_is_refused (VString "   ")
           {| instanceKey := Some "sk-old"; userProperty := Some "sk-old" |}).
  right. exists "   ". split; reflexivity.
Defined.

(** X3.  Reading the key never changes the user property, reads the same key
    when repeated, and finds no key exactly when neither the instance
    field nor the property holds a text that is not empty.  The key
    lookup inside the library's executor is this same lookup. *)
Theorem api_key_lookup_is_stable :
  forall (st : KeyStore),
    let key := fst (CellMindAI_getApiKey st) in
    let st' := snd (CellMindAI_getApiKey st) in
    userProperty st' = userProperty st
    /\ CellMindAI_getApiKey st' = (key, st')
    /\ (key = None <->
        truthyText (instanceKey st) = false /\ truthyText (userProperty st) = false)
    /\ (forall s, key = Some s -> s <> "")
    /\ (forall (P : Platform) (w : World),
          instanceKey st = apiKey w ->
          userProperty st = savedKey P ->
          lib_getApiKey P w
          = (Normal key, {| apiKey := instanceKey st'; sent := sent w |})).
Proof.
  intros st. cbv zeta. unfold CellMindAI_getApiKey, lib_getApiKey.
  destruct st as [field prop]. cbn [instanceKey userProperty].
  destruct (truthyText field) eqn:Ef; cbn [fst snd instanceKey userProperty].
  - rewrite Ef. split; [reflexivity |]. split; [reflexivity |]. split; [| split].
    + split; [intros -> | intros [H _]]; simpl in *; congruence.
    + intros s -> ->. discriminate Ef.
    + intros P w Hf Hp. destruct w as [k log]. simpl in *. subst. now rewrite Ef.
  - destruct (truthyText prop) eqn:Ep; cbn [fst snd instanceKey userProperty].
    + rewrite Ep. split; [reflexivity |]. split; [reflexivity |]. split; [| split].
      * split; [intros -> | intros [_ H]]; simpl in *; congruence.
      * intros s -> ->. discriminate Ep.
      * intros P w Hf Hp. destruct w as [k log]. simpl in *. subst.
        now rewrite Ef, Ep.
    + rewrite Ef, Ep. split; [reflexivity |]. split; [reflexivity |]. split; [| split].
      * split; auto.
      * intros s H. discriminate H.
      * intros P w Hf Hp. destruct w as [k log]. simpl in *. subst.
        now rewrite Ef, Ep.
Qed.

Lemma api_key_lookup_is_stable_witness :
  lib_getApiKey steadyService freshWorld
  = (Normal (Some "sk-test"), {| apiKey := Some "sk-test"; sent := [] |}).
Proof.
  apply (proj2 (proj2 (proj2 (proj2
           (api_key_lookup_is_stable
              {| instanceKey := None; userProperty := Some "sk-test" |}))))
           steadyService freshWorld); reflexivity.
Defined.

(** X4.  The two key dialogs.  On OK with a text that is not blank the
    client's dialog stores the trimmed text, with or without the library,
    and the library's own dialog stores the text as typed, white space
    included; on a blank text or another button neither changes the
    stored property. *)
Theorem key_dialogs_store :
  forall (text : string) (st : KeyStore),
    (trim text <> "" ->
     (forall libraryAvailable,
         fst (configureApiKey libraryAvailable OK text st) = KeySaved
         /\ client_storedKey (snd (configureApiKey libraryAvailable OK text st))
            = Some (trim text))
     /\ fst (showApiKeyDialog OK text st) = KeySaved
     /\ client_storedKey (snd (showApiKeyDialog OK text st)) = Some text)
    /\ (trim text = "" ->
        (forall libraryAvailable,
            configureApiKey libraryAvailable OK text st = (KeyEmpty, st))
        /\ fst (showApiKeyDialog OK text st) = KeyEmpty
        /\ client_storedKey (snd (showApiKeyDialog OK text st)) = client_storedKey st)
    /\ (forall libraryAvailable button,
          button <> OK ->
          configureApiKey libraryAvailable button text st = (KeyDismissed, st)
          /\ client_storedKey (snd (showApiKeyDialog button text st))
             = client_storedKey st).
Proof.
  intros text st.
  pose proof (hasApiKey_keeps_property st) as Hhas.
  split; [| split].
  - intros Ht. split; [| split].
    + intros libraryAvailable. unfold configureApiKey.
      destruct (String.eqb_spec (trim text) ""); [contradiction |]. cbn [negb].
      destruct libraryAvailable.
      * assert (Htt : trim (trim text) <> "").
        { now rewrite trim_idempotent. }
        rewrite (setApiKey_text _ st Htt). now split.
      * now split.
    + unfold showApiKeyDialog.
      destruct (String.eqb_spec text "") as [-> | _]; [now destruct Ht |].
      destruct (String.eqb_spec (trim text) ""); [contradiction |]. cbn [negb andb].
      now rewrite (setApiKey_text _ _ Ht).
    + unfold showApiKeyDialog.
      destruct (String.eqb_spec text "") as [-> | _]; [now destruct Ht |].
      destruct (String.eqb_spec (trim text) ""); [contradiction |]. cbn [negb andb].
      now rewrite (setApiKey_text _ _ Ht).
  - intros Ht. split; [| split].
    + intros libraryAvailable. unfold configureApiKey. now rewrite Ht.
    + unfold showApiKeyDialog. rewrite Ht. cbn [String.eqb negb]. now rewrite andb_false_r.
    + unfold showApiKeyDialog. rewrite Ht. cbn [String.eqb negb]. rewrite andb_false_r.
      exact Hhas.
  - intros libraryAvailable button Hb. split.
    + destruct button; try reflexivity. contradiction.
    + unfold showApiKeyDialog. destruct button; try exact Hhas. contradiction.
Qed.

Lemma key_dialogs_store_witness :
  client_storedKey (snd (configureApiKey true OK "  sk-ant-1 "
                           {| instanceKey := None; userProperty := None |}))
    = Some "sk-ant-1"
  /\ client_storedKey (snd (showApiKeyDialog OK "  sk-ant-1 "
                              {| instanceKey := None; userProperty := None |}))
     = Some "  sk-ant-1 "
  /\ configureApiKey false OK "   "
       {| instanceKey := None; userProperty := Some "sk-old" |}
     = (KeyEmpty, {| instanceKey := None; userProperty := Some "sk-old" |})
  /\ configureApiKey false CANCEL "sk-new"
       {| instanceKey := None; userProperty := Some "sk-old" |}
     = (KeyDismissed, {| instanceKey := None; userProperty := Some "sk-old" |}).
Proof.
  split; [| split; [| split]].
  - apply (proj1 (key_dialogs_store "  sk-ant-1 "
                    {| instanceKey := None; userProperty := None |})).
    discriminate.
  - apply (proj1 (key_dialogs_store "  sk-ant-1 "
                    {| instanceKey := None; userProperty := None |})).
    discriminate.
  - apply (proj1 (proj2 (key_dialogs_store "   "
                    {| instanceKey := None; userProperty := Some "sk-old" |}))).
    reflexivity.
  - apply (proj2 (proj2 (key_dialogs_store "sk-new"
                    {| instanceKey := None; userProperty := Some "sk-old" |}))).
    discriminate.
Defined.

(* ================================================================== *)
(** * The completion calls: keys, failures, options *)
(* ================================================================== *)

(** X5.  Without a key no request leaves: the fallback executor ends a chain
    that has a step in "API key not configured", the library in "No API
    key found ...", and the world is as it was. *)
Theorem no_key_no_request :
  forall (P : Platform) (step : Step) (rest : list Step) (w : World),
    (truthyText (savedKey P) = false ->
     executeChainDirectly P (step :: rest) w = (Throw "API key not configured", w))
    /\ (hasKey P w = false ->
        executePromptChain P (ChainArray (step :: rest)) w
        = (Throw "No API key found. Please set an API key first with setApiKey()", w)).
Proof.
  intros P step rest w. split; intros H.
  - unfold executeChainDirectly. cbn [executeChainDirectly_loop]. unfold bind.
    now rewrite callClaudeAPI_run, H.
  - unfold executePromptChain. cbn [executePromptChain_loop]. unfold bind.
    now rewrite sendPrompt_run, H.
Qed.

(** A platform without a stored key. *)
Lemma no_key_no_request_witness :
  executeChainDirectly
    {| Json := string; fetch := fun _ _ => HttpResponse 200 "never asked";
       JSON_parse := fun body => Normal body; content0_text := fun t => Normal t;
       savedKey := None |}
    [stepSummarize] freshWorld
  = (Throw "API key not configured", freshWorld).
Proof.
  apply (proj1 (no_key_no_request
                  {| Json := string; fetch := fun _ _ => HttpResponse 200 "never asked";
                     JSON_parse := fun body => Normal body;
                     content0_text := fun t => Normal t; savedKey := None |}
                  stepSummarize [] freshWorld)).
  reflexivity.
Defined.

(** X6.  A response whose code is not 200, and a fetch that fails, end the
    call after the one request: the fallback throws "API error (code):
    body", or the transport's own message; the library throws the same
    under the heading "Error during API request: ". *)
Theorem completion_call_failures :
  forall (P : Platform) (text : string) (rows : TabularData) (opts : Options)
         (w : World),
    let sentDirect := {| apiKey := apiKey w;
                         sent := sent w ++ [directRequest P text] |} in
    let sentLib := {| apiKey := libKey P w;
                      sent := sent w ++ [libRequest P w text rows opts] |} in
    (truthyText (savedKey P) = true ->
     (forall code body,
         fetch P (sent w) (directRequest P text) = HttpResponse code body ->
         code <> 200 ->
         callClaudeAPI P text w
         = (Throw ("API error (" ++ numberToString code ++ "): " ++ body), sentDirect))
     /\ (forall message,
           fetch P (sent w) (directRequest P text) = FetchFails message ->
           callClaudeAPI P text w = (Throw message, sentDirect)))
    /\ (hasKey P w = true ->
        (forall code body,
            fetch P (sent w) (libRequest P w text rows opts) = HttpResponse code body ->
            code <> 200 ->
            sendPrompt P text rows opts w
            = (Throw ("Error during API request: "
                      ++ ("API error (" ++ numberToString code ++ "): " ++ body)),
               sentLib))
        /\ (forall message,
              fetch P (sent w) (libRequest P w text rows opts) = FetchFails message ->
              sendPrompt P text rows opts w
              = (Throw ("Error during API request: " ++ message), sentLib))).
Proof.
  intros P text rows opts w. cbv zeta. split; intros Hk; split.
  - intros code body Hf Hc. rewrite callClaudeAPI_run, Hk. cbv zeta. rewrite Hf.
    destruct (Z.eqb_spec code 200); [contradiction | reflexivity].
  - intros message Hf. rewrite callClaudeAPI_run, Hk. cbv zeta. now rewrite Hf.
  - intros code body Hf Hc. rewrite sendPrompt_run, Hk. cbv zeta. rewrite Hf.
    destruct (Z.eqb_spec code 200); [contradiction | reflexivity].
  - intros message Hf. rewrite sendPrompt_run, Hk. cbv zeta. now rewrite Hf.
Qed.

(** The second answer of the failing service is a 500. *)
Lemma completion_call_failures_witness :
  callClaudeAPI failingService "Elaborate"
    {| apiKey := None; sent := [directRequest failingService "Summarize"] |}
  = (Throw "API error (500): overloaded",
     {| apiKey := None;
        sent := [directRequest failingService "Summarize";
                 directRequest failingService "Elaborate"] |}).
Proof.
  apply (proj1 (proj1 (completion_call_failures failingService "Elaborate" [] noOptions
                         {| apiKey := None;
                            sent := [directRequest failingService "Summarize"] |})
                 eq_refl) 500 "overloaded").
  - reflexivity.
  - discriminate.
Defined.

Lemma orDefaultQ_nonzero (o : option Q) :
  ~ (orDefaultQ o default_temperature == 0)%Q.
Proof.
  unfold orDefaultQ. destruct o as [q |]; [| discriminate].
  destruct (Qeq_bool q 0) eqn:E; [discriminate |].
  now apply Qeq_bool_neq.
Qed.

(** X7.  The request of [sendPrompt] never carries an empty model, zero
    [max_tokens] or a zero temperature: an option that is set to such a
    value is replaced by the default (so a temperature of 0 cannot be
    asked for), and any other value set is sent as it is. *)
Theorem request_options_are_never_falsy :
  forall (P : Platform) (text : string) (rows : TabularData) (opts : Options)
         (w : World),
    hasKey P w = true ->
    let req := libRequest P w text rows opts in
    sent (snd (sendPrompt P text rows opts w)) = (sent w ++ [req])%list
    /\ model (payload req) <> ""
    /\ max_tokens (payload req) <> 0
    /\ ~ (temperature (payload req) == 0)%Q
    /\ (forall m, opt_model opts = Some m -> m <> "" -> model (payload req) = m)
    /\ (forall n, opt_max_tokens opts = Some n -> n <> 0 -> max_tokens (payload req) = n)
    /\ (forall q, opt_temperature opts = Some q -> ~ (q == 0)%Q ->
                  temperature (payload req) = q)
    /\ (opt_max_tokens opts = Some 0 -> max_tokens (payload req) = 4000)
    /\ (forall q, opt_temperature opts = Some q -> (q == 0)%Q ->
                  temperature (payload req) = 7 # 10).
Proof.
  intros P text rows opts w Hk req.
  split; [now rewrite sendPrompt_world, Hk |].
  unfold req, libRequest. cbn [payload model max_tokens temperature].
  unfold orDefaultText, orDefaultZ.
  split; [| split; [| split; [| split; [| split; [| split; [| split]]]]]].
  - destruct (opt_model opts) as [m |]; [| discriminate].
    destruct (String.eqb_spec m ""); [discriminate | assumption].
  - destruct (opt_max_tokens opts) as [n |]; [| discriminate].
    destruct (Z.eqb_spec n 0); [discriminate | assumption].
  - apply orDefaultQ_nonzero.
  - intros m -> Hm. destruct (String.eqb_spec m ""); [contradiction | reflexivity].
  - intros n -> Hn. destruct (Z.eqb_spec n 0); [contradiction | reflexivity].
  - intros q -> Hq. unfold orDefaultQ.
    destruct (Qeq_bool q 0) eqn:E; [| reflexivity].
    apply Qeq_bool_eq in E. contradiction.
  - intros ->. reflexivity.
  - intros q -> Hq. unfold orDefaultQ. now rewrite (Qeq_eq_bool _ _ Hq).
Qed.

Lemma request_options_are_never_falsy_witness :
  temperature (payload (libRequest steadyService freshWorld "Summarize" []
                          {| opt_model := None; opt_max_tokens := Some 0;
                             opt_temperature := Some (0 # 1) |}))
  = 7 # 10.
Proof.
  apply (proj2 (proj2 (proj2 (proj2 (proj2 (proj2 (proj2 (proj2
           (request_options_are_never_falsy steadyService "Summarize" []
              {| opt_model := None; opt_max_tokens := Some 0;
                 opt_temperature := Some (0 # 1) |}
              freshWorld eq_refl))))))))
           (0 # 1) eq_refl).
  reflexivity.
Defined.

(* ================================================================== *)
(** * Whole runs of the executors *)
(* ================================================================== *)

Lemma promptsSent_snoc (k : option string) (log : list Request) (req : Request) :
  promptsSent {| apiKey := k; sent := log ++ [req] |}
  = (promptsSent {| apiKey := k; sent := log |} ++ [content (payload req)])%list.
Proof. unfold promptsSent. simpl. now rewrite map_app. Qed.

Lemma callClaudeAPI_normal (P : Platform) (text : string) (w w' : World) (r : string) :
  callClaudeAPI P text w = (Normal r, w') ->
  w' = {| apiKey := apiKey w; sent := sent w ++ [directRequest P text] |}.
Proof.
  intros H. pose proof (callClaudeAPI_world P text w) as Hw.
  rewrite (callClaudeAPI_needs_key P text w w' r H), H in Hw. exact Hw.
Qed.

Lemma sendPrompt_normal (P : Platform) (text : string) (rows : TabularData)
    (opts : Options) (w w' : World) (reply : Reply P) :
  sendPrompt P text rows opts w = (Normal reply, w') ->
  w' = {| apiKey := libKey P w;
          sent := sent w ++ [libRequest P w text rows opts] |}.
Proof.
  intros H. pose proof (sendPrompt_world P text rows opts w) as Hw.
  rewrite (sendPrompt_needs_key P text rows opts w w' reply H), H in Hw. exact Hw.
Qed.

Lemma direct_loop_trace (P : Platform) (steps : list Step) :
  forall (prev : option string) (acc results : list string) (w w' : World),
    executeChainDirectly_loop P steps prev acc w = (Normal results, w') ->
    exists new,
      results = (acc ++ new)%list
      /\ length new = length steps
      /\ promptsSent w' = (promptsSent w ++ composedDirect steps prev new)%list
      /\ apiKey w' = apiKey w.
Proof.
  induction steps as [|s steps IH]; intros prev acc results w w'.
  - simpl. unfold ret. intros H. injection H as <- <-.
    exists []. now rewrite !app_nil_r.
  - cbn [executeChainDirectly_loop]. unfold bind.
    destruct (callClaudeAPI P (fullPromptDirect s prev) w) as [[r | m] w1] eqn:E;
      [| discriminate].
    intros H. apply IH in H. destruct H as [new [-> [Hlen [Hsent Hkey]]]].
    apply callClaudeAPI_normal in E. subst w1.
    exists (r :: new). rewrite <- app_assoc. split; [reflexivity |].
    split; [simpl; now rewrite Hlen |]. split.
    + rewrite Hsent, promptsSent_snoc. cbn [composedDirect].
      rewrite <- app_assoc. simpl. now destruct w.
    + exact Hkey.
Qed.

Lemma lib_loop_trace (P : Platform) (steps : list Step) :
  forall (prev : option string) (acc replies : list (Reply P)) (w w' : World),
    executePromptChain_loop P steps prev acc w = (Normal replies, w') ->
    exists new,
      replies = (acc ++ new)%list
      /\ length new = length steps
      /\ promptsSent w' = (promptsSent w ++ composedLib steps prev (map response new))%list.
Proof.
  induction steps as [|s steps IH]; intros prev acc replies w w'.
  - simpl. unfold ret. intros H. injection H as <- <-.
    exists []. now rewrite !app_nil_r.
  - cbn [executePromptChain_loop]. unfold bind.
    destruct (sendPrompt P (enhancedPrompt s prev) (data s) (options s) w)
      as [[r | m] w1] eqn:E; [| discriminate].
    intros H. apply IH in H. destruct H as [new [-> [Hlen Hsent]]].
    apply sendPrompt_normal in E. subst w1.
    exists (r :: new). rewrite <- app_assoc. split; [reflexivity |].
    split; [simpl; now rewrite Hlen |].
    rewrite Hsent, promptsSent_snoc. cbn [map composedLib].
    rewrite <- app_assoc. simpl. now destruct w.
Qed.

(** X8.  A run of the fallback executor that returns has one result per step
    and has sent one request per step, in step order: the prompt of each
    step, composed with the response of the step before it.  The key
    field of the library's instance is not touched. *)
Theorem fallback_run_sends_one_request_per_step :
  forall (P : Platform) (chain : list Step) (w w' : World) (results : list string),
    executeChainDirectly P chain w = (Normal results, w') ->
    length results = length chain
    /\ promptsSent w' = (promptsSent w ++ composedDirect chain None results)%list
    /\ length (sent w') = (length (sent w) + length chain)%nat
    /\ apiKey w' = apiKey w.
Proof.
  intros P chain w w' results H. unfold executeChainDirectly in H.
  apply direct_loop_trace in H. destruct H as [new [-> [Hlen [Hsent Hkey]]]].
  simpl. split; [exact Hlen |]. split; [exact Hsent |]. split; [| exact Hkey].
  apply (f_equal (@length string)) in Hsent.
  unfold promptsSent in Hsent. rewrite length_app, !length_map in Hsent.
  rewrite Hsent. f_equal.
  clear Hsent Hkey. revert new Hlen. generalize (@None string).
  induction chain as [|s chain IH]; intros prev [|r new] Hlen; try discriminate.
  - reflexivity.
  - simpl. f_equal. apply IH. now injection Hlen.
Qed.

(** The chain "Summarize", "Elaborate", "Conclude" on the steady service. *)
Lemma fallback_run_sends_one_request_per_step_witness :
  promptsSent (snd (executeChainDirectly steadyService
                      [stepSummarize; stepElaborate; stepConclude] freshWorld))
  = [fullPromptDirect stepSummarize None;
     fullPromptDirect stepElaborate (Some "first answer");
     fullPromptDirect stepConclude (Some "second answer")].
Proof.
  apply (fallback_run_sends_one_request_per_step steadyService
           [stepSummarize; stepElaborate; stepConclude] freshWorld _
           ["first answer"; "second answer"; "third answer"]).
  reflexivity.
Defined.

(** X9.  A run of the library's executor that returns has one reply per step
    and has sent one request per step, in step order, each with the
    step's prompt, the response of the step before it when asked for, and
    the data section. *)
Theorem library_run_sends_one_request_per_step :
  forall (P : Platform) (chain : list Step) (w w' : World)
         (replies : list (Reply P)),
    executePromptChain P (ChainArray chain) w = (Normal replies, w') ->
    length replies = length chain
    /\ chain <> []
    /\ promptsSent w'
       = (promptsSent w ++ composedLib chain None (map response replies))%list.
Proof.
  intros P chain w w' replies H.
  destruct chain as [|s chain]; [discriminate |].
  unfold executePromptChain in H.
  apply lib_loop_trace in H. destruct H as [new [-> [Hlen Hsent]]].
  simpl app. split; [exact Hlen |]. split; [discriminate | exact Hsent].
Qed.

Lemma library_run_sends_one_request_per_step_witness :
  promptsSent (snd (executePromptChain steadyService
                      (ChainArray [stepSummarize; stepElaborate]) freshWorld))
  = [fullPromptLib (enhancedPrompt stepSummarize None) (data stepSummarize);
     fullPromptLib (enhancedPrompt stepElaborate (Some "first answer"))
                   (data stepElaborate)].
Proof.
  apply (library_run_sends_one_request_per_step steadyService
           [stepSummarize; stepElaborate] freshWorld _
           [Build_Reply steadyService "first answer" "first answer";
            Build_Reply steadyService "second answer" "second answer"]).
  reflexivity.
Defined.

Lemma direct_loop_ignores_options (P : Platform) (f : Step -> Options)
    (steps : list Step) :
  forall (prev : option string) (acc : list string) (w : World),
    executeChainDirectly_loop P (map (fun s => withOptions (f s) s) steps) prev acc w
    = executeChainDirectly_loop P steps prev acc w.
Proof.
  induction steps as [|s steps IH]; intros prev acc w; [reflexivity |].
  cbn [map executeChainDirectly_loop]. unfold bind.
  change (fullPromptDirect (withOptions (f s) s) prev) with (fullPromptDirect s prev).
  destruct (callClaudeAPI P (fullPromptDirect s prev) w) as [[r | m] w1];
    [apply IH | reflexivity].
Qed.

(** X10.  The fallback executor ignores the options of the steps: whatever
    options are put on the steps, the run is the same, and every request
    it sends carries the default model, 4000 tokens and temperature 0.7. *)
Theorem fallback_ignores_step_options :
  forall (P : Platform) (f : Step -> Options) (chain : list Step) (w : World),
    executeChainDirectly P (map (fun s => withOptions (f s) s) chain) w
    = executeChainDirectly P chain w
    /\ (Forall (fun r => payload r = defaultPayload (content (payload r))) (sent w) ->
        Forall (fun r => payload r = defaultPayload (content (payload r)))
               (sent (snd (executeChainDirectly P chain w)))).
Proof.
  intros P f chain w. split; [apply direct_loop_ignores_options |].
  unfold executeChainDirectly. generalize (@None string) (@nil string).
  revert w. induction chain as [|s chain IH]; intros w prev acc Hall; [exact Hall |].
  cbn [executeChainDirectly_loop]. unfold bind.
  pose proof (callClaudeAPI_world P (fullPromptDirect s prev) w) as Hw.
  destruct (callClaudeAPI P (fullPromptDirect s prev) w) as [[r | m] w1];
    simpl in Hw; subst w1.
  - apply IH. destruct (truthyText (savedKey P)); [| exact Hall].
    simpl. apply Forall_app. split; [exact Hall | now repeat constructor].
  - simpl. destruct (truthyText (savedKey P)); [| exact Hall].
    simpl. apply Forall_app. split; [exact Hall | now repeat constructor].
Qed.

Lemma fallback_ignores_step_options_witness :
  Forall (fun r => payload r = defaultPayload (content (payload r)))
         (sent (snd (executeChainDirectly steadyService
                       [stepSummarize; stepElaborate] freshWorld))).
Proof.
  apply (proj2 (fallback_ignores_step_options steadyService (fun _ => noOptions)
                  [stepSummarize; stepElaborate] freshWorld)).
  constructor.
Defined.

(** X11.  The include flag of a step has no effect where there is no previous
    text to include: on the first step of a chain, and on a step that
    follows a step whose response was the empty text.  This holds in both
    executors. *)
Theorem include_flag_needs_a_previous_text :
  forall (P : Platform) (step : Step) (post : list Step),
    (forall w,
        executeChainDirectly P (step :: post) w
        = executeChainDirectly P (withoutInclude step :: post) w)
    /\ (forall w,
          executePromptChain P (ChainArray (step :: post)) w
          = executePromptChain P (ChainArray (withoutInclude step :: post)) w)
    /\ (forall pre w results w1,
          executeChainDirectly P pre w = (Normal results, w1) ->
          lastText results = Some "" ->
          executeChainDirectly P (pre ++ step :: post) w
          = executeChainDirectly P (pre ++ withoutInclude step :: post) w)
    /\ (forall pre w replies w1,
          executePromptChain_loop P pre None [] w = (Normal replies, w1) ->
          lastText (map response replies) = Some "" ->
          executePromptChain P (ChainArray (pre ++ step :: post)) w
          = executePromptChain P (ChainArray (pre ++ withoutInclude step :: post)) w).
Proof.
  intros P step post. split; [| split; [| split]].
  - reflexivity.
  - reflexivity.
  - intros pre w results w1 Hpre Hlast. unfold executeChainDirectly in *.
    change (@None string) with (lastText []).
    rewrite !direct_loop_app. simpl lastText. rewrite Hpre, Hlast. reflexivity.
  - intros pre w replies w1 Hpre Hlast. rewrite !executePromptChain_nonempty.
    change (@None string) with (lastText (map (@response P) [])).
    rewrite !lib_loop_app. simpl map. simpl lastText. rewrite Hpre, Hlast.
    reflexivity.
Qed.

(** After the empty first answer of the silent service, the step
    "Compare" runs as if its include flag were off. *)
Lemma include_flag_needs_a_previous_text_witness :
  executeChainDirectly silentService ([stepSummarize] ++ stepCompare :: []) freshWorld
  = executeChainDirectly silentService
      ([stepSummarize] ++ withoutInclude stepCompare :: []) freshWorld.
Proof.
  eapply (proj1 (proj2 (proj2 (include_flag_needs_a_previous_text silentService
                                 stepCompare []))) [stepSummarize] freshWorld).
  - reflexivity.
  - reflexivity.
Defined.

(* ================================================================== *)
(** * More on column discovery *)
(* ================================================================== *)

Lemma existsb_same_members {A : Type} (f : A -> bool) (l l' : list A) :
  (forall x, In x l <-> In x l') -> existsb f l = existsb f l'.
Proof.
  intros H. apply eq_true_iff_eq. rewrite !existsb_exists.
  split; intros [x [Hin Hx]]; exists x; split; auto; now apply H.
Qed.

(** X12.  The keywords of a role are alternatives without rank: column
    discovery gives the same column for two keyword lists with the same
    members, whatever their order and repetitions. *)
Theorem keyword_order_is_irrelevant :
  forall (headers keywords keywords' : list string),
    (forall k, In k keywords <-> In k keywords') ->
    findColumnIndex headers keywords = findColumnIndex headers keywords'.
Proof.
  intros headers keywords keywords' H. unfold findColumnIndex.
  generalize 0. induction headers as [|h rest IH]; intros i; [reflexivity |].
  simpl. rewrite (existsb_same_members (fun k => includes h k) _ _ H).
  now rewrite IH.
Qed.

Lemma keyword_order_is_irrelevant_witness :
  findColumnIndex ["notes"; "your question"; "prompt"]
                  ["instruction"; "question"; "query"; "prompt"; "prompt"]
  = findColumnIndex ["notes"; "your question"; "prompt"] promptKeywords.
Proof.
  apply (keyword_order_is_irrelevant ["notes"; "your question"; "prompt"]
           ["instruction"; "question"; "query"; "prompt"; "prompt"] promptKeywords).
  intros k. unfold promptKeywords. simpl. tauto.
Defined.

Lemma first_match_is_found (keywords : list string) (row : list Value)
    (n : nat) (h : string) :
  nth_error (normalizeHeaders row) n = Some h ->
  matches keywords h ->
  (forall m h', (m < n)%nat -> nth_error (normalizeHeaders row) m = Some h' ->
                ~ matches keywords h') ->
  discoverColumn row keywords = Z.of_nat n.
Proof.
  intros Hn Hm Hbefore. unfold discoverColumn, findColumnIndex.
  destruct (findColumnIndex_from_spec keywords (normalizeHeaders row) 0)
    as [[_ Hnone] | [n' [-> [Hlt [Hm' Hb']]]]]; [lia | |].
  - destruct (Hnone h (nth_error_In _ _ Hn) Hm).
  - f_equal. destruct (Nat.lt_trichotomy n' n) as [Hl | [-> | Hl]]; [| reflexivity |].
    + destruct (nth_error (normalizeHeaders row) n') as [h' |] eqn:E.
      * destruct (Hbefore n' h' Hl E).
        now rewrite <- (nth_error_nth _ _ "" E).
      * apply nth_error_None in E. lia.
    + destruct (Hb' n Hl). now rewrite (nth_error_nth _ _ "" Hn).
Qed.

(** X13.  One column can be taken for two roles.  When the first header that
    contains a prompt keyword is also the first that contains a data
    range keyword, both roles get its column, and the builder then looks
    up every prompt text of that column as a data reference. *)
Theorem one_column_can_serve_two_roles :
  forall (Sheet : Type) (ss : Spreadsheet Sheet) (alert : string -> string -> Button)
         (header : list Value) (n : nat) (h : string),
    nth_error (normalizeHeaders header) n = Some h ->
    matches promptKeywords h ->
    matches rangeKeywords h ->
    (forall m h', (m < n)%nat -> nth_error (normalizeHeaders header) m = Some h' ->
                  ~ matches promptKeywords h' /\ ~ matches rangeKeywords h') ->
    discoverColumn header promptKeywords = Z.of_nat n
    /\ discoverColumn header rangeKeywords = Z.of_nat n
    /\ (forall row i s,
          index row (discoverColumn header promptKeywords) = VString s ->
          trim s <> "" ->
          rangeDataOfRow ss alert (discoverColumn header rangeKeywords) row i
          = match fst (resolveReference ss (trim s)) with
            | Normal values => Some values
            | Throw message =>
                match alert "Data Range Issue" (rangeIssueMessage (trim s) i message) with
                | NO => None
                | _ => Some []
                end
            end).
Proof.
  intros Sheet ss alert header n h Hn Hp Hr Hbefore.
  assert (Ep : discoverColumn header promptKeywords = Z.of_nat n).
  { apply (first_match_is_found _ _ _ h Hn Hp). intros m h' Hl E.
    now destruct (Hbefore m h' Hl E). }
  assert (Er : discoverColumn header rangeKeywords = Z.of_nat n).
  { apply (first_match_is_found _ _ _ h Hn Hr). intros m h' Hl E.
    now destruct (Hbefore m h' Hl E). }
  split; [exact Ep |]. split; [exact Er |].
  intros row i s Hs Ht. rewrite Ep in Hs. rewrite Er. unfold rangeDataOfRow.
  destruct (Z.eqb_spec (Z.of_nat n) (-1)) as [E | _]; [lia |].
  rewrite Hs. cbn [negb andb truthy ToString].
  destruct (String.eqb_spec s "") as [-> | _]; [now destruct Ht |].
  destruct (String.eqb_spec (trim s) ""); [contradiction | reflexivity].
Qed.

(** The header "Prompt and data" serves as prompt column and as data
    range column. *)
Lemma one_column_can_serve_two_roles_witness :
  discoverColumn [VString "Step"; VString "Prompt and data"] promptKeywords = 1
  /\ discoverColumn [VString "Step"; VString "Prompt and data"] rangeKeywords = 1.
Proof.
  assert (H := one_column_can_serve_two_roles string sampleSheets alwaysYes
                 [VString "Step"; VString "Prompt and data"] 1 "prompt and data"
                 eq_refl).
  destruct H as [Hp [Hr _]].
  - exists "prompt". split; [now left | now exists "", " and data"].
  - exists "data". split; [right; now left | now exists "prompt and ", ""].
  - intros [|m] h' Hl E; [| lia]. injection E as <-. split.
    + intros [k [Hk Hs]]. apply includes_spec in Hs.
      destruct Hk as [<- | [<- | [<- | [<- | []]]]]; discriminate Hs.
    + intros [k [Hk Hs]]. apply includes_spec in Hs.
      destruct Hk as [<- | [<- | [<- | [<- | []]]]]; discriminate Hs.
  - split; [exact Hp | exact Hr].
Defined.

(* ================================================================== *)
(** * More on data references *)
(* ================================================================== *)

Lemma split_without_separator (s : string) (c : ascii) :
  includesChar s c = false -> split s c = [s].
Proof.
  induction s as [|x s IH]; simpl; [reflexivity |].
  intros H. apply orb_false_iff in H as [Hx Hs]. now rewrite Hx, (IH Hs).
Qed.

(** X14.  Of a reference with more than one separator only the sheet name and
    the text up to the second separator are used; what follows is
    dropped.  A reference with a separator is never looked up as a named
    range nor in the active sheet. *)
Theorem reference_parts_after_second_separator_are_dropped :
  forall (Sheet : Type) (ss : Spreadsheet Sheet) (sheetName address rest : string),
    includesChar sheetName BANG = false ->
    includesChar address BANG = false ->
    resolveReference ss (sheetName ++ String BANG (address ++ String BANG rest))
    = resolveReference ss (sheetName ++ String BANG address)
    /\ (forall target,
          getSheetByName ss sheetName = Some target ->
          resolveReference ss (sheetName ++ String BANG address)
          = (rangeValues ss target address,
             [SheetLookup sheetName; AddressLookup target address])).
Proof.
  intros Sheet ss sheetName address rest Hs Ha.
  assert (E1 : resolveReference ss (sheetName ++ String BANG address)
               = match getSheetByName ss sheetName with
                 | None => (Throw (sheetNotFound sheetName), [SheetLookup sheetName])
                 | Some target =>
                     (rangeValues ss target address,
                      [SheetLookup sheetName; AddressLookup target address])
                 end).
  { unfold resolveReference.
    now rewrite includesChar_app, (split_first _ _ _ Hs),
      (split_without_separator _ _ Ha). }
  split.
  - rewrite E1. unfold resolveReference.
    rewrite includesChar_app, (split_first _ _ _ Hs), (split_first _ _ _ Ha).
    reflexivity.
  - intros target Ht. now rewrite E1, Ht.
Qed.

Lemma reference_parts_after_second_separator_are_dropped_witness :
  resolveReference sampleSheets "Data!A1:B2!C3"
  = (Normal sampleTable, [SheetLookup "Data"; AddressLookup "Data" "A1:B2"]).
Proof.
  exact (eq_trans
           (proj1 (reference_parts_after_second_separator_are_dropped string
                     sampleSheets "Data" "A1:B2" "C3" eq_refl eq_refl))
           (proj2 (reference_parts_after_second_separator_are_dropped string
                     sampleSheets "Data" "A1:B2" "C3" eq_refl eq_refl)
                  "Data" eq_refl)).
Defined.

(* ================================================================== *)
(** * More on the client's builder *)
(* ================================================================== *)

Lemma validRows_text (pc : Z) (rows : list (list Value)) :
  Forall (fun row => exists s, index row pc = VString s /\ trim s <> "")
         (validRows pc rows)
  /\ (length (validRows pc rows) <= length rows)%nat.
Proof.
  induction rows as [|row rest [IH1 IH2]]; [split; [constructor | simpl; lia] |].
  cbn [validRows]. destruct (index row pc) as [| s | n | b] eqn:E;
    try (split; [exact IH1 | simpl; lia]).
  destruct (String.eqb_spec (trim s) "") as [Hs | Hs].
  - split; [exact IH1 | simpl; lia].
  - split; [| simpl; lia]. constructor; [| exact IH1]. now exists s.
Qed.

Lemma discoverColumn_none (row : list Value) (keywords : list string) :
  discoverColumn row keywords = -1
  <-> forall h, In h (normalizeHeaders row) -> ~ matches keywords h.
Proof.
  unfold discoverColumn, findColumnIndex.
  destruct (findColumnIndex_from_spec keywords (normalizeHeaders row) 0)
    as [[E Hnone] | [n [E [Hlt [Hm _]]]]]; [lia | |].
  - split; [intros _; exact Hnone | intros _; exact E].
  - split.
    + intros H. rewrite E in H. lia.
    + intros Hnone. destruct (Hnone _ (nth_In _ "" Hlt) Hm).
Qed.

Section MoreBuilderFacts.

Variable Sheet : Type.
Variable ss : Spreadsheet Sheet.
Variable alert : string -> string -> Button.

Lemma buildLoop_chain_nonempty (pc rc ic : Z) (rows : list (list Value)) :
  forall (i : Z) (acc chain : list Step),
    buildLoop ss alert pc rc ic i rows acc false = Normal (Chain chain) ->
    chain <> [].
Proof.
  induction rows as [|row rest IH]; intros i acc chain; [discriminate |].
  cbn [buildLoop].
  destruct (skipsRow "promptText" (index row pc)) as [[|] | m]; [| | discriminate].
  - apply IH.
  - destruct (rangeDataOfRow ss alert rc row i) as [rangeData |]; [| discriminate].
    intros H. apply buildLoop_chain in H. destruct H as [new [-> _]].
    rewrite <- app_assoc. intros E. apply app_eq_nil in E as [_ E]. discriminate E.
Qed.

Lemma buildLoop_not_refusal (pc rc ic : Z) (rows : list (list Value)) :
  forall (i : Z) (acc : list Step) (has : bool),
    buildLoop ss alert pc rc ic i rows acc has <> Normal InsufficientData
    /\ buildLoop ss alert pc rc ic i rows acc has <> Normal PromptColumnMissing.
Proof.
  induction rows as [|row rest IH]; intros i acc has.
  - simpl. destruct has; split; discriminate.
  - cbn [buildLoop].
    destruct (skipsRow "promptText" (index row pc)) as [[|] | m];
      [apply IH | | split; discriminate].
    destruct (rangeDataOfRow ss alert rc row i); [apply IH | split; discriminate].
Qed.

Lemma buildLoop_throws_at_non_text (pc rc ic : Z) (pre : list (list Value))
    (row : list Value) (post : list (list Value)) :
  Forall (fun r => truthy (index r pc) = false
                   \/ exists s, index r pc = VString s /\ trim s = "") pre ->
  truthy (index row pc) = true ->
  (forall s, index row pc <> VString s) ->
  forall (i : Z) (acc : list Step) (has : bool),
    buildLoop ss alert pc rc ic i (pre ++ row :: post) acc has
    = Throw "promptText.trim is not a function".
Proof.
  intros Hpre Ht Hns. induction Hpre as [|r pre Hr _ IH]; intros i acc has.
  - cbn [app buildLoop]. unfold skipsRow. rewrite Ht. cbn [negb].
    destruct (index row pc) as [| s | n | b]; try reflexivity.
    now destruct (Hns s).
  - cbn [app buildLoop].
    assert (E : skipsRow "promptText" (index r pc) = Normal true).
    { destruct Hr as [Hr | [s [-> Hr]]].
      - unfold skipsRow. now rewrite Hr.
      - now apply skipsRow_blank. }
    rewrite E. apply IH.
Qed.

End MoreBuilderFacts.

(** X15.  A chain the client's builder hands over is never empty and has no
    more steps than the sheet has data rows; each of its prompts holds
    more than white space, and each step carries the empty options. *)
Theorem built_chain_is_well_formed :
  forall (Sheet : Type) (ss : Spreadsheet Sheet) (alert : string -> string -> Button)
         (header : list Value) (rows : list (list Value)) (chain : list Step),
    buildPromptChain ss alert (header :: rows) = Normal (Chain chain) ->
    chain <> []
    /\ (length chain <= length rows)%nat
    /\ Forall (fun s => trim (prompt s) <> "" /\ options s = noOptions) chain.
Proof.
  intros Sheet ss alert header rows chain. unfold buildPromptChain.
  destruct rows as [|row1 more]; [discriminate |].
  destruct (discoverColumn header promptKeywords =? -1); [discriminate |].
  intros H. split; [exact (buildLoop_chain_nonempty _ _ _ _ _ _ _ _ _ _ H) |].
  apply buildLoop_chain in H. destruct H as [new [-> Hnew]]. simpl app.
  destruct (validRows_text (discoverColumn header promptKeywords) (row1 :: more))
    as [Htext Hlen].
  split.
  - rewrite (Forall2_length Hnew). exact Hlen.
  - clear Hlen. revert Htext.
    induction Hnew as [|step row new valid [Hp [_ Ho]] _ IH];
      intros Htext; [constructor |].
    inversion Htext as [|? ? [s [Es Hs]] Hrest]; subst.
    constructor; [| apply IH; exact Hrest]. split; [| exact Ho]. rewrite Hp, Es.
    exact Hs.
Qed.

Lemma built_chain_is_well_formed_witness :
  exists chain,
    buildPromptChain sampleSheets alwaysYes planSheet = Normal (Chain chain)
    /\ chain <> []
    /\ (length chain <= 3)%nat.
Proof.
  eexists. split; [reflexivity |].
  split.
  - eapply (built_chain_is_well_formed string sampleSheets alwaysYes
              (hd [] planSheet) (tl planSheet)).
    reflexivity.
  - eapply (proj1 (proj2 (built_chain_is_well_formed string sampleSheets alwaysYes
                            (hd [] planSheet) (tl planSheet) _ eq_refl))).
Defined.

(** X16.  A prompt cell that holds a number other than 0, or the boolean true,
    stops the client's builder with the error "promptText.trim is not a
    function" when the rows before it are all skipped; rows whose prompt
    cell is 0, false or blank are among the skipped ones. *)
Theorem non_text_prompt_cell_throws :
  forall (Sheet : Type) (ss : Spreadsheet Sheet) (alert : string -> string -> Button)
         (header : list Value) (pre : list (list Value)) (row : list Value)
         (post : list (list Value)),
    let pc := discoverColumn header promptKeywords in
    pc <> -1 ->
    Forall (fun r => truthy (index r pc) = false
                     \/ exists s, index r pc = VString s /\ trim s = "") pre ->
    (exists n, index row pc = VNumber n /\ n <> 0) \/ index row pc = VBoolean true ->
    buildPromptChain ss alert (header :: pre ++ row :: post)
    = Throw "promptText.trim is not a function".
Proof.
  intros Sheet ss alert header pre row post pc Hpc Hpre Hrow.
  assert (E : buildPromptChain ss alert (header :: pre ++ row :: post)
              = buildLoop ss alert pc (discoverColumn header rangeKeywords)
                  (discoverColumn header includeKeywords) 1 (pre ++ row :: post)
                  [] false).
  { unfold buildPromptChain. fold pc.
    destruct (Z.eqb_spec pc (-1)); [contradiction |].
    destruct (pre ++ row :: post)%list as [|r rs] eqn:El; [| reflexivity].
    destruct pre; discriminate El. }
  rewrite E. apply buildLoop_throws_at_non_text; [exact Hpre | |].
  - destruct Hrow as [[n [-> Hn]] | ->]; simpl; [| reflexivity].
    destruct (Z.eqb_spec n 0); [contradiction | reflexivity].
  - intros s. destruct Hrow as [[n [-> _]] | ->]; discriminate.
Qed.

(** A sheet whose first prompt cell is 0 and whose second is 42. *)
Lemma non_text_prompt_cell_throws_witness :
  buildPromptChain sampleSheets alwaysYes
    ([VString "Prompt"] :: [[VNumber 0]] ++ [VNumber 42] :: [[VString "Summarize"]])
  = Throw "promptText.trim is not a function".
Proof.
  apply (non_text_prompt_cell_throws string sampleSheets alwaysYes
           [VString "Prompt"] [[VNumber 0]] [VNumber 42] [[VString "Summarize"]]).
  - discriminate.
  - constructor; [left; reflexivity | constructor].
  - left. exists 42. split; [reflexivity | discriminate].
Defined.

Lemma rangeDataOfRow_without_reference {Sheet : Type} (ss : Spreadsheet Sheet)
    (alert : string -> string -> Button) (rc : Z) (row : list Value) (i : Z) :
  rc = -1 \/ truthy (index row rc) = false \/ trim (ToString (index row rc)) = "" ->
  rangeDataOfRow ss alert rc row i = Some [].
Proof.
  unfold rangeDataOfRow. intros [-> | [H | H]].
  - reflexivity.
  - rewrite H. now rewrite andb_false_r.
  - rewrite H. now destruct (negb (rc =? -1) && truthy (index row rc)).
Qed.

Lemma buildLoop_without_range_column {Sheet Sheet' : Type}
    (ss : Spreadsheet Sheet) (ss' : Spreadsheet Sheet')
    (alert alert' : string -> string -> Button) (pc ic : Z)
    (rows : list (list Value)) :
  forall (i : Z) (acc : list Step) (has : bool),
    buildLoop ss alert pc (-1) ic i rows acc has
    = buildLoop ss' alert' pc (-1) ic i rows acc has.
Proof.
  induction rows as [|row rest IH]; intros i acc has; [reflexivity |].
  cbn [buildLoop].
  destruct (skipsRow "promptText" (index row pc)) as [[|] | m]; [apply IH | | reflexivity].
  rewrite !rangeDataOfRow_without_reference by now left. apply IH.
Qed.

Lemma buildLoop_data_without_range_column {Sheet : Type} (ss : Spreadsheet Sheet)
    (alert : string -> string -> Button) (pc ic : Z) (rows : list (list Value)) :
  forall (i : Z) (acc : list Step) (has : bool) (chain : list Step),
    Forall (fun s => data s = []) acc ->
    buildLoop ss alert pc (-1) ic i rows acc has = Normal (Chain chain) ->
    Forall (fun s => data s = []) chain.
Proof.
  induction rows as [|row rest IH]; intros i acc has chain Hacc.
  - simpl. destruct has; [| discriminate]. intros H. now injection H as <-.
  - cbn [buildLoop].
    destruct (skipsRow "promptText" (index row pc)) as [[|] | m];
      [now apply IH | | discriminate].
    rewrite rangeDataOfRow_without_reference by now left.
    apply IH. apply Forall_app. split; [exact Hacc | now repeat constructor].
Qed.

(** X17.  Without a data range column the client's builder neither reads the
    spreadsheet nor asks the user: it ends the same way on any
    spreadsheet and with any answers, and every step it builds has empty
    data.  With a data range column, a row whose range cell is empty or
    blank gets empty data without a lookup or a question. *)
Theorem no_reference_no_lookup :
  forall (Sheet Sheet' : Type) (ss : Spreadsheet Sheet) (ss' : Spreadsheet Sheet')
         (alert alert' : string -> string -> Button) (sheetData : list (list Value)),
    (discoverColumn (hd [] sheetData) rangeKeywords = -1 ->
     buildPromptChain ss alert sheetData = buildPromptChain ss' alert' sheetData
     /\ forall chain,
          buildPromptChain ss alert sheetData = Normal (Chain chain) ->
          Forall (fun s => data s = []) chain)
    /\ (forall rc row i,
          truthy (index row rc) = false \/ trim (ToString (index row rc)) = "" ->
          rangeDataOfRow ss alert rc row i = Some []).
Proof.
  intros Sheet Sheet' ss ss' alert alert' sheetData. split.
  - intros Hrc. unfold buildPromptChain.
    destruct sheetData as [|header [|row1 more]]; try (split; [reflexivity | discriminate]).
    simpl in Hrc. rewrite Hrc.
    destruct (discoverColumn header promptKeywords =? -1);
      [split; [reflexivity | discriminate] |].
    split; [apply buildLoop_without_range_column |].
    intros chain. apply buildLoop_data_without_range_column. constructor.
  - intros rc row i H. apply rangeDataOfRow_without_reference. now right.
Qed.

(** A sheet with a prompt column only, built against the sample
    spreadsheet with a user who would decline, and against an empty one. *)
Lemma no_reference_no_lookup_witness :
  buildPromptChain sampleSheets alwaysNo
    [[VString "Prompt"]; [VString "Summarize"]; [VString "Conclude"]]
  = buildPromptChain
      {| activeSheet := tt; getSheetByName := fun _ => None;
         namedRangeValues := fun _ => Throw "no names";
         rangeValues := fun _ _ => Throw "no ranges" |}
      alwaysYes
      [[VString "Prompt"]; [VString "Summarize"]; [VString "Conclude"]].
Proof.
  apply (proj1 (no_reference_no_lookup string unit sampleSheets
                  {| activeSheet := tt; getSheetByName := fun _ => None;
                     namedRangeValues := fun _ => Throw "no names";
                     rangeValues := fun _ _ => Throw "no ranges" |}
                  alwaysNo alwaysYes
                  [[VString "Prompt"]; [VString "Summarize"]; [VString "Conclude"]])).
  reflexivity.
Defined.

(** X18.  When the client's builder refuses a sheet.  It reports insufficient
    data exactly when the sheet has fewer than two rows, and a missing
    prompt column exactly when the sheet has two rows or more and no
    header of its first row, lower-cased and trimmed, contains "prompt",
    "query", "question" or "instruction". *)
Theorem builder_refusals :
  forall (Sheet : Type) (ss : Spreadsheet Sheet) (alert : string -> string -> Button)
         (sheetData : list (list Value)),
    (buildPromptChain ss alert sheetData = Normal InsufficientData
     <-> (length sheetData < 2)%nat)
    /\ (buildPromptChain ss alert sheetData = Normal PromptColumnMissing
        <-> (2 <= length sheetData)%nat
            /\ forall h, In h (normalizeHeaders (hd [] sheetData)) ->
                         ~ matches promptKeywords h).
Proof.
  intros Sheet ss alert sheetData. unfold buildPromptChain.
  destruct sheetData as [|header [|row1 more]].
  - split; [split; [intros _; simpl; lia | reflexivity] |].
    split; [discriminate | simpl; intros [H _]; lia].
  - split; [split; [intros _; simpl; lia | reflexivity] |].
    split; [discriminate | simpl; intros [H _]; lia].
  - cbn [hd length]. rewrite <- discoverColumn_none.
    destruct (Z.eqb_spec (discoverColumn header promptKeywords) (-1)) as [E | E].
    + split; [split; [discriminate | lia] |].
      split; [intros _; split; [lia | exact E] | reflexivity].
    + destruct (buildLoop_not_refusal Sheet ss alert
                  (discoverColumn header promptKeywords)
                  (discoverColumn header rangeKeywords)
                  (discoverColumn header includeKeywords)
                  (row1 :: more) 1 [] false) as [H1 H2].
      split; [split; [intros H; now destruct (H1 H) | lia] |].
      split; [intros H; now destruct (H2 H) | intros [_ H]; contradiction].
Qed.

Lemma builder_refusals_witness :
  buildPromptChain sampleSheets alwaysYes [[VString "Prompt"]] = Normal InsufficientData
  /\ buildPromptChain sampleSheets alwaysYes
       [[VString "Step"; VString "Text"]; [VString "1"; VString "Summarize"]]
     = Normal PromptColumnMissing.
Proof.
  split.
  - apply (proj1 (builder_refusals string sampleSheets alwaysYes [[VString "Prompt"]])).
    simpl. lia.
  - apply (proj2 (builder_refusals string sampleSheets alwaysYes
                    [[VString "Step"; VString "Text"];
                     [VString "1"; VString "Summarize"]])).
    split; [simpl; lia |].
    intros h Hin [k [Hk Hs]]. apply includes_spec in Hs.
    destruct Hin as [<- | [<- | []]];
      destruct Hk as [<- | [<- | [<- | [<- | []]]]]; discriminate Hs.
Defined.

(* ================================================================== *)
(** * The template, run as it is created *)
(* ================================================================== *)

Lemma buildPromptChain_prompts {Sheet : Type} (ss : Spreadsheet Sheet)
    (alert : string -> string -> Button) (header : list Value)
    (rows : list (list Value)) (chain : list Step) :
  buildPromptChain ss alert (header :: rows) = Normal (Chain chain) ->
  map prompt chain = validPrompts (discoverColumn header promptKeywords) rows.
Proof.
  unfold buildPromptChain.
  destruct rows as [|row1 more]; [discriminate |].
  destruct (discoverColumn header promptKeywords =? -1); [discriminate |].
  intros H. apply buildLoop_chain in H. destruct H as [new [-> Hnew]].
  simpl app. rewrite validPrompts_validRows.
  apply Forall2_map_eq.
  eapply Forall2_impl; [| exact Hnew]. now intros step row [Hp _].
Qed.

Lemma buildPromptChain_total {Sheet : Type} (ss : Spreadsheet Sheet)
    (alert : string -> string -> Button) (header row1 : list Value)
    (more : list (list Value)) :
  discoverColumn header promptKeywords <> -1 ->
  forallb (fun row => match index row (discoverColumn header promptKeywords) with
                      | VString _ => true
                      | _ => false
                      end) (row1 :: more) = true ->
  validPrompts (discoverColumn header promptKeywords) (row1 :: more) <> [] ->
  (forall title message, alert title message <> NO) ->
  exists chain, buildPromptChain ss alert (header :: row1 :: more) = Normal (Chain chain).
Proof.
  intros Hcol Htext Hvalid Hno. unfold buildPromptChain.
  destruct (Z.eqb_spec (discoverColumn header promptKeywords) (-1)) as [E | _];
    [contradiction |].
  assert (Hall : Forall (fun row => exists s,
                           index row (discoverColumn header promptKeywords) = VString s)
                        (row1 :: more)).
  { apply Forall_forall. intros row Hin.
    pose proof (proj1 (forallb_forall _ _) Htext row Hin) as H. cbv beta in H.
    destruct (index row (discoverColumn header promptKeywords)); try discriminate.
    eexists; reflexivity. }
  destruct (buildLoop_total Sheet ss alert
              (discoverColumn header promptKeywords)
              (discoverColumn header rangeKeywords)
              (discoverColumn header includeKeywords)
              (row1 :: more) Hall Hno 1 [] false) as [new [Hrun Hnew]].
  rewrite Hrun. destruct new as [|step new].
  - destruct Hvalid. now rewrite <- Hnew.
  - now eexists.
Qed.

Lemma template_values_shape :
  getDataRangeValues templateCells
  = hd [] (getDataRangeValues templateCells)
    :: nth 1 (getDataRangeValues templateCells) []
    :: tl (tl (getDataRangeValues templateCells)).
Proof. vm_compute. reflexivity. Qed.

Lemma template_columns :
  length (getDataRangeValues templateCells) = 22%nat
  /\ discoverColumn (hd [] (getDataRangeValues templateCells)) promptKeywords = 0
  /\ discoverColumn (hd [] (getDataRangeValues templateCells)) rangeKeywords = 1
  /\ discoverColumn (hd [] (getDataRangeValues templateCells)) includeKeywords = 2.
Proof. vm_compute. repeat split. Qed.

Lemma template_valid_prompts :
  validPrompts 0 (tl (getDataRangeValues templateCells))
  = (templateSamplePrompts
     ++ ["HELP: How to use this template"; templateHelp;
         "EXAMPLES OF DATA RANGE REFERENCES:";
         "Type"; "Simple Range"; "Sheet Reference"; "Named Range"])%list.
Proof. vm_compute. reflexivity. Qed.

Lemma template_prompt_cells_are_text :
  forallb (fun row => match index row 0 with
                      | VString _ => true
                      | _ => false
                      end) (tl (getDataRangeValues templateCells)) = true.
Proof. vm_compute. reflexivity. Qed.

(** X19.  The sheet [createPromptChainTemplate] creates has its three columns
    found by column discovery, at A, B and C.  Run as it is, it does not
    give the four sample steps only: the help lines and the rows of the
    examples table under them have a text in the prompt column, so every
    chain built from it has eleven steps, whatever the spreadsheet and
    the user's answers; and a chain is built when the user never answers
    NO to a data range issue. *)
Theorem template_help_rows_become_steps :
  forall (Sheet : Type) (ss : Spreadsheet Sheet) (alert : string -> string -> Button),
    let sheetData := getDataRangeValues templateCells in
    length sheetData = 22%nat
    /\ discoverColumn (hd [] sheetData) promptKeywords = 0
    /\ discoverColumn (hd [] sheetData) rangeKeywords = 1
    /\ discoverColumn (hd [] sheetData) includeKeywords = 2
    /\ (forall chain,
          buildPromptChain ss alert sheetData = Normal (Chain chain) ->
          map prompt chain
          = (templateSamplePrompts
             ++ ["HELP: How to use this template"; templateHelp;
                 "EXAMPLES OF DATA RANGE REFERENCES:";
                 "Type"; "Simple Range"; "Sheet Reference"; "Named Range"])%list
          /\ length chain = 11%nat)
    /\ ((forall title message, alert title message <> NO) ->
        exists chain, buildPromptChain ss alert sheetData = Normal (Chain chain)).
Proof.
  intros Sheet ss alert sheetData. subst sheetData.
  destruct template_columns as [Hlen [Hp [Hr Hi]]].
  split; [exact Hlen |]. split; [exact Hp |]. split; [exact Hr |]. split; [exact Hi |].
  split.
  - intros chain H.
    assert (Hprompts : map prompt chain
                       = validPrompts 0 (tl (getDataRangeValues templateCells))).
    { rewrite <- Hp. apply (buildPromptChain_prompts ss alert).
      rewrite <- H. apply (f_equal (buildPromptChain ss alert)).
      vm_compute. reflexivity. }
    rewrite template_valid_prompts in Hprompts.
    split; [exact Hprompts |].
    rewrite <- (length_map prompt), Hprompts. reflexivity.
  - intros Hno. rewrite template_values_shape.
    apply buildPromptChain_total.
    + rewrite Hp. discriminate.
    + rewrite Hp. exact template_prompt_cells_are_text.
    + rewrite Hp.
      change (validPrompts 0 (tl (getDataRangeValues templateCells)) <> []).
      rewrite template_valid_prompts. discriminate.
    + exact Hno.
Qed.

(** Against the sample spreadsheet, with a user who goes on at every
    data range issue. *)
Lemma template_help_rows_become_steps_witness :
  exists chain,
    buildPromptChain sampleSheets alwaysYes (getDataRangeValues templateCells)
    = Normal (Chain chain)
    /\ length chain = 11%nat.
Proof.
  destruct (proj2 (proj2 (proj2 (proj2 (proj2
              (template_help_rows_become_steps string sampleSheets alwaysYes)))))
              ltac:(intros title message; discriminate))
    as [chain H].
  exists chain. split; [exact H |].
  apply (proj1 (proj2 (proj2 (proj2 (proj2
           (template_help_rows_become_steps string sampleSheets alwaysYes)))))
           chain H).
Defined.

(* ================================================================== *)
(** * The result sheets *)
(* ================================================================== *)

Lemma to_int_proper (z : Z) :
  Z.to_int z <> Decimal.Pos Decimal.Nil /\ Z.to_int z <> Decimal.Neg Decimal.Nil.
Proof.
  destruct z as [| p | p]; simpl; split; try discriminate;
    intros H; injection H as H; now apply (Unsigned.to_uint_nonnil p).
Qed.

Lemma numberToString_inj (a b : Z) :
  numberToString a = numberToString b -> a = b.
Proof.
  unfold numberToString. intros H.
  apply (f_equal NilZero.int_of_string) in H.
  destruct (to_int_proper a) as [Ha1 Ha2]. destruct (to_int_proper b) as [Hb1 Hb2].
  rewrite !NilZero.isi in H by assumption. injection H as H.
  apply (f_equal Z.of_int) in H. now rewrite !DecimalZ.of_to in H.
Qed.

Lemma address_eqb (col : string) (a b : Z) :
  String.eqb (col ++ numberToString a) (col ++ numberToString b) = (a =? b).
Proof.
  destruct (Z.eqb_spec a b) as [-> | Hn]; [apply String.eqb_refl |].
  apply String.eqb_neq. intros H. apply Hn, numberToString_inj.
  induction col as [|c col IH]; simpl in H; [exact H | injection H as H; auto].
Qed.

Lemma address_columns (s t : string) :
  String.eqb ("A" ++ s) ("B" ++ t) = false /\ String.eqb ("B" ++ s) ("A" ++ t) = false.
Proof. split; reflexivity. Qed.

Section ResultSheetFacts.

Variable P : Platform.

Lemma writeResults_from_untouched (results : list (ChainResult P)) :
  forall (i n : Z) (chain : list Step) (sheet sheet' : ResultSheet P) (address : string),
    writeResults_from i n chain results sheet = Normal sheet' ->
    (forall j, i <= j ->
       String.eqb ("A" ++ numberToString (j * 5 + 3)) address = false
       /\ String.eqb ("B" ++ numberToString (j * 5 + 3)) address = false
       /\ String.eqb ("A" ++ numberToString (j * 5 + 4)) address = false
       /\ String.eqb ("A" ++ numberToString (j * 5 + 6)) address = false) ->
    readCell sheet' address = readCell sheet address.
Proof.
  induction results as [|r rest IH]; intros i n chain sheet sheet' address H Hfree.
  - simpl in H. now injection H as <-.
  - cbn [writeResults_from] in H.
    destruct (nth_error chain (Z.to_nat i)) as [step |]; [| discriminate].
    apply IH with (address := address) in H; [| intros j Hj; apply Hfree; lia].
    rewrite H. destruct (Hfree i (Z.le_refl i)) as [H1 [H2 [H3 H4]]].
    destruct (i <? n - 1); cbn [readCell writeCell]; now rewrite ?H1, ?H2, ?H3, ?H4.
Qed.

Lemma writeResults_from_cells (results : list (ChainResult P)) :
  forall (i n : Z) (chain : list Step) (sheet : ResultSheet P),
    0 <= i ->
    (Z.to_nat i + length results <= length chain)%nat ->
    exists sheet',
      writeResults_from i n chain results sheet = Normal sheet'
      /\ forall (k : nat) (r : ChainResult P) (step : Step),
           nth_error results k = Some r ->
           nth_error chain (Z.to_nat i + k) = Some step ->
           readCell sheet' ("A" ++ numberToString ((i + Z.of_nat k) * 5 + 3))
             = Some (WrittenText ("Step " ++ numberToString (i + Z.of_nat k + 1) ++ ":"))
           /\ readCell sheet' ("B" ++ numberToString ((i + Z.of_nat k) * 5 + 3))
              = Some (WrittenText (prompt step))
           /\ readCell sheet' ("A" ++ numberToString ((i + Z.of_nat k) * 5 + 4))
              = Some (responseOrSelf r).
Proof.
  induction results as [|r rest IH]; intros i n chain sheet Hi Hlen.
  - exists sheet. split; [reflexivity |]. intros [|k] r step H; discriminate H.
  - cbn [writeResults_from].
    destruct (nth_error chain (Z.to_nat i)) as [step |] eqn:En;
      [| apply nth_error_None in En; simpl in Hlen; lia].
    match goal with
    | |- exists s, writeResults_from _ _ _ _ ?s1 = _ /\ _ =>
        destruct (IH (i + 1) n chain s1) as [sheet' [Hrun Hcells]];
          [lia | rewrite Z2Nat.inj_add by lia; simpl in Hlen |- *; lia |]
    end.
    exists sheet'. split; [exact Hrun |].
    intros [|k] r' step' Hr Hs.
    + simpl in Hr. injection Hr as <-.
      rewrite Nat.add_0_r, En in Hs. injection Hs as <-.
      replace (i + Z.of_nat 0) with i by lia.
      assert (Hfree : forall c m, (c = "A" \/ c = "B") -> (m = 3 \/ m = 4) ->
                forall j, i + 1 <= j ->
                  String.eqb ("A" ++ numberToString (j * 5 + 3))
                             (c ++ numberToString (i * 5 + m)) = false
                  /\ String.eqb ("B" ++ numberToString (j * 5 + 3))
                                (c ++ numberToString (i * 5 + m)) = false
                  /\ String.eqb ("A" ++ numberToString (j * 5 + 4))
                                (c ++ numberToString (i * 5 + m)) = false
                  /\ String.eqb ("A" ++ numberToString (j * 5 + 6))
                                (c ++ numberToString (i * 5 + m)) = false).
      { intros c m [-> | ->] Hm j Hj;
          rewrite ?address_eqb, ?(proj1 (address_columns _ _)),
            ?(proj2 (address_columns _ _));
          repeat split; try reflexivity; apply Z.eqb_neq; lia. }
      rewrite (writeResults_from_untouched _ _ _ _ _ _ _ Hrun
                 (Hfree "A" 3 (or_introl eq_refl) (or_introl eq_refl))).
      rewrite (writeResults_from_untouched _ _ _ _ _ _ _ Hrun
                 (Hfree "B" 3 (or_intror eq_refl) (or_introl eq_refl))).
      rewrite (writeResults_from_untouched _ _ _ _ _ _ _ Hrun
                 (Hfree "A" 4 (or_introl eq_refl) (or_intror eq_refl))).
      assert (E64 : String.eqb ("A" ++ numberToString (i * 5 + 6))
                               ("A" ++ numberToString (i * 5 + 4)) = false)
        by (rewrite address_eqb; apply Z.eqb_neq; lia).
      assert (E63 : String.eqb ("A" ++ numberToString (i * 5 + 6))
                               ("A" ++ numberToString (i * 5 + 3)) = false)
        by (rewrite address_eqb; apply Z.eqb_neq; lia).
      assert (E43 : String.eqb ("A" ++ numberToString (i * 5 + 4))
                               ("A" ++ numberToString (i * 5 + 3)) = false)
        by (rewrite address_eqb; apply Z.eqb_neq; lia).
      pose proof (address_columns (numberToString (i * 5 + 6))
                    (numberToString (i * 5 + 3))) as [EAB6 _].
      pose proof (address_columns (numberToString (i * 5 + 4))
                    (numberToString (i * 5 + 3))) as [EAB4 _].
      pose proof (address_columns (numberToString (i * 5 + 3))
                    (numberToString (i * 5 + 3))) as [_ EBA3].
      destruct (i <? n - 1); cbn [readCell writeCell];
        rewrite ?E64, ?E63, ?E43, ?EAB6, ?EAB4, ?EBA3, ?String.eqb_refl;
        repeat split.
    + simpl in Hr.
      replace (i + Z.of_nat (S k)) with (i + 1 + Z.of_nat k) by lia.
      apply Hcells; [exact Hr |].
      replace (Z.to_nat (i + 1) + k)%nat with (Z.to_nat i + S k)%nat by lia.
      exact Hs.
Qed.

End ResultSheetFacts.

(** X20.  The client's result sheet.  When there are no more results than
    steps, as after every run that returns, the sheet is written and
    keeps, for every step, the heading "Step k:" in column A and the
    step's prompt in column B of row 5i+3, and the step's response in
    column A of row 5i+4, with the title in A1: no later write, the empty
    separator rows included, overwrites them. *)
Theorem result_sheet_keeps_every_step :
  forall (P : Platform) (chain : list Step) (results : list (ChainResult P)),
    (length results <= length chain)%nat ->
    exists sheet,
      writeResults chain results = Normal sheet
      /\ readCell sheet "A1" = Some (WrittenText "Prompt Chain Results")
      /\ forall (i : nat) (r : ChainResult P) (step : Step),
           nth_error results i = Some r ->
           nth_error chain i = Some step ->
           readCell sheet ("A" ++ numberToString (Z.of_nat i * 5 + 3))
             = Some (WrittenText ("Step " ++ numberToString (Z.of_nat i + 1) ++ ":"))
           /\ readCell sheet ("B" ++ numberToString (Z.of_nat i * 5 + 3))
              = Some (WrittenText (prompt step))
           /\ readCell sheet ("A" ++ numberToString (Z.of_nat i * 5 + 4))
              = Some (responseOrSelf r).
Proof.
  intros P chain results Hlen. unfold writeResults.
  destruct (writeResults_from_cells P results 0 (Z.of_nat (length results)) chain
              (writeCell "A1" (WrittenText "Prompt Chain Results") []))
    as [sheet [Hrun Hcells]]; [lia | simpl; lia |].
  exists sheet. split; [exact Hrun |]. split.
  - rewrite (writeResults_from_untouched P _ _ _ _ _ _ "A1" Hrun); [reflexivity |].
    intros j Hj. change "A1" with ("A" ++ numberToString 1).
    rewrite ?(address_eqb "A"), ?(proj2 (address_columns _ _)).
    repeat split; try reflexivity; apply Z.eqb_neq; lia.
  - intros i r step Hr Hs. apply (Hcells i r step Hr Hs).
Qed.

(** The results of the run "Summarize", "Elaborate" of the fallback
    executor. *)
Lemma result_sheet_keeps_every_step_witness :
  exists sheet,
    writeResults (P := steadyService) [stepSummarize; stepElaborate]
      [TextResult "first answer"; TextResult "second answer"] = Normal sheet
    /\ readCell sheet "A4" = Some (WrittenText "first answer")
    /\ readCell sheet "A9" = Some (WrittenText "second answer")
    /\ readCell sheet "B8" = Some (WrittenText "Elaborate").
Proof.
  destruct (result_sheet_keeps_every_step steadyService
              [stepSummarize; stepElaborate]
              [TextResult "first answer"; TextResult "second answer"])
    as [sheet [Hrun [_ Hcells]]]; [simpl; lia |].
  exists sheet. split; [exact Hrun |].
  destruct (Hcells 0%nat _ _ eq_refl eq_refl) as [_ [_ H0]].
  destruct (Hcells 1%nat _ _ eq_refl eq_refl) as [_ [H1 H2]].
  split; [exact H0 |]. split; [exact H2 | exact H1].
Defined.

Section LibResultSheetFacts.

Variable P : Platform.

Lemma lib_writeResults_from_untouched (results : list (Reply P)) :
  forall (i n : Z) (sheet : ResultSheet P) (address : string),
    (forall j, i <= j ->
       String.eqb ("A" ++ numberToString (j * 4 + 3)) address = false
       /\ String.eqb ("A" ++ numberToString (j * 4 + 4)) address = false
       /\ String.eqb ("A" ++ numberToString (j * 4 + 6)) address = false) ->
    readCell (lib_writeResults_from i n results sheet) address = readCell sheet address.
Proof.
  induction results as [|r rest IH]; intros i n sheet address Hfree; [reflexivity |].
  cbn [lib_writeResults_from].
  rewrite IH by (intros j Hj; apply Hfree; lia).
  destruct (Hfree i (Z.le_refl i)) as [H1 [H2 H3]].
  destruct (i <? n - 1); cbn [readCell writeCell]; now rewrite ?H1, ?H2, ?H3.
Qed.

Lemma lib_writeResults_from_cells (results : list (Reply P)) :
  forall (i n : Z) (sheet : ResultSheet P) (k : nat) (r : Reply P),
    0 <= i ->
    nth_error results k = Some r ->
    readCell (lib_writeResults_from i n results sheet)
      ("A" ++ numberToString ((i + Z.of_nat k) * 4 + 3))
    = Some (WrittenText ("Step " ++ numberToString (i + Z.of_nat k + 1) ++ ":"))
    /\ readCell (lib_writeResults_from i n results sheet)
         ("A" ++ numberToString ((i + Z.of_nat k) * 4 + 4))
       = Some (WrittenText (response r)).
Proof.
  induction results as [|r0 rest IH]; intros i n sheet k r Hi Hr.
  - destruct k; discriminate Hr.
  - cbn [lib_writeResults_from]. destruct k as [|k].
    + simpl in Hr. injection Hr as <-.
      replace (i + Z.of_nat 0) with i by lia.
      assert (Hfree : forall m, (m = 3 \/ m = 4) ->
                forall j, i + 1 <= j ->
                  String.eqb ("A" ++ numberToString (j * 4 + 3))
                             ("A" ++ numberToString (i * 4 + m)) = false
                  /\ String.eqb ("A" ++ numberToString (j * 4 + 4))
                                ("A" ++ numberToString (i * 4 + m)) = false
                  /\ String.eqb ("A" ++ numberToString (j * 4 + 6))
                                ("A" ++ numberToString (i * 4 + m)) = false).
      { intros m Hm j Hj. rewrite !(address_eqb "A").
        repeat split; apply Z.eqb_neq; lia. }
      rewrite !lib_writeResults_from_untouched by (apply Hfree; auto).
      assert (E64 : String.eqb ("A" ++ numberToString (i * 4 + 6))
                               ("A" ++ numberToString (i * 4 + 4)) = false)
        by (rewrite address_eqb; apply Z.eqb_neq; lia).
      assert (E63 : String.eqb ("A" ++ numberToString (i * 4 + 6))
                               ("A" ++ numberToString (i * 4 + 3)) = false)
        by (rewrite address_eqb; apply Z.eqb_neq; lia).
      assert (E43 : String.eqb ("A" ++ numberToString (i * 4 + 4))
                               ("A" ++ numberToString (i * 4 + 3)) = false)
        by (rewrite address_eqb; apply Z.eqb_neq; lia).
      destruct (i <? n - 1); cbn [readCell writeCell];
        rewrite ?E64, ?E63, ?E43, ?String.eqb_refl; split; reflexivity.
    + simpl in Hr.
      replace (i + Z.of_nat (S k)) with (i + 1 + Z.of_nat k) by lia.
      apply IH; [lia | exact Hr].
Qed.

End LibResultSheetFacts.

(** X21.  The result sheet of the library's dialog keeps, for every reply, the
    heading "Step k:" in A(4i+3) and the response text in A(4i+4), with
    the title in A1: the empty separator cells at A(4i+6) and the cells
    of later steps fall on other rows. *)
Theorem library_result_sheet_keeps_every_step :
  forall (P : Platform) (results : list (Reply P)) (i : nat) (r : Reply P),
    nth_error results i = Some r ->
    readCell (lib_writeResults results) ("A" ++ numberToString (Z.of_nat i * 4 + 3))
      = Some (WrittenText ("Step " ++ numberToString (Z.of_nat i + 1) ++ ":"))
    /\ readCell (lib_writeResults results) ("A" ++ numberToString (Z.of_nat i * 4 + 4))
       = Some (WrittenText (response r))
    /\ readCell (lib_writeResults results) "A1"
       = Some (WrittenText "Prompt Chain Results").
Proof.
  intros P results i r Hr. unfold lib_writeResults.
  destruct (lib_writeResults_from_cells P results 0 (Z.of_nat (length results))
              (writeCell "A1" (WrittenText "Prompt Chain Results") []) i r
              (Z.le_refl 0) Hr) as [H1 H2].
  split; [exact H1 |]. split; [exact H2 |].
  rewrite lib_writeResults_from_untouched; [reflexivity |].
  intros j Hj. change "A1" with ("A" ++ numberToString 1).
  rewrite !(address_eqb "A"). repeat split; apply Z.eqb_neq; lia.
Qed.

Lemma library_result_sheet_keeps_every_step_witness :
  readCell (lib_writeResults
              [Build_Reply steadyService "first answer" "first answer";
               Build_Reply steadyService "second answer" "second answer"]) "A8"
  = Some (WrittenText "second answer").
Proof.
  apply (library_result_sheet_keeps_every_step steadyService
           [Build_Reply steadyService "first answer" "first answer";
            Build_Reply steadyService "second answer" "second answer"]
           1%nat (Build_Reply steadyService "second answer" "second answer")).
  reflexivity.
Defined.

(* ================================================================== *)
(** * Single prompts *)
(* ================================================================== *)

Section SinglePromptFacts.

Variable P : Platform.
Variable Sheet : Type.
Variable ss : Spreadsheet Sheet.
Variable dataRangeValues : Outcome TabularData.
Variable lib_writeResult : string -> Outcome unit.
Variable direct_writeResult : string -> Outcome unit.

Lemma sheetValues_range (rangeStr : string) :
  sheetValues ss dataRangeValues (if String.eqb rangeStr "" then None else Some rangeStr)
  = sheetValues ss dataRangeValues (Some rangeStr).
Proof.
  unfold sheetValues. destruct (String.eqb rangeStr "") eqn:E; [reflexivity |].
  now rewrite E.
Qed.

Lemma processDirectly_world (text rangeStr : string) (includeHeaders : bool)
    (values : TabularData) (w : World) :
  sheetValues ss dataRangeValues (Some rangeStr) = Normal values ->
  snd (processDirectly P ss dataRangeValues direct_writeResult text rangeStr
         includeHeaders w)
  = snd (callClaudeAPI P
           (fullPromptSingle text (if includeHeaders then values else tl values)) w).
Proof.
  intros H. unfold processDirectly, bind, lift. rewrite H.
  destruct (callClaudeAPI P
              (fullPromptSingle text (if includeHeaders then values else tl values)) w)
    as [[r | m] w1]; [| reflexivity].
  simpl. now destruct (direct_writeResult r).
Qed.

End SinglePromptFacts.

(** X22.  [processDirectly] sends the prompt followed by the data heading and
    the rows read, the first row left out when headers are not wanted;
    the heading is there also when no row is left.  When the range cannot
    be read nothing is sent, and the error is shown in an alert. *)
Theorem single_prompt_fallback :
  forall (P : Platform) (Sheet : Type) (ss : Spreadsheet Sheet)
         (dataRangeValues : Outcome TabularData)
         (direct_writeResult : string -> Outcome unit)
         (text rangeStr : string) (includeHeaders : bool) (w : World),
    (forall values,
        sheetValues ss dataRangeValues (Some rangeStr) = Normal values ->
        truthyText (savedKey P) = true ->
        promptsSent (snd (processDirectly P ss dataRangeValues direct_writeResult
                            text rangeStr includeHeaders w))
        = (promptsSent w
           ++ [(text ++ dataHeading
                ++ renderRows (if includeHeaders then values else tl values))%string])%list)
    /\ (forall message,
          sheetValues ss dataRangeValues (Some rangeStr) = Throw message ->
          processDirectly P ss dataRangeValues direct_writeResult
            text rangeStr includeHeaders w
          = ([AlertShown "Error" ("Error processing data: " ++ message)], w)).
Proof.
  intros P Sheet ss dataRangeValues direct_writeResult text rangeStr includeHeaders w.
  split.
  - intros values Hv Hk.
    rewrite (processDirectly_world P Sheet ss dataRangeValues direct_writeResult
               text rangeStr includeHeaders values w Hv).
    now rewrite callClaudeAPI_prompt.
  - intros message Hv. unfold processDirectly, bind, lift. now rewrite Hv.
Qed.

(** Of a sheet that holds a header row only, nothing is left without
    the headers: the prompt still ends in the data heading. *)
Lemma single_prompt_fallback_witness :
  promptsSent (snd (processDirectly steadyService sampleSheets
                      (Normal [[VString "Name"; VString "Amount"]])
                      (fun _ => Normal tt) "Summarize" "" false freshWorld))
  = ["Summarize" ++ LF ++ LF ++ "Here is the data from the table:" ++ LF ++ LF].
Proof.
  apply (proj1 (single_prompt_fallback steadyService string sampleSheets
                  (Normal [[VString "Name"; VString "Amount"]])
                  (fun _ => Normal tt) "Summarize" "" false freshWorld)
           [[VString "Name"; VString "Amount"]]); reflexivity.
Defined.

(** X23.  In library mode a failed library call is followed by the fallback:
    when the completion service answers the library's request with a code
    other than 200, [processWithCellMind] shows the library's error and
    sends the prompt a second time through [processDirectly], so one
    command sends two requests; their texts are the same when a data row
    is left. *)
Theorem failed_library_call_is_sent_again :
  forall (P : Platform) (Sheet : Type) (ss : Spreadsheet Sheet)
         (dataRangeValues : Outcome TabularData)
         (lib_writeResult direct_writeResult : string -> Outcome unit)
         (promptText rangeText : string) (headersButton : Button) (w : World)
         (values : TabularData) (code : Z) (body : string),
    let text := trim promptText in
    let includeHeaders := match headersButton with YES => true | _ => false end in
    let processedData := if includeHeaders then values else tl values in
    let run := processWithCellMind P ss dataRangeValues lib_writeResult
                 direct_writeResult true (OK, promptText) (OK, rangeText)
                 headersButton w in
    truthyText (savedKey P) = true ->
    text <> "" ->
    sheetValues ss dataRangeValues (Some (trim rangeText)) = Normal values ->
    fetch P (sent w) (libRequest P w text processedData noOptions)
      = HttpResponse code body ->
    code <> 200 ->
    hd (AlertShown "" "") (fst run)
      = AlertShown "Library Error"
          ("Error using library: "
           ++ ("Error during API request: "
               ++ ("API error (" ++ numberToString code ++ "): " ++ body))
           ++ LF ++ "Switching to fallback mode...")
    /\ promptsSent (snd run)
       = (promptsSent w
          ++ [fullPromptLib text processedData; fullPromptSingle text processedData])%list
    /\ (processedData <> [] ->
        fullPromptLib text processedData = fullPromptSingle text processedData).
Proof.
  intros P Sheet ss dataRangeValues lib_writeResult direct_writeResult
    promptText rangeText headersButton w values code body
    text includeHeaders processedData run Hk Htext Hv Hf Hc.
  assert (Hhas : hasKey P w = true) by (unfold hasKey; rewrite Hk; apply orb_true_r).
  assert (Hlib : processCurrentSheet P ss dataRangeValues text
                   (if String.eqb (trim rangeText) "" then None else Some (trim rangeText))
                   (Some includeHeaders) noOptions w
                 = (Throw ("Error during API request: "
                           ++ ("API error (" ++ numberToString code ++ "): " ++ body)),
                    {| apiKey := libKey P w;
                       sent := sent w ++ [libRequest P w text processedData noOptions] |})).
  { unfold processCurrentSheet, bind at 1, lift. rewrite sheetValues_range, Hv.
    replace (match Some includeHeaders with
             | Some false => tl values
             | _ => values
             end) with processedData by (unfold processedData; now destruct includeHeaders).
    rewrite sendPrompt_run, Hhas. cbv zeta. rewrite Hf.
    destruct (Z.eqb_spec code 200); [contradiction | reflexivity]. }
  assert (Hrun : run
                 = (AlertShown "Library Error"
                      ("Error using library: "
                       ++ ("Error during API request: "
                           ++ ("API error (" ++ numberToString code ++ "): " ++ body))
                       ++ LF ++ "Switching to fallback mode...")
                    :: fst (processDirectly P ss dataRangeValues direct_writeResult
                              text (trim rangeText) includeHeaders
                              {| apiKey := libKey P w;
                                 sent := sent w
                                         ++ [libRequest P w text processedData noOptions] |}),
                    snd (processDirectly P ss dataRangeValues direct_writeResult
                           text (trim rangeText) includeHeaders
                           {| apiKey := libKey P w;
                              sent := sent w
                                      ++ [libRequest P w text processedData noOptions] |}))).
  { unfold run, processWithCellMind. rewrite Hk. cbn [negb fst snd]. fold text.
    destruct (String.eqb_spec text ""); [contradiction |].
    fold includeHeaders. unfold bind at 1. rewrite Hlib.
    now destruct (processDirectly P ss dataRangeValues direct_writeResult text
                    (trim rangeText) includeHeaders _). }
  rewrite Hrun. cbn [fst snd hd]. split; [reflexivity |]. split.
  - rewrite (processDirectly_world P Sheet ss dataRangeValues direct_writeResult
               text (trim rangeText) includeHeaders values _ Hv).
    fold processedData. rewrite callClaudeAPI_prompt by exact Hk.
    rewrite promptsSent_snoc. rewrite <- app_assoc. simpl. now destruct w.
  - intros Hne. unfold fullPromptLib, fullPromptSingle, _formatDataAsTable.
    destruct processedData; [contradiction | reflexivity].
Qed.

(** The failing service answers its second request with a 500: after one
    request already in the log, the command sends two more. *)
Lemma failed_library_call_is_sent_again_witness :
  length (sent (snd (processWithCellMind failingService sampleSheets
                       (Normal sampleTable) (fun _ => Normal tt) (fun _ => Normal tt)
                       true (OK, " Summarize ") (OK, "") YES
                       {| apiKey := None;
                          sent := [directRequest failingService "Earlier"] |})))
  = 3%nat.
Proof.
  pose proof (failed_library_call_is_sent_again failingService string sampleSheets
                (Normal sampleTable) (fun _ => Normal tt) (fun _ => Normal tt)
                " Summarize " "" YES
                {| apiKey := None; sent := [directRequest failingService "Earlier"] |}
                sampleTable 500 "overloaded" eq_refl ltac:(discriminate) eq_refl
                eq_refl ltac:(discriminate)) as [_ [H _]].
  apply (f_equal (@length string)) in H. unfold promptsSent in H.
  rewrite length_map in H. exact H.
Defined.

(* ================================================================== *)
(** * The library's dialog builder *)
(* ================================================================== *)

Lemma lib_buildLoop_skips {Sheet : Type} (ss : Spreadsheet Sheet)
    (pre rest : list (list Value)) :
  Forall (fun r => truthy (index r 0) = false
                   \/ exists s, index r 0 = VString s /\ trim s = "") pre ->
  forall (i : Z) (acc : list Step),
    lib_buildLoop ss i (pre ++ rest) acc
    = lib_buildLoop ss (i + Z.of_nat (length pre)) rest acc.
Proof.
  intros Hpre. induction Hpre as [|r pre Hr _ IH]; intros i acc.
  - simpl. now rewrite Z.add_0_r.
  - cbn [app lib_buildLoop].
    assert (E : skipsRow "prompt" (index r 0) = Normal true).
    { destruct Hr as [Hr | [s [-> Hr]]].
      - unfold skipsRow. now rewrite Hr.
      - now apply skipsRow_blank. }
    rewrite E, IH. f_equal. simpl length. lia.
Qed.

(** X24.  The library's dialog gives up at the first row whose range cannot be
    read, without asking: after rows that are skipped, a row with a
    prompt and an unreadable range ends the building with the range text
    and the number of the row in the sheet, the header being row 1.  The
    header row itself is never looked at. *)
Theorem library_builder_stops_at_unreadable_range :
  forall (Sheet : Type) (ss : Spreadsheet Sheet) (header : list Value)
         (pre : list (list Value)) (row : list Value) (post : list (list Value))
         (p r message : string),
    Forall (fun x => truthy (index x 0) = false
                     \/ exists s, index x 0 = VString s /\ trim s = "") pre ->
    index row 0 = VString p ->
    trim p <> "" ->
    index row 1 = VString r ->
    trim r <> "" ->
    rangeValues ss (activeSheet ss) r = Throw message ->
    lib_buildPromptChain ss (header :: pre ++ row :: post)
    = Normal (LibInvalidRange r (Z.of_nat (length pre) + 2))
    /\ forall header',
         lib_buildPromptChain ss (header' :: pre ++ row :: post)
         = lib_buildPromptChain ss (header :: pre ++ row :: post).
Proof.
  intros Sheet ss header pre row post p r message Hpre Hp Htp Hr Htr Hrange.
  assert (E : forall h, lib_buildPromptChain ss (h :: pre ++ row :: post)
                        = lib_buildLoop ss 1 (pre ++ row :: post) []).
  { intros h. unfold lib_buildPromptChain.
    destruct (pre ++ row :: post)%list as [|x xs] eqn:El; [| reflexivity].
    destruct pre; discriminate El. }
  split; [| intros header'; now rewrite !E].
  rewrite E, (lib_buildLoop_skips ss pre (row :: post) Hpre).
  cbn [lib_buildLoop]. rewrite Hp, Hr. unfold skipsRow, lib_rangeData.
  cbn [truthy ToString].
  destruct (String.eqb_spec p "") as [-> | _]; [now destruct Htp |]. cbn [negb].
  destruct (String.eqb_spec (trim p) ""); [contradiction |].
  destruct (String.eqb_spec r "") as [-> | _]; [now destruct Htr |]. cbn [negb].
  destruct (String.eqb_spec (trim r) ""); [contradiction |]. cbn [negb].
  rewrite Hrange. do 2 f_equal. lia.
Qed.

(** A blank row, then a prompt with a range that does not exist. *)
Lemma library_builder_stops_at_unreadable_range_witness :
  lib_buildPromptChain sampleSheets
    ([VString "Prompt"; VString "Range"]
     :: [[VString ""; VString ""]]
        ++ [VString "Summarize"; VString "Z9:Z10"] :: [[VString "Conclude"; VString ""]])
  = Normal (LibInvalidRange "Z9:Z10" 3).
Proof.
  apply (library_builder_stops_at_unreadable_range string sampleSheets
           [VString "Prompt"; VString "Range"] [[VString ""; VString ""]]
           [VString "Summarize"; VString "Z9:Z10"] [[VString "Conclude"; VString ""]]
           "Summarize" "Z9:Z10" "Range not found").
  - constructor; [right; exists ""; split; reflexivity | constructor].
  - reflexivity.
  - discriminate.
  - reflexivity.
  - discriminate.
  - reflexivity.
Defined.
